(** * olive2022: the image-to-deployment pipeline, embedded and verified

    A shallow embedding of [olive2022.py]: the identity derivation
    ([vmnetx_url_to_uuid]), the conversion pipeline ([convert]) and the
    deployment waiter ([stage2]), together with the parts of the Python
    standard library they call ([urllib.parse], [uuid], [int], [str]
    methods).

    Text is modelled as [string], a sequence of 8-bit characters: a Python
    [str] whose code points are all below 256, one character for each
    code point.  Text with other code points is outside the model.  Python
    integers are [Z]. *)

From Stdlib Require Import ZArith List String Ascii Bool Lia DecimalString.
Import ListNotations.

Local Open Scope string_scope.
Local Open Scope Z_scope.

(* ===================================================================== *)
(** ** Python string methods *)
(* ===================================================================== *)

Module PyStr.

(** [c in s] *)
Fixpoint has_char (c : ascii) (s : string) : bool :=
  match s with
  | EmptyString => false
  | String a s' => Ascii.eqb a c || has_char c s'
  end.

(** [s.split(c, 1)] when [c] occurs in [s]: the text before the first
    occurrence and the text after it; [None] when [c] does not occur
    (Python then returns the one-element list [[s]]). *)
Fixpoint partition (c : ascii) (s : string) : option (string * string) :=
  match s with
  | EmptyString => None
  | String a s' =>
      if Ascii.eqb a c then Some (EmptyString, s')
      else match partition c s' with
           | Some (l, r) => Some (String a l, r)
           | None => None
           end
  end.

(** The text before and after the last occurrence of [c]
    ([s[:s.rfind(c)]] and [s[s.rfind(c)+1:]]). *)
Fixpoint rpartition (c : ascii) (s : string) : option (string * string) :=
  match s with
  | EmptyString => None
  | String a s' =>
      match rpartition c s' with
      | Some (l, r) => Some (String a l, r)
      | None => if Ascii.eqb a c then Some (EmptyString, s') else None
      end
  end.

Fixpoint forallb (p : ascii -> bool) (s : string) : bool :=
  match s with
  | EmptyString => true
  | String a s' => p a && forallb p s'
  end.

Fixpoint filter (p : ascii -> bool) (s : string) : string :=
  match s with
  | EmptyString => EmptyString
  | String a s' => if p a then String a (filter p s') else filter p s'
  end.

(** [s.lstrip(chars)], with [chars] given as a predicate. *)
Fixpoint lstrip (p : ascii -> bool) (s : string) : string :=
  match s with
  | EmptyString => EmptyString
  | String a s' => if p a then lstrip p s' else s
  end.

Fixpoint map (f : ascii -> ascii) (s : string) : string :=
  match s with
  | EmptyString => EmptyString
  | String a s' => String (f a) (map f s')
  end.

Definition code (c : ascii) : Z := Z.of_N (N_of_ascii c).

Definition is_upper (c : ascii) : bool := (65 <=? code c) && (code c <=? 90).
Definition is_lower (c : ascii) : bool := (97 <=? code c) && (code c <=? 122).
Definition is_alpha (c : ascii) : bool := is_upper c || is_lower c.
Definition is_digit (c : ascii) : bool := (48 <=? code c) && (code c <=? 57).

(** The capital letters with a lower-case form: A to Z, and below code
    point 256 the letters from 192 to 222 but the multiplication sign. *)
Definition has_lower (c : ascii) : bool :=
  is_upper c
  || ((192 <=? code c) && (code c <=? 222) && negb (code c =? 215)).

Definition lower_char (c : ascii) : ascii :=
  if has_lower c then ascii_of_N (N_of_ascii c + 32) else c.

(** [s.lower()] *)
Definition lower (s : string) : string := map lower_char s.

(** [s.startswith(p)] *)
Definition startswith (p s : string) : bool := String.prefix p s.

(** [s[:-1]] *)
Fixpoint drop_last (s : string) : string :=
  match s with
  | EmptyString => EmptyString
  | String a EmptyString => EmptyString
  | String a s' => String a (drop_last s')
  end.

(** [str(n)] for an integer. *)
Definition of_Z (n : Z) : string := NilZero.string_of_int (Z.to_int n).

(** [sep.join(l)] *)
Fixpoint join (sep : string) (l : list string) : string :=
  match l with
  | [] => EmptyString
  | [x] => x
  | x :: l' => x ++ sep ++ join sep l'
  end.

Definition member (s : string) (l : list string) : bool :=
  existsb (String.eqb s) l.

(** [c.isprintable()] *)
Definition is_printable (c : ascii) : bool :=
  ((32 <=? code c) && (code c <=? 126))
  || ((161 <=? code c) && negb (code c =? 173)).

Definition hex_char (d : Z) : ascii :=
  if d <? 10 then ascii_of_N (Z.to_N (48 + d))
  else ascii_of_N (Z.to_N (87 + d)).

(** One character of [repr(s)] between the quotes [quote]. *)
Definition escape (quote c : ascii) : string :=
  if Ascii.eqb c quote || Ascii.eqb c "\" then String "\" (String c EmptyString)
  else if code c =? 9 then "\t"
  else if code c =? 10 then "\n"
  else if code c =? 13 then "\r"
  else if is_printable c then String c EmptyString
  else String "\" (String "x" (String (hex_char (code c / 16))
                                     (String (hex_char (code c mod 16))
                                             EmptyString))).

Fixpoint escape_all (quote : ascii) (s : string) : string :=
  match s with
  | EmptyString => EmptyString
  | String c s' => escape quote c ++ escape_all quote s'
  end.

(** [repr(s)]: double quotes when the text has a single quote and no
    double quote, single quotes otherwise. *)
Definition repr (s : string) : string :=
  let quote : ascii :=
    if has_char "'" s && negb (has_char "034" s) then "034"%char
    else "'"%char in
  String quote (escape_all quote s ++ String quote EmptyString).

End PyStr.

(* ===================================================================== *)
(** ** ipaddress: what [urlsplit] asks of a bracketed host *)
(* ===================================================================== *)

Module IpAddress.
Import PyStr.

(** [s.split(c)] *)
Fixpoint split (c : ascii) (s : string) : list string :=
  match s with
  | EmptyString => [EmptyString]
  | String a s' =>
      if Ascii.eqb a c then EmptyString :: split c s'
      else match split c s' with
           | h :: t => String a h :: t
           | [] => [String a EmptyString]
           end
  end.

Definition is_empty (s : string) : bool :=
  match s with EmptyString => true | _ => false end.

Fixpoint decimal (acc : Z) (s : string) : Z :=
  match s with
  | EmptyString => acc
  | String c s' => decimal (10 * acc + (code c - 48)) s'
  end.

(** [_BaseV4._parse_octet] does not raise. *)
Definition valid_octet (o : string) : bool :=
  negb (is_empty o)
  && forallb is_digit o
  && (Nat.leb (String.length o) 3)
  && (String.eqb o "0" || negb (startswith "0" o))
  && (decimal 0 o <=? 255).

(** [IPv4Address(s)] does not raise. *)
Definition valid4 (s : string) : bool :=
  negb (has_char "/" s)
  && match split "." s with
     | [a; b; c; d] =>
         valid_octet a && valid_octet b && valid_octet c && valid_octet d
     | _ => false
     end.

Definition is_hex (c : ascii) : bool :=
  is_digit c
  || ((97 <=? code c) && (code c <=? 102))
  || ((65 <=? code c) && (code c <=? 70)).

(** [_BaseV6._parse_hextet] does not raise ([int("", 16)] does). *)
Definition valid_hextet (h : string) : bool :=
  forallb is_hex h && (Nat.leb (String.length h) 4) && negb (is_empty h).

(** The indices, counted from [i], of the empty strings of [l]. *)
Fixpoint empties (i : nat) (l : list string) : list nat :=
  match l with
  | [] => []
  | x :: l' => if is_empty x then i :: empties (S i) l' else empties (S i) l'
  end.

(** [_BaseV6._ip_int_from_string] does not raise.  An IPv4-style suffix
    that is a valid address is replaced by two hextets, which are valid
    whatever they are: "0" stands for each. *)
Definition valid6_address (ip_str : string) : bool :=
  let parts := split ":" ip_str in
  negb (is_empty ip_str)
  && (Nat.leb 3 (List.length parts))
  && match (if has_char "." (List.last parts EmptyString)
            then if valid4 (List.last parts EmptyString)
                 then Some (removelast parts ++ ["0"; "0"])%list
                 else None
            else Some parts) with
     | None => false
     | Some parts =>
         let n := List.length parts in
         let first_empty := is_empty (List.hd EmptyString parts) in
         let last_empty := is_empty (List.last parts EmptyString) in
         (Nat.leb n 9)
         && match empties 1 (removelast (List.tl parts)) with
            | _ :: _ :: _ => false
            | [skip_index] =>
                let parts_hi := if first_empty then (skip_index - 1)%nat
                                else skip_index in
                let parts_lo := if last_empty then (n - skip_index - 1 - 1)%nat
                                else (n - skip_index - 1)%nat in
                (if first_empty then Nat.eqb parts_hi 0 else true)
                && (if last_empty then Nat.eqb parts_lo 0 else true)
                && (Nat.leb (parts_hi + parts_lo + 1) 8)
                && List.forallb valid_hextet (firstn parts_hi parts)
                && List.forallb valid_hextet (skipn (n - parts_lo) parts)
            | [] =>
                Nat.eqb n 8 && negb first_empty && negb last_empty
                && List.forallb valid_hextet parts
            end
     end.

(** [IPv6Address(s)] does not raise: no slash, a scope id after [%] that
    is not empty and has no [%], and a valid address before it. *)
Definition valid6 (s : string) : bool :=
  negb (has_char "/" s)
  && match partition "%" s with
     | Some (addr, scope_id) =>
         negb (is_empty scope_id) && negb (has_char "%" scope_id)
         && valid6_address addr
     | None => valid6_address s
     end.

End IpAddress.

(* ===================================================================== *)
(** ** urllib.parse *)
(* ===================================================================== *)

(** [urlparse] and [urlunparse] as in CPython 3.11's [urllib/parse.py], for
    [str] arguments and the default [scheme=''], [allow_fragments=True].
    A text is a sequence of code points below 256.  On such a text the
    NFKC check of [urlsplit] ([_checknetloc]) never raises: no character
    of that range normalises to text with one of [/ ? # @ :], so the
    check has no counterpart here.  It does raise for text beyond that
    range (U+2100 normalises to "a/c"), which this development does not
    speak about. *)

Module UrlParse.
Import PyStr.

Definition uses_netloc : list string :=
  [""; "ftp"; "http"; "gopher"; "nntp"; "telnet";
   "imap"; "wais"; "file"; "mms"; "https"; "shttp";
   "snews"; "prospero"; "rtsp"; "rtspu"; "rsync";
   "svn"; "svn+ssh"; "sftp"; "nfs"; "git"; "git+ssh";
   "ws"; "wss"].

Definition uses_params : list string :=
  [""; "ftp"; "hdl"; "prospero"; "http"; "imap";
   "https"; "shttp"; "rtsp"; "rtspu"; "sip"; "sips";
   "mms"; "sftp"; "tel"].

(** [c in scheme_chars] *)
Definition scheme_char (c : ascii) : bool :=
  is_alpha c || is_digit c
  || Ascii.eqb c "+" || Ascii.eqb c "-" || Ascii.eqb c ".".

(** [c in _WHATWG_C0_CONTROL_OR_SPACE] *)
Definition c0_control_or_space (c : ascii) : bool := code c <=? 32.

(** [c in _UNSAFE_URL_BYTES_TO_REMOVE] *)
Definition unsafe_url_byte (c : ascii) : bool :=
  (code c =? 9) || (code c =? 13) || (code c =? 10).

Definition safe_url_byte (c : ascii) : bool := negb (unsafe_url_byte c).

Definition first_is_alpha (s : string) : bool :=
  match s with
  | EmptyString => false
  | String a _ => is_alpha a
  end.

(** The scheme test of [urlsplit]:
    [i = url.find(':'); if i > 0 and url[0].isascii() and url[0].isalpha():
     for c in url[:i]: ... else: scheme, url = url[:i].lower(), url[i+1:]] *)
Definition split_scheme (url : string) : string * string :=
  match partition ":" url with
  | Some (pre, rest) =>
      if first_is_alpha pre && forallb scheme_char pre
      then (lower pre, rest)
      else (EmptyString, url)
  | None => (EmptyString, url)
  end.

Definition netloc_delim (c : ascii) : bool :=
  Ascii.eqb c "/" || Ascii.eqb c "?" || Ascii.eqb c "#".

(** [_splitnetloc(url, 2)] applied to the text after the leading [//]:
    the domain part runs to the first of [/], [?], [#]. *)
Fixpoint splitnetloc (s : string) : string * string :=
  match s with
  | EmptyString => (EmptyString, EmptyString)
  | String a s' =>
      if netloc_delim a then (EmptyString, s)
      else let (n, r) := splitnetloc s' in (String a n, r)
  end.

Record SplitResult := mkSplit {
  s_scheme : string; s_netloc : string; s_path : string;
  s_query : string; s_fragment : string }.

Record ParseResult := mkParse {
  scheme : string; netloc : string; path : string;
  params : string; query : string; fragment : string }.

(** [url[:2] == '//'], with [url[2:]] when it holds. *)
Definition strip_2slash (url : string) : option string :=
  match url with
  | String a (String b rest) =>
      if Ascii.eqb a "/" && Ascii.eqb b "/" then Some rest else None
  | _ => None
  end.

Fixpoint take_while (p : ascii -> bool) (s : string) : string :=
  match s with
  | EmptyString => EmptyString
  | String a s' => if p a then String a (take_while p s') else EmptyString
  end.

Fixpoint drop_while (p : ascii -> bool) (s : string) : string :=
  match s with
  | EmptyString => EmptyString
  | String a s' => if p a then drop_while p s' else s
  end.

Definition is_empty (s : string) : bool :=
  match s with EmptyString => true | _ => false end.

(** [re.match(r"\Av[a-fA-F0-9]+\..+\Z", hostname)]: "v", hexadecimal
    digits, a dot, and at least one more character; the dot of the
    pattern matches every character but a line feed. *)
Definition ipvfuture (hostname : string) : bool :=
  match hostname with
  | String "v" rest =>
      negb (is_empty (take_while IpAddress.is_hex rest))
      && match drop_while IpAddress.is_hex rest with
         | String "." tail =>
             negb (is_empty tail)
             && forallb (fun c => negb (code c =? 10)) tail
         | _ => false
         end
  | _ => false
  end.

(** [_check_bracketed_host]: the message of the [ValueError] it raises,
    [None] when it returns. *)
Definition check_bracketed_host (hostname : string) : option string :=
  if startswith "v" hostname then
    if ipvfuture hostname then None
    else Some "IPvFuture address is invalid"
  else if IpAddress.valid4 hostname then
    Some "An IPv4 address cannot be in brackets"
  else if IpAddress.valid6 hostname then None
  else Some (repr hostname ++ " does not appear to be an IPv4 or IPv6 address").

(** [_check_bracketed_netloc] *)
Definition check_bracketed_netloc (netloc : string) : option string :=
  let hostname_and_port :=
    match rpartition "@" netloc with
    | Some (_, after) => after
    | None => netloc
    end in
  match partition "[" hostname_and_port with
  | Some (before_bracket, bracketed) =>
      if negb (is_empty before_bracket) then Some "Invalid IPv6 URL"
      else
        let (hostname, port) :=
          match partition "]" bracketed with
          | Some (h, p) => (h, p)
          | None => (bracketed, EmptyString)
          end in
        if negb (is_empty port) && negb (startswith ":" port)
        then Some "Invalid IPv6 URL"
        else check_bracketed_host hostname
  | None =>
      check_bracketed_host
        match partition ":" hostname_and_port with
        | Some (h, _) => h
        | None => hostname_and_port
        end
  end.

(** The two bracket tests of [urlsplit] on the network location: the
    message of the [ValueError], [None] when both pass. *)
Definition netloc_complaint (netloc : string) : option string :=
  if xorb (has_char "[" netloc) (has_char "]" netloc)
  then Some "Invalid IPv6 URL"
  else if has_char "[" netloc && has_char "]" netloc
       then check_bracketed_netloc netloc
       else None.

(** The network-location step of [urlsplit]:
    [if url[:2] == '//': netloc, url = _splitnetloc(url, 2)] and the
    bracket tests; the Boolean tells whether they passed. *)
Definition netloc_part (url : string) : string * string * bool :=
  match strip_2slash url with
  | Some rest =>
      let (n, r) := splitnetloc rest in
      (n, r, match netloc_complaint n with None => true | Some _ => false end)
  | None => (EmptyString, url, true)
  end.

(** The fragment and query steps of [urlsplit]:
    [if '#' in url: url, fragment = url.split('#', 1)] and
    [if '?' in url: url, query = url.split('?', 1)]. *)
Definition path_part (url : string) : string * string * string :=
  let (url, frag) :=
    match partition "#" url with
    | Some (u, f) => (u, f)
    | None => (url, EmptyString)
    end in
  let (url, q) :=
    match partition "?" url with
    | Some (u, q) => (u, q)
    | None => (url, EmptyString)
    end in
  (url, q, frag).

(** [urlsplit]; [None] stands for the [ValueError] of its bracket tests,
    whose message is [complaint]. *)
Definition urlsplit (url0 : string) : option SplitResult :=
  let url := lstrip c0_control_or_space url0 in
  let url := filter safe_url_byte url in
  let (sch, url) := split_scheme url in
  let '(nl, url, ok) := netloc_part url in
  if ok then
    let '(url, q, frag) := path_part url in
    Some (mkSplit sch nl url q frag)
  else None.

(** The message of the [ValueError] of [urlsplit], for a text on which
    it raises. *)
Definition complaint (url0 : string) : string :=
  let url := lstrip c0_control_or_space url0 in
  let url := filter safe_url_byte url in
  let (_, url) := split_scheme url in
  match strip_2slash url with
  | Some rest =>
      match netloc_complaint (fst (splitnetloc rest)) with
      | Some message => message
      | None => EmptyString
      end
  | None => EmptyString
  end.

(** [_splitparams] *)
Definition splitparams (url : string) : string * string :=
  match rpartition "/" url with
  | Some (head, tail) =>
      (* [i = url.find(';', url.rfind('/'))] *)
      match partition ";" tail with
      | Some (p, q) => (head ++ "/" ++ p, q)
      | None => (url, EmptyString)
      end
  | None =>
      match partition ";" url with
      | Some (p, q) => (p, q)
      | None => (drop_last url, url)   (* [i = -1] *)
      end
  end.

Definition urlparse (url : string) : option ParseResult :=
  match urlsplit url with
  | None => None
  | Some r =>
      let (url, prm) :=
        if member (s_scheme r) uses_params && has_char ";" (s_path r)
        then splitparams (s_path r)
        else (s_path r, EmptyString) in
      Some (mkParse (s_scheme r) (s_netloc r) url prm
                    (s_query r) (s_fragment r))
  end.

Definition nonempty (s : string) : bool :=
  match s with EmptyString => false | _ => true end.

Definition starts_with_2slash (s : string) : bool := startswith "//" s.

(** [urlunsplit]; an empty string stands for an empty or [None]
    component (both are false in Python). *)
Definition urlunsplit (sch nl url q frag : string) : string :=
  let url :=
    if nonempty nl
       || (nonempty sch && member sch uses_netloc
           && negb (starts_with_2slash url))
    then
      let url := if nonempty url && negb (startswith "/" url)
                 then "/" ++ url else url in
      "//" ++ nl ++ url
    else url in
  let url := if nonempty sch then sch ++ ":" ++ url else url in
  let url := if nonempty q then url ++ "?" ++ q else url in
  if nonempty frag then url ++ "#" ++ frag else url.

(** [urlunparse] *)
Definition urlunparse (sch nl url prm q frag : string) : string :=
  let url := if nonempty prm then url ++ ";" ++ prm else url in
  urlunsplit sch nl url q frag.

End UrlParse.

(* ===================================================================== *)
(** ** hashlib.sha1 and uuid.uuid5 *)
(* ===================================================================== *)

Module Sha1.

Definition mask32 (x : Z) : Z := Z.land x 4294967295.

Definition rotl (n x : Z) : Z :=
  mask32 (Z.lor (Z.shiftl x n) (Z.shiftr x (32 - n))).

Fixpoint zeros (n : nat) : list Z :=
  match n with O => [] | S n' => 0 :: zeros n' end.

(** Big-endian bytes of [x], [n] of them. *)
Fixpoint be_bytes (n : nat) (x : Z) : list Z :=
  match n with
  | O => []
  | S n' => Z.land (Z.shiftr x (8 * Z.of_nat n')) 255 :: be_bytes n' x
  end.

Definition be_int (bs : list Z) : Z :=
  fold_left (fun acc b => Z.lor (Z.shiftl acc 8) b) bs 0.

Definition pad (msg : list Z) : list Z :=
  let len := Z.of_nat (List.length msg) in
  msg ++ [128] ++ zeros (Z.to_nat ((55 - len) mod 64)) ++ be_bytes 8 (8 * len).

(** The message schedule, newest word first. *)
Fixpoint extend (n : nat) (r : list Z) : list Z :=
  match n with
  | O => r
  | S n' =>
      let w := rotl 1 (Z.lxor (Z.lxor (nth 2 r 0) (nth 7 r 0))
                              (Z.lxor (nth 13 r 0) (nth 15 r 0))) in
      extend n' (w :: r)
  end.

Fixpoint words (n : nat) (bs : list Z) : list Z :=
  match n with
  | O => []
  | S n' => be_int (firstn 4 bs) :: words n' (skipn 4 bs)
  end.

Definition schedule (block : list Z) : list Z :=
  rev (extend 64 (rev (words 16 block))).

Definition state := (Z * Z * Z * Z * Z)%type.

Definition round (st : state * Z) (w : Z) : state * Z :=
  let '((a, b, c, d, e), t) := st in
  let '(f, k) :=
    if t <? 20 then
      (Z.lor (Z.land b c) (Z.land (mask32 (Z.lnot b)) d), 1518500249)
    else if t <? 40 then
      (Z.lxor (Z.lxor b c) d, 1859775393)
    else if t <? 60 then
      (Z.lor (Z.lor (Z.land b c) (Z.land b d)) (Z.land c d), 2400959708)
    else
      (Z.lxor (Z.lxor b c) d, 3395469782) in
  let temp := mask32 (rotl 5 a + f + e + k + w) in
  ((temp, a, rotl 30 b, c, d), t + 1).

Definition compress (h : state) (block : list Z) : state :=
  let '(h0, h1, h2, h3, h4) := h in
  let '((a, b, c, d, e), _) := fold_left round (schedule block) (h, 0) in
  (mask32 (h0 + a), mask32 (h1 + b), mask32 (h2 + c),
   mask32 (h3 + d), mask32 (h4 + e)).

Fixpoint blocks (n : nat) (bs : list Z) : list (list Z) :=
  match n with
  | O => []
  | S n' => firstn 64 bs :: blocks n' (skipn 64 bs)
  end.

Definition init : state :=
  (1732584193, 4023233417, 2562383102, 271733878, 3285377520).

(** The 20-byte digest, as bytes. *)
Definition digest (msg : list Z) : list Z :=
  let p := pad msg in
  let '(h0, h1, h2, h3, h4) :=
    fold_left compress (blocks (List.length p / 64) p) init in
  be_bytes 4 h0 ++ be_bytes 4 h1 ++ be_bytes 4 h2
    ++ be_bytes 4 h3 ++ be_bytes 4 h4.

End Sha1.

Module Uuid.

(** A [uuid.UUID] is its 128-bit [int] attribute. *)
Definition UUID := Z.

(** [bytes(s, "utf-8")] for a text of code points below 256: one byte
    below 128, two bytes from there on. *)
Fixpoint bytes_of_string (s : string) : list Z :=
  match s with
  | EmptyString => []
  | String a s' =>
      let c := PyStr.code a in
      if c <? 128 then c :: bytes_of_string s'
      else (192 + c / 64) :: (128 + c mod 64) :: bytes_of_string s'
  end.

(** [uuid5(namespace, name)]:
    [hash = sha1(namespace.bytes + bytes(name, "utf-8")).digest();
     UUID(bytes=hash[:16], version=5)], the constructor setting the
    RFC 4122 variant and the version number. *)
Definition uuid5 (namespace : UUID) (name : string) : UUID :=
  let hash := Sha1.digest (Sha1.be_bytes 16 namespace ++ bytes_of_string name) in
  let i := Sha1.be_int (firstn 16 hash) in
  let i := Z.land i (Z.lnot (Z.shiftl 49152 48)) in
  let i := Z.lor i (Z.shiftl 32768 48) in
  let i := Z.land i (Z.lnot (Z.shiftl 61440 64)) in
  Z.lor i (Z.shiftl 5 76).

Definition hex_digit (d : Z) : ascii :=
  if d <? 10 then ascii_of_N (Z.to_N (48 + d))
  else ascii_of_N (Z.to_N (87 + d)).

(** ['%0nx' % x] for [0 <= x < 16^n] *)
Fixpoint hex (n : nat) (x : Z) : string :=
  match n with
  | O => EmptyString
  | S n' =>
      String (hex_digit (Z.land (Z.shiftr x (4 * Z.of_nat n')) 15)) (hex n' x)
  end.

(** [str(u)]: the 32 hexadecimal digits in groups 8-4-4-4-12. *)
Definition to_string (u : UUID) : string :=
  let h := hex 32 u in
  substring 0 8 h ++ "-" ++ substring 8 4 h ++ "-" ++ substring 12 4 h
    ++ "-" ++ substring 16 4 h ++ "-" ++ substring 20 12 h.

End Uuid.

(* ===================================================================== *)
(** ** Identity derivation *)
(* ===================================================================== *)

(** [NAMESPACE_OLIVEARCHIVE = uuid.UUID("835a9728-a1f7-4d0f-82f8-cd0da8838673")] *)
Definition NAMESPACE_OLIVEARCHIVE : Uuid.UUID :=
  0x835a9728a1f74d0f82f8cd0da8838673.

(** [canonical_url = urlunparse(("vmnetx+https", netloc, path, None, None, None))] *)
Definition canonical_url (r : UrlParse.ParseResult) : string :=
  UrlParse.urlunparse "vmnetx+https" (UrlParse.netloc r) (UrlParse.path r)
                      EmptyString EmptyString EmptyString.

(** [vmnetx_url_to_uuid]; [None] is the [ValueError] of [urlparse]. *)
Definition vmnetx_url_to_uuid (url : string) : option Uuid.UUID :=
  match UrlParse.urlparse url with
  | None => None
  | Some r => Some (Uuid.uuid5 NAMESPACE_OLIVEARCHIVE (canonical_url r))
  end.

(* ===================================================================== *)
(** ** Builtins: [int], XML elements *)
(* ===================================================================== *)

Module PyInt.
Import PyStr.

(** White space as [int] skips it around the literal of a [str]: the
    ASCII white space of C, and the two other space characters below
    code point 256, NEL and the no-break space. *)
Definition is_space (c : ascii) : bool :=
  ((9 <=? code c) && (code c <=? 13))
  || (code c =? 32) || (code c =? 133) || (code c =? 160).

(** [sys.int_info.default_max_str_digits] *)
Definition max_str_digits : Z := 4300.

(** The run of digits and underscores at the head of [s]: its value, the
    number of its digits and what follows it; [None] when two underscores
    meet or the run ends with one. *)
Fixpoint scan (acc count : Z) (after_underscore : bool) (s : string)
  : option (Z * Z * string) :=
  match s with
  | EmptyString => if after_underscore then None
                   else Some (acc, count, EmptyString)
  | String c s' =>
      if is_digit c then scan (10 * acc + (code c - 48)) (count + 1) false s'
      else if Ascii.eqb c "_" then
        if after_underscore then None else scan acc count true s'
      else if after_underscore then None
      else Some (acc, count, s)
  end.

Inductive outcome :=
| Value (v : Z)
| TooLong (digits : Z)      (* more digits than [max_str_digits] *)
| Invalid.

(** [int(s)] for a [str], base 10: white space, a sign, digits with
    single underscores between them, white space.  The limit on the
    number of digits is tested before what follows the digits. *)
Definition parse (s : string) : outcome :=
  let s := lstrip is_space s in
  let '(negative, s) :=
    match s with
    | String "-" d => (true, d)
    | String "+" d => (false, d)
    | _ => (false, s)
    end in
  match s with
  | String "_" _ => Invalid
  | _ =>
      match scan 0 0 false s with
      | None => Invalid
      | Some (v, n, rest) =>
          if max_str_digits <? n then TooLong n
          else if n =? 0 then Invalid
          else if forallb is_space rest
               then Value (if negative then - v else v)
               else Invalid
      end
  end.

(** [int(s)]; [None] is [ValueError]. *)
Definition int (s : string) : option Z :=
  match parse s with
  | Value v => Some v
  | _ => None
  end.

(** The message of that [ValueError]. *)
Definition complaint (s : string) : string :=
  match parse s with
  | TooLong n =>
      "Exceeds the limit (4300 digits) for integer string conversion: "
      ++ "value has " ++ of_Z n
      ++ " digits; use sys.set_int_max_str_digits() to increase the limit"
  | _ =>
      "invalid literal for int() with base 10: " ++ substring 0 200 (repr s)
  end.

End PyInt.

Module Xml.

(** An [xml.etree.ElementTree.Element] as far as the program looks at
    it: the attributes, and tag and text of the direct children. *)
Record Element := mkElement {
  attrib : list (string * string);
  children : list (string * option string) }.

Fixpoint lookup {A} (k : string) (l : list (string * A)) : option A :=
  match l with
  | [] => None
  | (k', v) :: l' => if String.eqb k k' then Some v else lookup k l'
  end.

(** [elem.findtext(tag, default=d)]: the text of the first child with
    that tag, the empty string when that child has no text, [d] when
    there is no such child. *)
Definition findtext (e : Element) (tag default : string) : string :=
  match lookup tag (children e) with
  | None => default
  | Some None => EmptyString
  | Some (Some t) => t
  end.

End Xml.

(* ===================================================================== *)
(** ** The program's environment and its effects *)
(* ===================================================================== *)

(** Exceptions the program can end with. *)
Inductive exn :=
| ValueError (msg : string)
| KeyError (key : string)
| TypeError (msg : string)
| ZeroDivisionError
| EOFError
| AssertionError
| CalledProcessError (returncode : Z) (cmd : list string)
| URLError
| BadZipFile
| ParseError
| OSError (msg : string).

(** What a run does to the outside, in order. *)
Inductive event :=
| Print (text : string)                  (* text written to stdout *)
| Input (prompt line : string)           (* [input(prompt)] returned [line] *)
| InputEOF (prompt : string)             (* [input(prompt)] met end of file *)
| Run (cmd : list string)                (* [subprocess.run(cmd, check=True)] *)
| Mkdtemp (dir name : string)            (* [TemporaryDirectory(dir=...)] *)
| Rmtree (path : string)                 (* [TemporaryDirectory] cleanup *)
| Mkdir (path : string)
| Rmdir (path : string)
| Unlink (path : string)
| WriteText (path content : string)
| WriteChunk (path : string) (size : Z)  (* [dst.write(buf)] *)
| Extract (member dir : string)          (* [ZipFile.extract] *)
| Urlopen (url : string)
| Connect (host : string) (port : Z)     (* [socket.create_connection] *)
| Sleep (seconds : Z).

(** [argparse.Namespace], the union of the sub-commands' arguments.
    The program turns the working directory into a [Path] before it uses
    it, so [tmp_dir] holds the text [str(Path(args.tmp_dir))], in which
    [pathlib] spells that path; so does [w_mkdtemp] below. *)
Record Args := mkArgs {
  dry_run : list string;
  url : string;
  vmnetx_package : option string;
  tmp_dir : option string;
  registry : string;
  deploy_token : option string;
  tier3 : string }.

(** The [http.client.HTTPResponse] that [urlopen] returns for an https
    URL: the [content-length] header ([None] when there is none), whether
    the body comes in chunked transfer encoding, and the sizes of the
    buffers the connection has for successive reads of 4 MiB (the body ends
    with the list, or at the first size that is not positive). *)
Record Response := mkResponse {
  content_length : option string;
  chunked : bool;
  chunks : list Z }.

(** [HTTPResponse.length] as [begin] sets it: the header as an integer,
    unless the response is chunked, or the header is missing, no integer
    or negative. *)
Definition declared_length (src : Response) : option Z :=
  if chunked src then None
  else match content_length src with
       | Some header =>
           match PyInt.int header with
           | Some n => if n <? 0 then None else Some n
           | None => None
           end
       | None => None
       end.

(** [HTTPResponse.read(amt)] with a declared length: a read is clipped to
    what is left of it, and the connection is closed when nothing is. *)
Fixpoint clip (left : Z) (bufs : list Z) : list Z :=
  match bufs with
  | [] => []
  | n :: rest =>
      if (left <=? 0) || (n <=? 0) then []
      else Z.min n left :: clip (left - Z.min n left) rest
  end.

(** The sizes of the buffers successive [src.read(4 * 1024 * 1024)]
    return. *)
Definition reads (src : Response) : list Z :=
  match declared_length src with
  | Some n => clip n (chunks src)
  | None => chunks src
  end.

(** A package archive: its two descriptors ([None]: no such member;
    [Some None]: a member that is not well-formed XML) and whether it
    holds [disk.img]. *)
Record ZipArchive := mkZip {
  package_xml : option (option Xml.Element);
  domain_xml : option (option Xml.Element);
  has_disk_img : bool }.

(** One connection attempt to the display endpoint. *)
Inductive Probe :=
| GaiError                (* [socket.gaierror]: the name does not resolve *)
| ConnectionRefused       (* [ConnectionRefusedError] *)
| Timeout                 (* [socket.timeout], connecting or receiving *)
| Answered (data : string)(* connected; [data] is what the peer sent *)
| Failed (e : exn).       (* any other exception *)

Record World := mkWorld {
  w_mkdtemp : string;                       (* fresh directory under /var/tmp *)
  w_resolve : string -> string;             (* [Path.resolve] *)
  w_urlopen : string -> option Response;    (* [None]: [URLError] *)
  w_zipfile : string -> option ZipArchive;  (* [None]: [BadZipFile] *)
  w_run : list string -> Z;                 (* return code of a command *)
  w_stat_size : string -> Z;                (* [Path.stat().st_size] *)
  w_which : string -> option string;        (* [shutil.which] *)
  w_probe : nat -> Probe;                   (* the k-th connection attempt *)
  w_argv0 : string }.                       (* [sys.argv[0]] *)

Record state := mkState {
  trace : list event;
  stdin : list string }.

Inductive result (A : Type) :=
| Ok (a : A)
| Raise (e : exn)
| Exit (status : Z).       (* [SystemExit] *)
Arguments Ok {A} a.
Arguments Raise {A} e.
Arguments Exit {A} status.

(** Computations with effects: a state transformer that may raise. *)
Definition M (A : Type) : Type := state -> result A * state.

Definition ret {A} (a : A) : M A := fun s => (Ok a, s).

Definition bind {A B} (m : M A) (k : A -> M B) : M B :=
  fun s =>
    match m s with
    | (Ok a, s') => k a s'
    | (Raise e, s') => (Raise e, s')
    | (Exit n, s') => (Exit n, s')
    end.

Declare Scope monad_scope.
Delimit Scope monad_scope with monad.
Notation "x <- c1 ;; c2" := (bind c1 (fun x => c2))
  (at level 61, c1 at next level, right associativity) : monad_scope.
Notation "' pat <- c1 ;; c2" := (bind c1 (fun x => match x with pat => c2 end))
  (at level 61, pat pattern, c1 at next level, right associativity) : monad_scope.
Notation "c1 ;; c2" := (bind c1 (fun _ => c2))
  (at level 61, right associativity) : monad_scope.
Local Open Scope monad_scope.

Definition raise {A} (e : exn) : M A := fun s => (Raise e, s).

(** [sys.exit()]: [SystemExit(None)], exit status 0. *)
Definition sys_exit {A} : M A := fun s => (Exit 0, s).

Definition emit (e : event) : M unit :=
  fun s => (Ok tt, mkState (trace s ++ [e]) (stdin s)).

(** [try: m finally: c], as the exit of a context manager. *)
Definition finally {A} (m : M A) (c : M unit) : M A :=
  fun s => let (r, s') := m s in (r, snd (c s')).

Definition print (text : string) : M unit := emit (Print text).

(** [input(prompt)] *)
Definition input (prompt : string) : M string :=
  fun s =>
    match stdin s with
    | [] => (Raise EOFError, mkState (trace s ++ [InputEOF prompt]) [])
    | line :: rest => (Ok line, mkState (trace s ++ [Input prompt line]) rest)
    end.

Definition lift {A} (e : exn) (o : option A) : M A :=
  match o with Some a => ret a | None => raise e end.

(** [a // b] *)
Definition floordiv (a b : Z) : M Z :=
  if b =? 0 then raise ZeroDivisionError else ret (a / b).

(** [int(s)] *)
Definition int (s : string) : M Z :=
  lift (ValueError (PyInt.complaint s)) (PyInt.int s).

(** [x, y = s.split(sep, 1)] *)
Definition unpack_split (sep : ascii) (s : string) : M (string * string) :=
  lift (ValueError "not enough values to unpack (expected 2, got 1)")
       (PyStr.partition sep s).

(** The exit status of the process for a run of [main]. *)
Definition exit_status {A} (r : result A) : Z :=
  match r with
  | Ok _ => 0
  | Raise _ => 1
  | Exit n => n
  end.

Definition nl : string := String "010" EmptyString.
Definition dq : string := String "034" EmptyString.
Definition cr : string := String "013" EmptyString.
Definition tab : string := String "009" EmptyString.

(** [str(p).endswith("/")] *)
Fixpoint ends_with_slash (p : string) : bool :=
  match p with
  | EmptyString => false
  | String a EmptyString => Ascii.eqb a "/"
  | String _ p' => ends_with_slash p'
  end.

(** [p / name] for a path [p], given by the text [str(p)] in which
    [pathlib] spells it, and a file name [name]: the current directory
    [Path(".")] gives [name] alone, a root ("/" or "//") is followed by
    [name] directly, every other path by a slash and [name]. *)
Definition path_join (p name : string) : string :=
  if String.eqb p "." then name
  else if ends_with_slash p then p ++ name
  else p ++ "/" ++ name.

(** [Path.with_suffix], on the final component. *)
Definition with_suffix (name suffix : string) : string :=
  match PyStr.rpartition "." name with
  | Some (stem, ext) =>
      if UrlParse.nonempty stem && UrlParse.nonempty ext
      then stem ++ suffix else name ++ suffix
  | None => name ++ suffix
  end.

Section Program.

Variable w : World.

(** [subprocess.run(cmd, check=True)] *)
Definition run (cmd : list string) : M unit :=
  emit (Run cmd) ;;
  if w_run w cmd =? 0 then ret tt
  else raise (CalledProcessError (w_run w cmd) cmd).

(** [vmnetx_url_to_uuid] inside a run. *)
Definition derive (u : string) : M Uuid.UUID :=
  lift (ValueError (UrlParse.complaint u)) (vmnetx_url_to_uuid u).

(* ------------------------------------------------------------------- *)
(** *** launch *)

Definition SINFONIA_TIER1_URL : string := "https://cmu.findcloudlet.org".

Definition launch (args : Args) : M unit :=
  sinfonia_uuid <- derive (url args) ;;
  run (dry_run args ++
       [tier3 args; SINFONIA_TIER1_URL; Uuid.to_string sinfonia_uuid;
        w_argv0 w; "stage2"]).

(* ------------------------------------------------------------------- *)
(** *** stage2: the deployment waiter *)

Inductive waiter_state := Polling | Connected.

(** One turn of the [while True] loop: the progress dot, the connection
    attempt, [recv(3)] and the preamble test; [sleep(1)] when not ready. *)
Definition attempt (p : Probe) : M waiter_state :=
  print "." ;;
  emit (Connect "vmi-vnc" 5900) ;;
  match p with
  | Answered data =>
      let handshake := substring 0 3 data in
      if PyStr.startswith "RFB" handshake then ret Connected
      else (emit (Sleep 1) ;; ret Polling)
  | GaiError | ConnectionRefused | Timeout => emit (Sleep 1) ;; ret Polling
  | Failed e => raise e
  end.

(** The loop, from attempt number [k] on, for at most [fuel] attempts.
    [Polling] as a result means the loop is still running after them. *)
Fixpoint poll (fuel : nat) (k : nat) : M waiter_state :=
  match fuel with
  | O => ret Polling
  | S fuel' =>
      st <- attempt (w_probe w k) ;;
      match st with
      | Connected => ret Connected
      | Polling => poll fuel' (S k)
      end
  end.

(** The code after the loop: the first available viewer is started. *)
Definition connect_viewer (args : Args) : M unit :=
  print nl ;;
  match w_which w "remote-viewer" with
  | Some viewer => run (dry_run args ++ [viewer; "vnc://vmi-vnc:5900"])
  | None =>
      match w_which w "gvncviewer" with
      | Some viewer => run (dry_run args ++ [viewer; "vmi-vnc:0"])
      | None =>
          match w_which w "vncviewer" with
          | Some viewer => run (dry_run args ++ [viewer; "vmi-vnc:0"])
          | None =>
              print ("Failed to find a local vnc-viewer candidate" ++ nl) ;;
              emit (Sleep 10)
          end
      end
  end.

Definition stage2 (fuel : nat) (args : Args) : M waiter_state :=
  print "Waiting for VNC server to become available" ;;
  st <- poll fuel 0 ;;
  match st with
  | Polling => ret Polling
  | Connected => connect_viewer args ;; ret Connected
  end.

End Program.

(* ===================================================================== *)
(** ** convert: the image-to-deployment pipeline *)
(* ===================================================================== *)

Section Convert.

Variable w : World.
Variable args : Args.

(** What the code after the [with] block still uses. *)
Record Built := mkBuilt {
  sinfonia_uuid : Uuid.UUID;
  vmi_fullname : string;
  cpus : Z;
  memory : Z }.

(** The download loop over the buffers [src.read(4 * 1024 * 1024)]
    returns; an empty buffer, or the end of the stream, ends it. *)
Fixpoint copy_loop (dst : string) (total copied : Z) (bufs : list Z) : M unit :=
  match bufs with
  | [] => ret tt
  | len_buf :: rest =>
      if len_buf <=? 0 then ret tt
      else
        emit (WriteChunk dst len_buf) ;;
        let copied := copied + len_buf in
        pct <- floordiv (100 * copied) total ;;
        print (cr ++ tab ++ PyStr.of_Z pct ++ "%") ;;
        copy_loop dst total copied rest
  end.

(** [# fetch vmnetx package] *)
Definition fetch (VMNETX_PACKAGE : string) : M unit :=
  r <- lift (ValueError (UrlParse.complaint (url args)))
            (UrlParse.urlparse (url args)) ;;
  let url := UrlParse.urlunparse "https" (UrlParse.netloc r) (UrlParse.path r)
               (UrlParse.params r) (UrlParse.query r) (UrlParse.fragment r) in
  print ("Fetching " ++ url ++ nl) ;;
  emit (Urlopen url) ;;
  src <- lift URLError (w_urlopen w url) ;;
  header <- lift (TypeError ("int() argument must be a string, a bytes-like "
                             ++ "object or a real number, not 'NoneType'"))
                 (content_length src) ;;
  total <- int header ;;
  copy_loop VMNETX_PACKAGE total 0 (reads src) ;;
  print nl.

Definition name_prompt : string := "VM image name: ".

(** [while vmi_fullname in ["", "Virtual Machine"]:
      vmi_fullname = input("VM image name: ")]
    by recursion on the lines left on standard input. *)
Fixpoint name_loop (name : string) (lines : list string) (tr : list event)
  : result string * state :=
  if PyStr.member name [""; "Virtual Machine"] then
    match lines with
    | [] => (Raise EOFError, mkState (tr ++ [InputEOF name_prompt]) [])
    | line :: rest => name_loop line rest (tr ++ [Input name_prompt line])
    end
  else (Ok name, mkState tr lines).

Definition name_gate (name : string) : M string :=
  fun s => name_loop name (stdin s) (trace s).

(** [100 - 100 * DISK_QCOW.stat().st_size // DISK_IMG.stat().st_size] *)
Definition compression (qcow_size img_size : Z) : M Z :=
  q <- floordiv (100 * qcow_size) img_size ;;
  ret (100 - q).

(** [if compression != 0: print(f"compression savings {compression}%")] *)
Definition report_savings (qcow_size img_size : Z) : M unit :=
  compression <- compression qcow_size img_size ;;
  if negb (compression =? 0)
  then print ("compression savings " ++ PyStr.of_Z compression ++ "%" ++ nl)
  else ret tt.

(** [cpus = int(domain.findtext("vcpu", default="1"))
     memory = int(domain.findtext("memory", default="65536")) // 1024] *)
Definition sizing (domain : Xml.Element) : M (Z * Z) :=
  cpus <- int (Xml.findtext domain "vcpu" "1") ;;
  mem <- int (Xml.findtext domain "memory" "65536") ;;
  ret (cpus, mem / 1024).

Definition done_prompt : string := "Done, hit return to quit" ++ nl.

Definition push_prompt : string := "Ok to push non-restricted image? [yes/no] ".

Definition dockerignore_text : string :=
  "*" ++ nl ++ "!Dockerfile" ++ nl ++ "!*.qcow2" ++ nl.

(** The backslash at the end of the LABEL line of the source continues
    the string literal: it and the line break are not part of the text. *)
Definition dockerfile_text (vmi_fullname : string) : string :=
  "FROM scratch" ++ nl
  ++ "LABEL org.opencontainers.image.url=" ++ dq ++ "https://olivearchive.org"
  ++ dq ++ " " ++ "      org.opencontainers.image.title=" ++ dq
  ++ vmi_fullname ++ dq ++ nl
  ++ "ADD --chown=107:107 disk.qcow2 /disk/" ++ nl.

Definition docker_tag (u : Uuid.UUID) : string :=
  registry args ++ "/" ++ Uuid.to_string u ++ ":latest".

(** The part of the [with] block under the last [if args.tmp_dir is None]:
    the working files go, the operator is asked unless a deploy token was
    given, the image is pushed and removed locally. *)
Definition publish (tmpdir DOCKER_TAG : string) : M unit :=
  match tmp_dir args with
  | Some _ => ret tt
  | None =>
      emit (Unlink (path_join tmpdir ".dockerignore")) ;;
      emit (Unlink (path_join tmpdir "Dockerfile")) ;;
      emit (Unlink (path_join tmpdir "disk.qcow2")) ;;
      emit (Rmdir tmpdir) ;;
      match deploy_token args with
      | None =>
          answer <- input push_prompt ;;
          if negb (PyStr.startswith "yes" (PyStr.lower answer))
          then sys_exit else ret tt
      | Some _ => ret tt
      end ;;
      print ("Publishing containerDisk image" ++ nl) ;;
      run w ["docker"; "push"; DOCKER_TAG] ;;
      run w ["docker"; "image"; "rm"; DOCKER_TAG]
  end.

(** The [with] block up to and including [docker build]. *)
Definition build (tmpdir : string) : M Built :=
  let VMNETX_PACKAGE := path_join tmpdir "vmnetx-package.zip" in
  let DISK_IMG := path_join tmpdir "disk.img" in
  let DISK_QCOW := path_join tmpdir "disk.qcow2" in
  let DOCKERFILE := path_join tmpdir "Dockerfile" in
  let DOCKERIGNORE := path_join tmpdir ".dockerignore" in
  emit (Mkdir tmpdir) ;;
  sinfonia_uuid <- derive (url args) ;;
  print ("UUID: " ++ Uuid.to_string sinfonia_uuid ++ nl) ;;
  (* fetch vmnetx package *)
  VMNETX_PACKAGE <-
    match vmnetx_package args with
    | None => fetch VMNETX_PACKAGE ;; ret VMNETX_PACKAGE
    | Some p => ret p
    end ;;
  (* extract metadata and disk image *)
  z <- lift BadZipFile (w_zipfile w VMNETX_PACKAGE) ;;
  doc <- lift (KeyError "vmnetx-package.xml") (package_xml z) ;;
  package_description <- lift ParseError doc ;;
  vmi_fullname <- lift (KeyError "name")
                    (Xml.lookup "name" (Xml.attrib package_description)) ;;
  vmi_fullname <- name_gate vmi_fullname ;;
  print (vmi_fullname ++ nl) ;;
  doc <- lift (KeyError "domain.xml") (domain_xml z) ;;
  domain <- lift ParseError doc ;;
  '(cpus, memory) <- sizing domain ;;
  print ("cpus " ++ PyStr.of_Z cpus ++ " memory " ++ PyStr.of_Z memory ++ nl) ;;
  print ("Extracting disk image" ++ nl) ;;
  (if has_disk_img z then emit (Extract "disk.img" tmpdir)
   else raise (KeyError "disk.img")) ;;
  match tmp_dir args, vmnetx_package args with
  | None, None => emit (Unlink VMNETX_PACKAGE)
  | _, _ => ret tt
  end ;;
  (* convert disk image *)
  print ("Recompressing disk image" ++ nl) ;;
  run w ["qemu-img"; "convert"; "-c"; "-p"; "-O"; "qcow2";
         w_resolve w DISK_IMG; w_resolve w DISK_QCOW] ;;
  report_savings (w_stat_size w DISK_QCOW) (w_stat_size w DISK_IMG) ;;
  match tmp_dir args with
  | None => emit (Unlink DISK_IMG)
  | Some _ => ret tt
  end ;;
  (* create container *)
  print ("Creating containerDisk image" ++ nl) ;;
  emit (WriteText DOCKERIGNORE dockerignore_text) ;;
  emit (WriteText DOCKERFILE (dockerfile_text vmi_fullname)) ;;
  run w ["docker"; "build"; "-t"; docker_tag sinfonia_uuid; w_resolve w tmpdir] ;;
  ret (mkBuilt sinfonia_uuid vmi_fullname cpus memory).

(** [credentials], the access-control block of the recipe. *)
Definition credentials : M string :=
  match deploy_token args with
  | Some token =>
      '(registry, _) <- unpack_split "/" (registry args) ;;
      '(username, password) <- unpack_split ":" token ;;
      ret ("  containerDiskCredentials:" ++ nl
           ++ "    registry: " ++ dq ++ registry ++ dq ++ nl
           ++ "    username: " ++ dq ++ username ++ dq ++ nl
           ++ "    password: " ++ dq ++ password ++ dq ++ nl
           ++ "  restricted: true" ++ nl)
  | None => ret "  restricted: false"
  end.

(** The recipe text before the access-control block. *)
Definition recipe_body (b : Built) : string :=
  "description: " ++ dq ++ vmi_fullname b ++ dq ++ nl
  ++ "chart: https://cmusatyalab.github.io/olive2022/vmi" ++ nl
  ++ "version: 0.1.2" ++ nl
  ++ "values:" ++ nl
  ++ "  containerDisk:" ++ nl
  ++ "    repository: " ++ dq ++ registry args ++ dq ++ nl
  ++ "    name: " ++ dq ++ Uuid.to_string (sinfonia_uuid b) ++ dq ++ nl
  ++ "    bus: sata" ++ nl
  ++ "  resources:" ++ nl
  ++ "    requests:" ++ nl
  ++ "      cpu: " ++ PyStr.of_Z (cpus b) ++ nl
  ++ "      memory: " ++ PyStr.of_Z (memory b) ++ "Mi" ++ nl
  ++ "  virtvnc:" ++ nl
  ++ "    fullnameOverride: vmi" ++ nl.

Definition RECIPES : string := "RECIPES".

Definition recipe_path (u : Uuid.UUID) : string :=
  path_join RECIPES (with_suffix (Uuid.to_string u) ".yaml").

(** [# create Sinfonia recipe], the code after the [with] block. *)
Definition emit_recipe (b : Built) : M unit :=
  print ("Creating Sinfonia recipe " ++ Uuid.to_string (sinfonia_uuid b) ++ nl) ;;
  credentials <- credentials ;;
  emit (Mkdir RECIPES) ;;
  emit (WriteText (recipe_path (sinfonia_uuid b)) (recipe_body b ++ credentials)) ;;
  _ <- input done_prompt ;;
  ret tt.

(** The [with tmp_ctx as temporary_directory] block: [nullcontext] for a
    directory the operator named, else a [TemporaryDirectory] under
    /var/tmp that is removed when the block is left, however it is left
    (normally, by an exception or by [SystemExit]).  The cleanup of a
    directory that [tmpdir.rmdir()] has removed already passes silently
    (CPython 3.8 and later ignore [FileNotFoundError] there). *)
Definition with_tmp_ctx {A} (body : string -> M A) : M A :=
  match tmp_dir args with
  | Some d => body d
  | None =>
      emit (Mkdtemp "/var/tmp" (w_mkdtemp w)) ;;
      finally (body (w_mkdtemp w)) (emit (Rmtree (w_mkdtemp w)))
  end.

(** The whole [with] block. *)
Definition with_block : M Built :=
  with_tmp_ctx (fun tmpdir =>
    b <- build tmpdir ;;
    publish tmpdir (docker_tag (sinfonia_uuid b)) ;;
    ret b).

Definition convert : M unit :=
  (* assert not args.dry_run and "Dry run not implemented for convert" *)
  match dry_run args with [] => ret tt | _ => raise AssertionError end ;;
  b <- with_block ;;
  emit_recipe b.

End Convert.

(* ===================================================================== *)
(** ** Scenarios *)
(* ===================================================================== *)

Module Demo.

Definition package_description : Xml.Element :=
  Xml.mkElement [("name", "Virtual Machine")] [].

Definition domain : Xml.Element :=
  Xml.mkElement [("type", "kvm")]
    [("name", Some "machine"); ("memory", Some "131072"); ("vcpu", Some "2")].

(** A world in which every step of a conversion succeeds: the package
    is 10 bytes long, the disk shrinks from 1000 to 400 bytes, the
    display endpoint refuses two connections and then answers. *)
Definition world : World :=
  mkWorld "/var/tmp/tmpab12" (fun p => p)
    (fun _ => Some (mkResponse (Some "10") false [4; 6; 0]))
    (fun _ => Some (mkZip (Some (Some package_description))
                          (Some (Some domain)) true))
    (fun _ => 0)
    (fun p => if String.eqb p "/var/tmp/tmpab12/disk.img" then 1000
              else if String.eqb p "work/disk.img" then 1000 else 400)
    (fun app => if String.eqb app "vncviewer" then Some "/usr/bin/vncviewer"
                else None)
    (fun k => match k with
              | 0%nat | 1%nat => ConnectionRefused
              | _ => Answered "RFB 003.008"
              end)
    "olive2022".

(** The same world with a display endpoint that never comes up. *)
Definition silent_world : World :=
  mkWorld (w_mkdtemp world) (w_resolve world) (w_urlopen world)
          (w_zipfile world) (w_run world) (w_stat_size world)
          (w_which world) (fun _ => Timeout) (w_argv0 world).

Definition locator : string := "vmnetx://h/p?q#f".

(** No deploy token, a temporary working directory. *)
Definition public_args : Args :=
  mkArgs [] locator None None "reg.example.com/proj" None "sinfonia-tier3".

(** A deploy token. *)
Definition restricted_args : Args :=
  mkArgs [] locator None None "reg.example.com/proj" (Some "alice:secret")
         "sinfonia-tier3".

(** A deploy token without a colon. *)
Definition malformed_args : Args :=
  mkArgs [] locator None None "reg.example.com/proj" (Some "alicesecret")
         "sinfonia-tier3".

(** A working directory the operator named. *)
Definition keep_args : Args :=
  mkArgs [] locator None (Some "work") "reg.example.com/proj" None
         "sinfonia-tier3".

Definition start (lines : list string) : state := mkState [] lines.

(** The identity of [locator]. *)
Definition identity : string := "6f3b04f0-4cfe-5aca-81fa-7e3ae3deb96a".

(** The recipe text up to the access-control block, for the name
    "Win 3.1" entered by the operator. *)
Definition recipe_head : string :=
  "description: " ++ dq ++ "Win 3.1" ++ dq ++ nl
  ++ "chart: https://cmusatyalab.github.io/olive2022/vmi" ++ nl
  ++ "version: 0.1.2" ++ nl
  ++ "values:" ++ nl
  ++ "  containerDisk:" ++ nl
  ++ "    repository: " ++ dq ++ "reg.example.com/proj" ++ dq ++ nl
  ++ "    name: " ++ dq ++ identity ++ dq ++ nl
  ++ "    bus: sata" ++ nl
  ++ "  resources:" ++ nl
  ++ "    requests:" ++ nl
  ++ "      cpu: 2" ++ nl
  ++ "      memory: 128Mi" ++ nl
  ++ "  virtvnc:" ++ nl
  ++ "    fullnameOverride: vmi" ++ nl.

Definition restricted_block : string :=
  "  containerDiskCredentials:" ++ nl
  ++ "    registry: " ++ dq ++ "reg.example.com" ++ dq ++ nl
  ++ "    username: " ++ dq ++ "alice" ++ dq ++ nl
  ++ "    password: " ++ dq ++ "secret" ++ dq ++ nl
  ++ "  restricted: true" ++ nl.

Definition recipe_file : string := "RECIPES/" ++ identity ++ ".yaml".

End Demo.

(** The three outcomes the waiter takes for "not ready yet". *)
Definition not_ready (p : Probe) : Prop :=
  p = GaiError \/ p = ConnectionRefused \/ p = Timeout.

(** The events of one turn of the polling loop that is not ready. *)
Definition idle_round : list event :=
  [Print "."; Connect "vmi-vnc" 5900; Sleep 1].

(** The events of the turn that sees the preamble. *)
Definition ready_round : list event :=
  [Print "."; Connect "vmi-vnc" 5900].

Definition is_connect (e : event) : bool :=
  match e with Connect _ _ => true | _ => false end.

Definition is_run (e : event) : bool :=
  match e with Run _ => true | _ => false end.

(** The number of connection attempts among the events. *)
Definition attempts (evs : list event) : nat :=
  List.length (List.filter is_connect evs).

(** The number of commands started among the events. *)
Definition commands (evs : list event) : nat :=
  List.length (List.filter is_run evs).

(** The events an execution adds to the trace. *)
Definition events_of {A} (m : M A) (s : state) : list event :=
  skipn (List.length (trace s)) (trace (snd (m s))).

(** A recipe file is written. *)
Definition writes_recipe (e : event) : Prop :=
  exists u content, e = WriteText (recipe_path u) content.

Definition is_write (e : event) : bool :=
  match e with WriteText _ _ => true | _ => false end.

(** The name is one the name gate does not accept. *)
Definition placeholder (name : string) : Prop :=
  name = "" \/ name = "Virtual Machine".

(** [x] is a natural number of at most [n] bits. *)
Definition fits (n x : Z) : Prop :=
  0 <= x /\ forall k, n <= k -> Z.testbit x k = false.

Definition waiting_banner : event :=
  Print "Waiting for VNC server to become available".

(** The text before the colon is accepted as a scheme by [urlsplit]. *)
Definition is_scheme (sch : string) : bool :=
  UrlParse.first_is_alpha sch && PyStr.forallb UrlParse.scheme_char sch.

(** A trailing query and/or fragment: nothing, or text that starts with
    [?] or [#]. *)
Definition is_tail (t : string) : bool :=
  match t with
  | EmptyString => true
  | String c _ => Ascii.eqb c "?" || Ascii.eqb c "#"
  end.

(** Neither [?] nor [#] occurs. *)
Definition plain (body : string) : bool :=
  negb (PyStr.has_char "?" body) && negb (PyStr.has_char "#" body).

(** [urlparse] takes [;params] off the path for this scheme. *)
Definition takes_params (sch : string) : bool :=
  PyStr.member (PyStr.lower sch) UrlParse.uses_params.

(** A locator written as scheme, hierarchical part and tail. *)
Definition locator (sch body tail : string) : string :=
  sch ++ ":" ++ body ++ tail.

(** The path [urlparse] returns for a path [p] under a scheme that does,
    or does not, take parameters. *)
Definition parsed_path (with_params : bool) (p : string) : string :=
  if with_params && PyStr.has_char ";" p
  then fst (UrlParse.splitparams p) else p.

(** [cmd] is [docker sub ...]. *)
Definition is_docker (sub : string) (cmd : list string) : bool :=
  match cmd with
  | a :: b :: _ => String.eqb a "docker" && String.eqb b sub
  | _ => false
  end.

(** The events of publication and of cleaning up: the push confirmation
    prompt, [docker push], [docker image rm], and the removal of a file or
    directory. *)
Definition publishes_or_deletes (e : event) : bool :=
  match e with
  | Input p _ | InputEOF p => String.eqb p push_prompt
  | Run cmd => is_docker "push" cmd || is_docker "image" cmd
  | Unlink _ | Rmdir _ | Rmtree _ => true
  | _ => false
  end.

(** [docker push] is started. *)
Definition pushes (e : event) : bool :=
  match e with
  | Run cmd => is_docker "push" cmd
  | _ => false
  end.

Fixpoint last_char (s : string) : option ascii :=
  match s with
  | EmptyString => None
  | String a EmptyString => Some a
  | String _ s' => last_char s'
  end.

(** The paths of the text files written, in order. *)
Fixpoint written_paths (evs : list event) : list string :=
  match evs with
  | [] => []
  | WriteText p _ :: evs' => p :: written_paths evs'
  | _ :: evs' => written_paths evs'
  end.

(** [no_exit m]: [m] never ends in [SystemExit]. *)
Definition no_exit {A} (m : M A) : Prop :=
  forall s n, fst (m s) <> Exit n.

(** [ends_with e m]: when [m] returns [a], the last event is [e a]. *)
Definition ends_with {A} (e : A -> event) (m : M A) : Prop :=
  forall s a s', m s = (Ok a, s') ->
                 exists evs, trace s' = (trace s ++ evs ++ [e a])%list.

(** The command of the container build. *)
Definition docker_build (w : World) (args : Args) (tmpdir : string) (b : Built)
  : event :=
  Run ["docker"; "build"; "-t"; docker_tag args (sinfonia_uuid b);
       w_resolve w tmpdir].

(** What remains of the [with] block after a successful build when the
    working directory is temporary and the operator declines the push. *)
Definition declined_events (tmpdir answer : string) : list event :=
  [Unlink (path_join tmpdir ".dockerignore");
   Unlink (path_join tmpdir "Dockerfile");
   Unlink (path_join tmpdir "disk.qcow2");
   Rmdir tmpdir;
   Input push_prompt answer;
   Rmtree tmpdir].

(** The state in which the [with] block of [convert] starts when the
    working directory is temporary. *)
Definition after_mkdtemp (w : World) (s : state) : state :=
  mkState (trace s ++ [Mkdtemp "/var/tmp" (w_mkdtemp w)]) (stdin s).

(** [Python] message of a failed two-target unpacking. *)
Definition unpack_error : exn :=
  ValueError "not enough values to unpack (expected 2, got 1)".

(** The outcomes of a connection attempt after which the waiter tries
    again: not ready, or an answer that does not begin with "RFB". *)
Definition retried (p : Probe) : Prop :=
  not_ready p
  \/ exists data, p = Answered data /\ PyStr.startswith "RFB" data = false.

(** The events of the waiter up to the attempt number [N] (counted from
    0), the [N] attempts before it being retried. *)
Definition waiter_prefix (N : nat) : list event :=
  (waiting_banner :: List.concat (repeat idle_round N) ++ ready_round)%list.

(** The events of starting a viewer after the loop. *)
Definition viewer_events (cmd : list string) : list event :=
  [Print nl; Run cmd].

(** The result of [subprocess.run(cmd, check=True)] for the waiter. *)
Definition viewer_result (w : World) (cmd : list string) : result waiter_state :=
  if w_run w cmd =? 0 then Ok Connected
  else Raise (CalledProcessError (w_run w cmd) cmd).

(** The events after the loop when no viewer is installed. *)
Definition no_viewer_events : list event :=
  [Print nl; Print ("Failed to find a local vnc-viewer candidate" ++ nl);
   Sleep 10].

(** [fails_fast w m]: in every run of [m], a command that returns a
    non-zero code ends the run with [CalledProcessError] for that command,
    and no command is started after it. *)
Definition fails_fast (w : World) {A} (m : M A) : Prop :=
  forall s, exists evs,
    trace (snd (m s)) = (trace s ++ evs)%list
    /\ forall pre cmd post,
        evs = (pre ++ Run cmd :: post)%list -> w_run w cmd <> 0 ->
        fst (m s) = Raise (CalledProcessError (w_run w cmd) cmd)
        /\ commands post = 0%nat.

(** The world of [Demo.world] in which [qemu-img] returns 1. *)
Definition qemu_fails_world : World :=
  mkWorld (w_mkdtemp Demo.world) (w_resolve Demo.world) (w_urlopen Demo.world)
          (w_zipfile Demo.world)
          (fun cmd => if String.eqb (hd "" cmd) "qemu-img" then 1 else 0)
          (w_stat_size Demo.world) (w_which Demo.world) (w_probe Demo.world)
          (w_argv0 Demo.world).

Definition qemu_command : list string :=
  ["qemu-img"; "convert"; "-c"; "-p"; "-O"; "qcow2";
   "/var/tmp/tmpab12/disk.img"; "/var/tmp/tmpab12/disk.qcow2"].

(** The operator's line starts with "yes", in any case of letters. *)
Definition says_yes (answer : string) : bool :=
  PyStr.startswith "yes" (PyStr.lower answer).

(** [push_guarded m]: in every run of [m], if [docker push] is started
    then the operator has been asked for it and has answered yes. *)
Definition push_guarded {A} (m : M A) : Prop :=
  forall s, exists evs,
    trace (snd (m s)) = (trace s ++ evs)%list
    /\ forall cmd, In (Run cmd) evs -> is_docker "push" cmd = true ->
                   exists answer, In (Input push_prompt answer) evs
                                  /\ says_yes answer = true.

(** The event is the push confirmation prompt. *)
Definition asks_push (e : event) : bool :=
  match e with
  | Input p _ | InputEOF p => String.eqb p push_prompt
  | _ => false
  end.

(** [returns Q m]: whenever [m] returns a value, the value satisfies [Q]. *)
Definition returns {A} (Q : A -> Prop) (m : M A) : Prop :=
  forall s a s', m s = (Ok a, s') -> Q a.

(** The working directory of a conversion. *)
Definition working_dir (w : World) (args : Args) : string :=
  match tmp_dir args with
  | Some d => d
  | None => w_mkdtemp w
  end.

(** The command [launch] starts for the identity [u]. *)
Definition launch_command (w : World) (args : Args) (u : Uuid.UUID) : list string :=
  (dry_run args ++ [tier3 args; SINFONIA_TIER1_URL; Uuid.to_string u;
                    w_argv0 w; "stage2"])%list.


(** The number of bytes [dst.write] has written among the events. *)
Fixpoint written (evs : list event) : Z :=
  match evs with
  | [] => 0
  | WriteChunk _ n :: evs' => n + written evs'
  | _ :: evs' => written evs'
  end.

(** The length of a response body read in the buffers [bufs]. *)
Definition total_size (bufs : list Z) : Z := fold_right Z.add 0 bufs.

(** The progress line [print(f"\r\t{pct}%", end="")]. *)
Definition progress_line (pct : Z) : event :=
  Print (cr ++ tab ++ PyStr.of_Z pct ++ "%").

(** The URL [fetch] opens for a parsed locator. *)
Definition https_url (r : UrlParse.ParseResult) : string :=
  UrlParse.urlunparse "https" (UrlParse.netloc r) (UrlParse.path r)
    (UrlParse.params r) (UrlParse.query r) (UrlParse.fragment r).

(** The events of [fetch] up to the request. *)
Definition request_events (u : string) : list event :=
  [Print ("Fetching " ++ u ++ nl); Urlopen u].

(** A world whose server sends a chunked response of 4 bytes that also
    carries the header [content-length: 0]. *)
Definition zero_length_world : World :=
  mkWorld (w_mkdtemp Demo.world) (w_resolve Demo.world)
          (fun _ => Some (mkResponse (Some "0") true [4]))
          (w_zipfile Demo.world) (w_run Demo.world)
          (w_stat_size Demo.world) (w_which Demo.world) (w_probe Demo.world)
          (w_argv0 Demo.world).


(* ===================================================================== *)
(** ** install and uninstall: the desktop handler of VMNetX URLs *)
(* ===================================================================== *)

(** [str.capitalize] on ASCII text: the first character in upper case,
    the others in lower case. *)
Definition upper_char (c : ascii) : ascii :=
  if PyStr.is_lower c then ascii_of_N (N_of_ascii c - 32) else c.

Definition capitalize (s : string) : string :=
  match s with
  | EmptyString => EmptyString
  | String c s' => String (upper_char c) (PyStr.lower s')
  end.

(** The arguments of the [install] sub-command ([uninstall] has only
    [--dry-run]). *)
Record InstallArgs := mkInstallArgs {
  i_dry_run : list string;
  i_tier3 : option string;         (* [--tier3], [None] when not given *)
  handler : string }.              (* "launch" or "convert" *)

(** What [install] and [uninstall] see of the operator's session. *)
Record Desktop := mkDesktop {
  d_home : string;                 (* [Path.home()] *)
  d_exists : string -> bool;       (* [Path.exists] *)
  d_cwd_app : option string;       (* [Path.cwd().joinpath(sys.argv[0])
                                      .resolve(strict=True)];
                                      [None]: [FileNotFoundError] *)
  d_exe_app : option string;       (* the same under the directory of
                                      [sys.executable] *)
  d_gettempdir : string;           (* [tempfile.gettempdir()] *)
  d_mkdtemp : string }.            (* the directory [TemporaryDirectory()]
                                      makes *)

Definition DESKTOP_FILE_NAME : string := "olive2022.desktop".

Definition missing_tier3_warning : string :=
  nl ++ "!!! Couldn't find 'sinfonia-tier3', make sure it is installed !!!"
     ++ nl ++ nl.

(** [f"{tier3}"] *)
Definition tier3_text (tier3 : option string) : string :=
  match tier3 with Some p => p | None => "None" end.

(** The [Exec] line of the desktop file. *)
Definition exec_line (app handler : string) (tier3 : option string) : string :=
  "Exec=x-terminal-emulator -e " ++ dq ++ app ++ " " ++ handler
  ++ " --tier3=" ++ tier3_text tier3 ++ " '%u'" ++ dq ++ nl.

Definition desktop_file_content (app handler : string) (tier3 : option string)
  : string :=
  "[Desktop Entry]" ++ nl
  ++ "Type=Application" ++ nl
  ++ "Version=1.0" ++ nl
  ++ "Name=Olive Archive " ++ capitalize handler ++ nl
  ++ "NoDisplay=true" ++ nl
  ++ "Comment=Execute Olive Archive virtual machines with Sinfonia" ++ nl
  ++ "Path=/tmp" ++ nl
  ++ exec_line app handler tier3
  ++ "MimeType=x-scheme-handler/vmnetx;x-scheme-handler/vmnetx+http;"
  ++ "x-scheme-handler/vmnetx+https;" ++ nl.

Section Install.

Variable w : World.
Variable d : Desktop.

Definition DESKTOP_FILE_ROOT : string :=
  path_join (path_join (path_join (d_home d) ".local") "share") "applications".

Definition desktop_file : string := path_join DESKTOP_FILE_ROOT DESKTOP_FILE_NAME.

(** [uninstall]; of its arguments it reads [dry_run] only. *)
Definition uninstall (dry_run : list string) : M unit :=
  match dry_run with
  | _ :: _ => print ("rm " ++ desktop_file ++ nl)
  | [] => if d_exists d desktop_file then emit (Unlink desktop_file)
          else ret tt
  end.

(** [args.tier3 or which("sinfonia-tier3")] *)
Definition find_tier3 (a : InstallArgs) : option string :=
  match i_tier3 a with
  | Some t => if UrlParse.nonempty t then Some t
              else w_which w "sinfonia-tier3"
  | None => w_which w "sinfonia-tier3"
  end.

(** The [try] block that locates the program; the second
    [FileNotFoundError] is not caught ([OSError] stands for it). *)
Definition locate_app : M string :=
  match d_cwd_app d with
  | Some app => ret app
  | None => lift (OSError "FileNotFoundError") (d_exe_app d)
  end.

Definition install_command (dry_run : list string) (tmpfile : string)
  : list string :=
  (dry_run ++ ["desktop-file-install"; ("--dir=" ++ DESKTOP_FILE_ROOT)%string;
               "--delete-original"; "--rebuild-mime-info-cache"; tmpfile])%list.

Definition install (a : InstallArgs) : M unit :=
  let tier3 := find_tier3 a in
  match tier3 with
  | None => print missing_tier3_warning
  | Some _ => ret tt
  end ;;
  uninstall (i_dry_run a) ;;
  app <- locate_app ;;
  let desktop_file_content := desktop_file_content app (handler a) tier3 in
  emit (Mkdtemp (d_gettempdir d) (d_mkdtemp d)) ;;
  finally
    (tmpfile <-
       match i_dry_run a with
       | _ :: _ =>
           let tmpfile := DESKTOP_FILE_NAME in
           print ("cat " ++ tmpfile ++ " << EOF" ++ nl
                  ++ desktop_file_content ++ "EOF" ++ nl) ;;
           ret tmpfile
       | [] =>
           let tmpfile := path_join (d_mkdtemp d) DESKTOP_FILE_NAME in
           emit (WriteText tmpfile desktop_file_content) ;;
           ret tmpfile
       end ;;
     run w (install_command (i_dry_run a) tmpfile))
    (emit (Rmtree (d_mkdtemp d))).

End Install.

(** The event changes nothing on disk outside a fresh temporary
    directory, and starts no command but behind the words [dry]. *)
Definition dry_event (dry : list string) (e : event) : Prop :=
  match e with
  | Print _ | Mkdtemp _ _ | Rmtree _ => True
  | Run cmd => exists rest, cmd = (dry ++ rest)%list
  | _ => False
  end.

(** A session with an installed handler, in which the program file is
    found nowhere. *)
Definition lost_desktop : Desktop :=
  mkDesktop "/home/u" (fun _ => true) None None "/tmp" "/tmp/tmpcd34".


(** A world without sinfonia-tier3 in which desktop-file-install fails. *)
Definition bare_world : World :=
  mkWorld "/var/tmp/tmpab12" (fun p => p) (fun _ => None) (fun _ => None)
          (fun _ => 1) (fun _ => 0) (fun _ => None) (fun _ => Timeout)
          "olive2022".

(** The package file a conversion reads: the one named on the command
    line, else the download in the working directory. *)
Definition package_path (w : World) (args : Args) : string :=
  match vmnetx_package args with
  | Some p => p
  | None => path_join (working_dir w args) "vmnetx-package.zip"
  end.

(** The file is no package the conversion can read: it is no archive,
    one of the two descriptors is missing or is not well-formed XML, the
    package descriptor has no [name] attribute, or there is no
    [disk.img]. *)
Definition unreadable (archive : option ZipArchive) : Prop :=
  match archive with
  | None => True
  | Some z =>
      match package_xml z with
      | Some (Some description) =>
          Xml.lookup "name" (Xml.attrib description) = None
      | _ => True
      end
      \/ match domain_xml z with
         | Some (Some _) => False
         | _ => True
         end
      \/ has_disk_img z = false
  end.

(** [stops_early m]: every run of [m] ends with an exception, having
    started no command and written no text file. *)
Definition stops_early {A} (m : M A) : Prop :=
  forall s,
    (exists e, fst (m s) = Raise e)
    /\ exists evs,
        trace (snd (m s)) = (trace s ++ evs)%list
        /\ Forall (fun e => is_run e = false /\ is_write e = false) evs.

(** A world whose package archive has no [disk.img]. *)
Definition diskless_world : World :=
  mkWorld (w_mkdtemp Demo.world) (w_resolve Demo.world) (w_urlopen Demo.world)
          (fun _ => Some (mkZip (Some (Some Demo.package_description))
                                (Some (Some Demo.domain)) false))
          (w_run Demo.world) (w_stat_size Demo.world) (w_which Demo.world)
          (w_probe Demo.world) (w_argv0 Demo.world).


(** The last events of a build that returns: the two files of the
    container build are written and [docker build] is started. *)
Definition image_events (w : World) (args : Args) (tmpdir : string) (b : Built)
  : list event :=
  [WriteText (path_join tmpdir ".dockerignore") dockerignore_text;
   WriteText (path_join tmpdir "Dockerfile") (dockerfile_text (vmi_fullname b));
   docker_build w args tmpdir b].

(** The events of the recipe stage for the access-control block [c],
    [last] being the event of the closing prompt. *)
Definition recipe_events (args : Args) (b : Built) (c : string) (last : event)
  : list event :=
  [Print ("Creating Sinfonia recipe " ++ Uuid.to_string (sinfonia_uuid b) ++ nl);
   Mkdir RECIPES;
   WriteText (recipe_path (sinfonia_uuid b)) (recipe_body args b ++ c);
   last].

(* ===================================================================== *)
(** ** The events of a conversion that completes *)
(* ===================================================================== *)

(** The event is the prompt for the name of the image. *)
Definition asks_name (e : event) : bool :=
  match e with
  | Input p _ | InputEOF p => String.eqb p name_prompt
  | _ => false
  end.

(** An event of the download: text on standard output, the request, a
    buffer written to the package file. *)
Definition transfer_event (e : event) : Prop :=
  match e with
  | Print _ | Urlopen _ | WriteChunk _ _ => True
  | _ => False
  end.

(** The package file a build in [tmpdir] reads: the one named on the
    command line, else the download. *)
Definition package_in (args : Args) (tmpdir : string) : string :=
  match vmnetx_package args with
  | Some p => p
  | None => path_join tmpdir "vmnetx-package.zip"
  end.

(** The command that re-encodes the disk image. *)
Definition recompress_command (w : World) (tmpdir : string) : list string :=
  ["qemu-img"; "convert"; "-c"; "-p"; "-O"; "qcow2";
   w_resolve w (path_join tmpdir "disk.img");
   w_resolve w (path_join tmpdir "disk.qcow2")].

(** The savings line for the size [post] after and the size [pre] before
    the re-encoding: the line for [100 - 100 * post // pre], none when
    that is 0. *)
Definition savings_events (post pre : Z) : list event :=
  if 100 - (100 * post) / pre =? 0 then []
  else [Print ("compression savings "
               ++ PyStr.of_Z (100 - (100 * post) / pre) ++ "%" ++ nl)].

(** The events of a build that completes, from the name gate on: what
    the inspection found, the extraction, the re-encoding with its savings
    line, the two files of the container build and [docker build]. *)
Definition inspected_events (w : World) (args : Args) (tmpdir : string)
           (b : Built) : list event :=
  ([Print (vmi_fullname b ++ nl);
    Print ("cpus " ++ PyStr.of_Z (cpus b) ++ " memory "
           ++ PyStr.of_Z (memory b) ++ nl);
    Print ("Extracting disk image" ++ nl);
    Extract "disk.img" tmpdir]
   ++ match tmp_dir args, vmnetx_package args with
      | None, None => [Unlink (path_join tmpdir "vmnetx-package.zip")]
      | _, _ => []
      end
   ++ [Print ("Recompressing disk image" ++ nl);
       Run (recompress_command w tmpdir)]
   ++ savings_events (w_stat_size w (path_join tmpdir "disk.qcow2"))
                     (w_stat_size w (path_join tmpdir "disk.img"))
   ++ match tmp_dir args with
      | None => [Unlink (path_join tmpdir "disk.img")]
      | Some _ => []
      end
   ++ Print ("Creating containerDisk image" ++ nl)
      :: image_events w args tmpdir b)%list.

(** The events of a publication that completes: nothing with a working
    directory the operator named; else the working files go, the operator
    consents unless there is a deploy token, the image is pushed and
    removed locally. *)
Definition published_events (args : Args) (tmpdir tag : string)
           (consent : list event) : list event :=
  match tmp_dir args with
  | Some _ => []
  | None =>
      ([Unlink (path_join tmpdir ".dockerignore");
        Unlink (path_join tmpdir "Dockerfile");
        Unlink (path_join tmpdir "disk.qcow2");
        Rmdir tmpdir]
       ++ consent
       ++ [Print ("Publishing containerDisk image" ++ nl);
           Run ["docker"; "push"; tag];
           Run ["docker"; "image"; "rm"; tag]])%list
  end.

(** The events of entering and of leaving the [with] block. *)
Definition entered_events (w : World) (args : Args) : list event :=
  match tmp_dir args with
  | Some _ => []
  | None => [Mkdtemp "/var/tmp" (w_mkdtemp w)]
  end.

Definition left_events (w : World) (args : Args) : list event :=
  match tmp_dir args with
  | Some _ => []
  | None => [Rmtree (w_mkdtemp w)]
  end.

(** Follows the spec's words, for comparison with [compression]: the
    saving [100 - 100 * post / pre], an exact quotient, "as an integer
    truncated toward zero". *)
Definition spec_savings (post pre : Z) : Z :=
  Z.quot (100 * pre - 100 * post) pre.

(** The world of [Demo.world] with a disk image of 3 bytes that the
    re-encoding brings down to 1 byte. *)
Definition small_disk_world : World :=
  mkWorld (w_mkdtemp Demo.world) (w_resolve Demo.world) (w_urlopen Demo.world)
          (w_zipfile Demo.world) (w_run Demo.world)
          (fun p => if String.eqb p "work/disk.img" then 3 else 1)
          (w_which Demo.world) (w_probe Demo.world) (w_argv0 Demo.world).

(** The text of the f-string of [credentials] for a registry host, a
    user name and a password. *)
Definition credentials_text (registry username password : string) : string :=
  "  containerDiskCredentials:" ++ nl
  ++ "    registry: " ++ dq ++ registry ++ dq ++ nl
  ++ "    username: " ++ dq ++ username ++ dq ++ nl
  ++ "    password: " ++ dq ++ password ++ dq ++ nl
  ++ "  restricted: true" ++ nl.

(** A deploy token with a colon and a registry without a slash. *)
Definition bare_registry_args : Args :=
  mkArgs [] Demo.locator None None "reg.example.com" (Some "alice:secret")
         "sinfonia-tier3".

(** Follows the spec's words, for comparison with the exception the code
    raises: "a clear InvalidCredentials error" tells malformed credentials
    from every other failure, so no conversion whose deploy token has a
    colon ends with it. *)
Definition spec_invalid_credentials (e : exn) : Prop :=
  forall w args token s,
    deploy_token args = Some token -> PyStr.has_char ":" token = true ->
    fst (convert w args s) <> Raise e.

(** The world of [zero_length_world] with a response that is not
    chunked, with one that has no length header, and with one whose
    length header is no number. *)
Definition plain_zero_length_world : World :=
  mkWorld (w_mkdtemp Demo.world) (w_resolve Demo.world)
          (fun _ => Some (mkResponse (Some "0") false [4]))
          (w_zipfile Demo.world) (w_run Demo.world)
          (w_stat_size Demo.world) (w_which Demo.world) (w_probe Demo.world)
          (w_argv0 Demo.world).

Definition silent_header_world : World :=
  mkWorld (w_mkdtemp Demo.world) (w_resolve Demo.world)
          (fun _ => Some (mkResponse None false [4]))
          (w_zipfile Demo.world) (w_run Demo.world)
          (w_stat_size Demo.world) (w_which Demo.world) (w_probe Demo.world)
          (w_argv0 Demo.world).

Definition wrong_header_world : World :=
  mkWorld (w_mkdtemp Demo.world) (w_resolve Demo.world)
          (fun _ => Some (mkResponse (Some "ten") false [4]))
          (w_zipfile Demo.world) (w_run Demo.world)
          (w_stat_size Demo.world) (w_which Demo.world) (w_probe Demo.world)
          (w_argv0 Demo.world).

(* ===================================================================== *)
(** ** Reasoning about runs *)
(* ===================================================================== *)

(** [emits P m]: whatever the state, [m] only appends events, and every
    event it appends satisfies [P]. *)
Definition emits {A} (P : event -> Prop) (m : M A) : Prop :=
  forall s, exists evs, trace (snd (m s)) = (trace s ++ evs)%list /\ Forall P evs.

Section Emits.

Variable P : event -> Prop.

Lemma emits_ret {A} (a : A) : emits P (ret a).
Proof. intros s. exists []. simpl. rewrite app_nil_r. auto. Qed.

Lemma emits_raise {A} (e : exn) : emits P (@raise A e).
Proof. intros s. exists []. simpl. rewrite app_nil_r. auto. Qed.

Lemma emits_sys_exit {A} : emits P (@sys_exit A).
Proof. intros s. exists []. simpl. rewrite app_nil_r. auto. Qed.

Lemma emits_emit (e : event) : P e -> emits P (emit e).
Proof. intros H s. exists [e]. simpl. auto. Qed.

Lemma emits_print (t : string) : P (Print t) -> emits P (print t).
Proof. apply emits_emit. Qed.

Lemma emits_bind {A B} (m : M A) (k : A -> M B) :
  emits P m -> (forall a, emits P (k a)) -> emits P (bind m k).
Proof.
  intros Hm Hk s. unfold bind.
  destruct (Hm s) as [e1 [E1 F1]].
  destruct (m s) as [[a | e | n] s1]; simpl in *.
  - destruct (Hk a s1) as [e2 [E2 F2]].
    exists (e1 ++ e2)%list. rewrite E2, E1, app_assoc. split; auto.
    apply Forall_app; auto.
  - exists e1; auto.
  - exists e1; auto.
Qed.

Lemma emits_finally {A} (m : M A) (c : M unit) :
  emits P m -> emits P c -> emits P (finally m c).
Proof.
  intros Hm Hc s. unfold finally.
  destruct (Hm s) as [e1 [E1 F1]].
  destruct (m s) as [r s1]; simpl in *.
  destruct (Hc s1) as [e2 [E2 F2]].
  exists (e1 ++ e2)%list. rewrite E2, E1, app_assoc. split; auto.
  apply Forall_app; auto.
Qed.

Lemma emits_input (p : string) :
  (forall line, P (Input p line)) -> P (InputEOF p) -> emits P (input p).
Proof.
  intros H1 H2 s. unfold input.
  destruct (stdin s) as [| l rest]; simpl.
  - exists [InputEOF p]; auto.
  - exists [Input p l]; auto.
Qed.

Lemma emits_lift {A} (e : exn) (o : option A) : emits P (lift e o).
Proof. destruct o; [apply emits_ret | apply emits_raise]. Qed.

Lemma emits_floordiv (a b : Z) : emits P (floordiv a b).
Proof.
  unfold floordiv. destruct (b =? 0); [apply emits_raise | apply emits_ret].
Qed.

Lemma emits_int (t : string) : emits P (int t).
Proof. apply emits_lift. Qed.

Lemma emits_unpack_split (c : ascii) (t : string) : emits P (unpack_split c t).
Proof. apply emits_lift. Qed.

Lemma emits_run (w : World) (cmd : list string) :
  P (Run cmd) -> emits P (run w cmd).
Proof.
  intros H. unfold run. apply emits_bind.
  - apply emits_emit, H.
  - intros _. destruct (w_run w cmd =? 0); [apply emits_ret | apply emits_raise].
Qed.

Lemma emits_derive (u : string) : emits P (derive u).
Proof. apply emits_lift. Qed.

Lemma emits_name_gate (name : string) :
  (forall line, P (Input name_prompt line)) -> P (InputEOF name_prompt) ->
  emits P (name_gate name).
Proof.
  intros H1 H2 [tr lines]. unfold name_gate. simpl.
  revert name tr. induction lines as [| l rest IH]; intros name tr; simpl.
  - match goal with |- context [if ?b then _ else _] => destruct b end; simpl.
    + exists [InputEOF name_prompt]; auto.
    + exists []. rewrite app_nil_r. auto.
  - match goal with |- context [if ?b then _ else _] => destruct b end; simpl.
    + destruct (IH l (tr ++ [Input name_prompt l])%list) as [evs [E F]].
      exists (Input name_prompt l :: evs). rewrite E, <- app_assoc. auto.
    + exists []. rewrite app_nil_r. auto.
Qed.

Lemma emits_copy_loop (dst : string) (total : Z) (bufs : list Z) :
  (forall n, P (WriteChunk dst n)) -> (forall t, P (Print t)) ->
  forall copied, emits P (copy_loop dst total copied bufs).
Proof.
  intros H1 H2. induction bufs as [| n rest IH]; intros copied; simpl.
  - apply emits_ret.
  - destruct (n <=? 0); [apply emits_ret |].
    apply emits_bind; [apply emits_emit, H1 | intros _].
    apply emits_bind; [apply emits_floordiv | intros pct].
    apply emits_bind; [apply emits_print, H2 | intros _].
    apply IH.
Qed.

End Emits.

(** The events of a run, once [emits] is known. *)
Lemma emits_events_of {A} (P : event -> Prop) (m : M A) (s : state) :
  emits P m -> Forall P (events_of m s).
Proof.
  intros H. destruct (H s) as [evs [E F]]. unfold events_of.
  rewrite E, skipn_app, skipn_all, Nat.sub_diag. simpl. exact F.
Qed.

Lemma emits_weaken {A} (P Q : event -> Prop) (m : M A) :
  (forall e, P e -> Q e) -> emits P m -> emits Q m.
Proof.
  intros HPQ H s. destruct (H s) as [evs [E F]].
  exists evs. split; auto. eapply Forall_impl; eauto.
Qed.

Lemma placeholder_member (name : string) :
  PyStr.member name [""; "Virtual Machine"] = true <-> placeholder name.
Proof.
  unfold PyStr.member, placeholder. simpl.
  rewrite !orb_true_iff, !String.eqb_eq. intuition discriminate.
Qed.

Lemma not_placeholder_member (name : string) :
  PyStr.member name [""; "Virtual Machine"] = false <-> ~ placeholder name.
Proof.
  rewrite <- placeholder_member.
  destruct (PyStr.member name [""; "Virtual Machine"]); intuition congruence.
Qed.

(* ===================================================================== *)
(** ** Disk encoder: the compression report *)
(* ===================================================================== *)

Lemma state_eta (s : state) : mkState (trace s) (stdin s) = s.
Proof. destruct s; reflexivity. Qed.

(* ===================================================================== *)
(** ** Package inspector: sizing and the name gate *)
(* ===================================================================== *)

(* ===================================================================== *)
(** ** Recipe emitter: the access-control block *)
(* ===================================================================== *)

Lemma events_of_app {A} (m : M A) (s : state) (evs : list event) :
  trace (snd (m s)) = (trace s ++ evs)%list -> events_of m s = evs.
Proof.
  intros E. unfold events_of.
  rewrite E, skipn_app, skipn_all, Nat.sub_diag. reflexivity.
Qed.

Lemma bind_emit {A} (e : event) (k : unit -> M A) (s : state) :
  bind (emit e) k s = k tt (mkState (trace s ++ [e]) (stdin s)).
Proof. reflexivity. Qed.

Lemma bind_ok {A B} (m : M A) (k : A -> M B) (s s' : state) (a : A) :
  m s = (Ok a, s') -> bind m k s = k a s'.
Proof. intros H. unfold bind. rewrite H. reflexivity. Qed.

Lemma bind_raise {A B} (m : M A) (k : A -> M B) (s s' : state) (e : exn) :
  m s = (Raise e, s') -> bind m k s = (Raise e, s').
Proof. intros H. unfold bind. rewrite H. reflexivity. Qed.

Lemma bind_exit {A B} (m : M A) (k : A -> M B) (s s' : state) (n : Z) :
  m s = (Exit n, s') -> bind m k s = (Exit n, s').
Proof. intros H. unfold bind. rewrite H. reflexivity. Qed.

(** [credentials] reads the arguments only. *)
Lemma credentials_pure (a : Args) (r : result string) (s s' : state) :
  credentials a s = (r, s') -> s' = s /\ forall t, credentials a t = (r, t).
Proof.
  unfold credentials, unpack_split, lift, bind, ret, raise.
  destruct (deploy_token a) as [tok |].
  - destruct (PyStr.partition "/" (registry a)) as [[r1 r2] |].
    + destruct (PyStr.partition ":" tok) as [[u p] |];
        intros H; inversion H; auto.
    + intros H; inversion H; auto.
  - intros H; inversion H; auto.
Qed.

Lemma emit_recipe_run (a : Args) (b : Built) (c : string) (s : state) :
  credentials a s = (Ok c, s) ->
  exists r last,
    emit_recipe a b s
    = (r, mkState (trace s ++
                   [Print ("Creating Sinfonia recipe "
                           ++ Uuid.to_string (sinfonia_uuid b) ++ nl);
                    Mkdir RECIPES;
                    WriteText (recipe_path (sinfonia_uuid b)) (recipe_body a b ++ c);
                    last])
                  (tl (stdin s)))
    /\ (last = InputEOF done_prompt \/ exists l, last = Input done_prompt l).
Proof.
  intros Hc. apply credentials_pure in Hc. destruct Hc as [_ Hc].
  unfold emit_recipe, print. rewrite bind_emit.
  rewrite (bind_ok _ _ _ _ _ (Hc _)).
  rewrite !bind_emit. cbn [trace stdin].
  unfold bind, input. cbn [trace stdin].
  destruct (stdin s) as [| l rest].
  - exists (Raise EOFError), (InputEOF done_prompt).
    rewrite <- !app_assoc. split; [reflexivity | auto].
  - exists (Ok tt), (Input done_prompt l).
    rewrite <- !app_assoc. split; [reflexivity | eauto].
Qed.

(* ===================================================================== *)
(** ** Deployment waiter *)
(* ===================================================================== *)

Section Waiter.

Variable w : World.

Lemma attempt_not_ready (p : Probe) (s : state) :
  not_ready p ->
  attempt p s = (Ok Polling, mkState (trace s ++ idle_round) (stdin s)).
Proof.
  intros [H | [H | H]]; subst p; unfold attempt, print;
    rewrite !bind_emit; cbn [trace stdin]; unfold ret;
    rewrite <- !app_assoc; reflexivity.
Qed.

Lemma rfb_handshake (data : string) :
  PyStr.startswith "RFB" data = true ->
  PyStr.startswith "RFB" (substring 0 3 data) = true.
Proof.
  unfold PyStr.startswith.
  intros H. apply String.prefix_correct in H.
  change (String.length "RFB") with 3%nat in H. rewrite H. reflexivity.
Qed.

Lemma attempt_ready (data : string) (s : state) :
  PyStr.startswith "RFB" data = true ->
  attempt (Answered data) s
  = (Ok Connected, mkState (trace s ++ ready_round) (stdin s)).
Proof.
  intros H. unfold attempt, print. rewrite !bind_emit. cbn [trace stdin].
  rewrite (rfb_handshake _ H). unfold ret. rewrite <- !app_assoc. reflexivity.
Qed.

(** [n] turns that are not ready use up [n] attempts and leave the loop
    polling. *)
Lemma poll_idle (n : nat) :
  forall k fuel s,
    (forall j, (j < n)%nat -> not_ready (w_probe w (k + j))) ->
    poll w (n + fuel) k s
    = poll w fuel (k + n)
           (mkState (trace s ++ List.concat (repeat idle_round n)) (stdin s)).
Proof.
  induction n as [| n IH]; intros k fuel s H.
  - simpl. rewrite app_nil_r, Nat.add_0_r, state_eta. reflexivity.
  - change (S n + fuel)%nat with (S (n + fuel)). cbn [poll].
    assert (H0 : not_ready (w_probe w k)).
    { rewrite <- (Nat.add_0_r k). apply H. lia. }
    rewrite (bind_ok _ _ _ _ _ (attempt_not_ready _ s H0)).
    rewrite IH.
    + cbn [trace stdin repeat List.concat].
      rewrite <- app_assoc, Nat.add_succ_r. reflexivity.
    + intros j Hj. replace (S k + j)%nat with (k + S j)%nat by lia.
      apply H. lia.
Qed.

Lemma attempts_idle (n : nat) :
  attempts (List.concat (repeat idle_round n)) = n
  /\ commands (List.concat (repeat idle_round n)) = 0%nat.
Proof.
  unfold attempts, commands.
  induction n as [| n [IH1 IH2]]; [split; reflexivity |].
  simpl. rewrite IH1, IH2. split; reflexivity.
Qed.

Lemma attempts_app (l1 l2 : list event) :
  attempts (l1 ++ l2) = (attempts l1 + attempts l2)%nat
  /\ commands (l1 ++ l2) = (commands l1 + commands l2)%nat.
Proof.
  unfold attempts, commands. rewrite !filter_app, !length_app. auto.
Qed.

(** The polling loop when the endpoint is not ready for [N] attempts and
    then sends the preamble: with fuel for at most [N] attempts the loop
    is still polling; with more it is connected, after [N + 1] attempts. *)
Lemma poll_connects (N : nat) (data : string) (s : state) :
  (forall k, (k < N)%nat -> not_ready (w_probe w k)) ->
  w_probe w N = Answered data ->
  PyStr.startswith "RFB" data = true ->
  (forall fuel, (fuel <= N)%nat ->
      poll w fuel 0 s
      = (Ok Polling,
         mkState (trace s ++ List.concat (repeat idle_round fuel)) (stdin s)))
  /\ (forall fuel, (N < fuel)%nat ->
         poll w fuel 0 s
         = (Ok Connected,
            mkState (trace s ++ List.concat (repeat idle_round N) ++ ready_round)
                    (stdin s))).
Proof.
  intros Hidle Hans Hrfb. split.
  - intros fuel Hf.
    rewrite <- (Nat.add_0_r fuel) at 1.
    rewrite poll_idle; [reflexivity |].
    intros j Hj. apply Hidle. lia.
  - intros fuel Hf.
    replace fuel with (N + S (fuel - N - 1))%nat at 1 by lia.
    rewrite poll_idle by (intros j Hj; apply Hidle; lia).
    cbn [poll]. simpl Nat.add. rewrite Hans.
    rewrite (bind_ok _ _ _ _ _ (attempt_ready _ _ Hrfb)).
    cbn [trace stdin]. unfold ret. rewrite <- app_assoc. reflexivity.
Qed.

End Waiter.

(** C4: when the display endpoint is not ready (name resolution failure,
    connection refused or timeout) for the first [N] attempts and then
    sends bytes that begin with "RFB", the waiter is still [Polling] after
    any number of attempts up to [N], and is [Connected] with any larger
    bound, having made exactly [N + 1] attempts and started no command;
    the result does not change with a larger bound, so the transition
    happens once; the viewer is selected only after these [N + 1]
    attempts.  When the endpoint is never ready the waiter is still
    [Polling] after any number of attempts, however large, each attempt
    made, and no command is started. *)
Theorem waiter_connects_after_preamble (w : World) (args : Args) (s : state) :
  (forall N data,
      (forall k, (k < N)%nat -> not_ready (w_probe w k)) ->
      w_probe w N = Answered data ->
      PyStr.startswith "RFB" data = true ->
      (forall fuel, (fuel <= N)%nat ->
          fst (poll w fuel 0 s) = Ok Polling
          /\ attempts (events_of (poll w fuel 0) s) = fuel)
      /\ (forall fuel, (N < fuel)%nat ->
             fst (poll w fuel 0 s) = Ok Connected
             /\ attempts (events_of (poll w fuel 0) s) = S N
             /\ commands (events_of (poll w fuel 0) s) = 0%nat
             /\ poll w fuel 0 s = poll w (S N) 0 s
             /\ stage2 w fuel args s
                = bind (connect_viewer w args) (fun _ => ret Connected)
                       (mkState (trace s ++ waiting_banner
                                   :: List.concat (repeat idle_round N)
                                   ++ ready_round)
                                (stdin s))))
  /\ ((forall k, not_ready (w_probe w k)) ->
      forall fuel,
        fst (poll w fuel 0 s) = Ok Polling
        /\ attempts (events_of (poll w fuel 0) s) = fuel
        /\ fst (stage2 w fuel args s) = Ok Polling
        /\ commands (events_of (stage2 w fuel args) s) = 0%nat).
Proof.
  split.
  - intros N data Hidle Hans Hrfb.
    destruct (poll_connects w N data s Hidle Hans Hrfb) as [Hlow Hhigh].
    split.
    + intros fuel Hf. rewrite (Hlow fuel Hf). split; [reflexivity |].
      erewrite events_of_app; [| rewrite (Hlow fuel Hf); reflexivity].
      apply attempts_idle.
    + intros fuel Hf. rewrite (Hhigh fuel Hf).
      split; [reflexivity |].
      assert (E : events_of (poll w fuel 0) s
                  = (List.concat (repeat idle_round N) ++ ready_round)%list).
      { apply events_of_app. rewrite (Hhigh fuel Hf). reflexivity. }
      rewrite E.
      destruct (attempts_app (List.concat (repeat idle_round N)) ready_round)
        as [Ha Hc].
      destruct (attempts_idle N) as [Ia Ic].
      rewrite Ha, Hc, Ia, Ic.
      split; [change (attempts ready_round) with 1%nat; lia |].
      split; [reflexivity |].
      split; [rewrite (Hhigh (S N)) by lia; reflexivity |].
      unfold stage2, print. rewrite bind_emit.
      pose proof (poll_connects w N data
                    (mkState (trace s ++ [waiting_banner]) (stdin s))
                    Hidle Hans Hrfb) as [_ Hhigh'].
      rewrite (bind_ok _ _ _ _ _ (Hhigh' fuel Hf)).
      cbn [trace stdin]. rewrite <- app_assoc. reflexivity.
  - intros Hidle fuel.
    assert (Hp : forall t,
               poll w fuel 0 t
               = (Ok Polling,
                  mkState (trace t ++ List.concat (repeat idle_round fuel))
                          (stdin t))).
    { intros t. rewrite <- (Nat.add_0_r fuel) at 1.
      rewrite poll_idle; [reflexivity | intros j _; apply Hidle]. }
    rewrite Hp. split; [reflexivity |].
    split.
    { erewrite events_of_app; [| rewrite Hp; reflexivity]. apply attempts_idle. }
    unfold stage2, print. rewrite bind_emit.
    rewrite (bind_ok _ _ _ _ _ (Hp _)). cbn [trace stdin].
    split; [reflexivity |].
    erewrite events_of_app.
    2:{ unfold stage2, print. rewrite bind_emit.
        rewrite (bind_ok _ _ _ _ _ (Hp _)). cbn [trace stdin ret snd].
        rewrite <- app_assoc. reflexivity. }
    change ([waiting_banner] ++ List.concat (repeat idle_round fuel))%list
      with (waiting_banner :: List.concat (repeat idle_round fuel)).
    unfold commands. cbn [List.filter waiting_banner is_run].
    apply (attempts_idle fuel).
Qed.

Lemma waiter_connects_after_preamble_witness :
  ((forall k, (k < 2)%nat -> not_ready (w_probe Demo.world k))
   /\ w_probe Demo.world 2 = Answered "RFB 003.008"
   /\ PyStr.startswith "RFB" "RFB 003.008" = true
   /\ fst (poll Demo.world 3 0 (Demo.start [])) = Ok Connected
   /\ attempts (events_of (poll Demo.world 3 0) (Demo.start [])) = 3%nat
   /\ fst (poll Demo.world 2 0 (Demo.start [])) = Ok Polling)
  /\ ((forall k, not_ready (w_probe Demo.silent_world k))
      /\ fst (poll Demo.silent_world 50 0 (Demo.start [])) = Ok Polling
      /\ attempts (events_of (poll Demo.silent_world 50 0) (Demo.start []))
         = 50%nat).
Proof.
  assert (H : forall k, (k < 2)%nat -> not_ready (w_probe Demo.world k)).
  { intros [| [| k]] Hk; [right; left; reflexivity | right; left; reflexivity | lia]. }
  assert (Hs : forall k, not_ready (w_probe Demo.silent_world k)).
  { intros k. right; right; reflexivity. }
  split.
  - split; [exact H | split; [reflexivity | split; [reflexivity |]]].
    pose proof (proj1 (waiter_connects_after_preamble
                         Demo.world Demo.public_args (Demo.start []))
                      2%nat "RFB 003.008" H eq_refl eq_refl) as [Hlow Hhigh].
    destruct (Hhigh 3%nat ltac:(lia)) as [H1 [H2 _]].
    destruct (Hlow 2%nat ltac:(lia)) as [H3 _].
    exact (conj H1 (conj H2 H3)).
  - split; [exact Hs |].
    destruct (proj2 (waiter_connects_after_preamble
                       Demo.silent_world Demo.public_args (Demo.start []))
                    Hs 50%nat) as [H1 [H2 _]].
    exact (conj H1 H2).
Defined.

Section StringFacts.
Import PyStr.

Lemma append_nil_r (s : string) : s ++ "" = s.
Proof. induction s as [| x s IH]; simpl; [| rewrite IH]; reflexivity. Qed.

Lemma append_assoc (a b c : string) : (a ++ b) ++ c = a ++ (b ++ c).
Proof. induction a as [| x a IH]; simpl; [| rewrite IH]; reflexivity. Qed.

Lemma has_char_app (c : ascii) (a b : string) :
  has_char c (a ++ b) = has_char c a || has_char c b.
Proof.
  induction a as [| x a IH]; simpl; [reflexivity |].
  rewrite IH, orb_assoc. reflexivity.
Qed.

Lemma has_char_filter (c : ascii) (p : ascii -> bool) (s : string) :
  has_char c s = false -> has_char c (filter p s) = false.
Proof.
  induction s as [| x s IH]; simpl; [auto |].
  intros H. apply orb_false_iff in H. destruct H as [H1 H2].
  destruct (p x); simpl; [rewrite H1 |]; auto.
Qed.

Lemma has_char_lstrip (c : ascii) (p : ascii -> bool) (s : string) :
  has_char c s = false -> has_char c (lstrip p s) = false.
Proof.
  induction s as [| x s IH]; simpl; [auto |].
  intros H. destruct (p x); [| exact H].
  apply orb_false_iff in H. apply IH, H.
Qed.

Lemma has_char_partition (c d : ascii) (s l r : string) :
  partition d s = Some (l, r) ->
  has_char c s = false -> has_char c l = false /\ has_char c r = false.
Proof.
  revert l r. induction s as [| x s IH]; simpl; intros l r; [discriminate |].
  intros H Hc. apply orb_false_iff in Hc. destruct Hc as [H1 H2].
  destruct (Ascii.eqb x d).
  - inversion H; subst. auto.
  - destruct (partition d s) as [[l' r'] |]; [| discriminate].
    inversion H; subst. destruct (IH l' r eq_refl H2) as [Hl Hr].
    simpl. rewrite H1. auto.
Qed.

Lemma partition_miss (c : ascii) (s : string) :
  has_char c s = false -> partition c s = None.
Proof.
  induction s as [| x s IH]; simpl; [auto |].
  intros H. apply orb_false_iff in H. destruct H as [H1 H2].
  rewrite H1, (IH H2). reflexivity.
Qed.

Lemma partition_app_miss (c : ascii) (a t : string) :
  has_char c a = false ->
  partition c (a ++ t)
  = match partition c t with
    | Some (l, r) => Some (a ++ l, r)
    | None => None
    end.
Proof.
  induction a as [| x a IH]; simpl.
  - intros _. destruct (partition c t) as [[l r] |]; reflexivity.
  - intros H. apply orb_false_iff in H. destruct H as [H1 H2].
    rewrite H1, (IH H2). destruct (partition c t) as [[l r] |]; reflexivity.
Qed.

Lemma partition_hit (c : ascii) (a t : string) :
  has_char c a = false -> partition c (a ++ String c t) = Some (a, t).
Proof.
  intros H. rewrite (partition_app_miss _ _ _ H). simpl.
  rewrite Ascii.eqb_refl, append_nil_r. reflexivity.
Qed.

Lemma filter_app (p : ascii -> bool) (a b : string) :
  filter p (a ++ b) = filter p a ++ filter p b.
Proof.
  induction a as [| x a IH]; simpl; [reflexivity |].
  rewrite IH. destruct (p x); reflexivity.
Qed.

Lemma has_char_splitnetloc (c : ascii) (s : string) :
  has_char c s = false ->
  has_char c (fst (UrlParse.splitnetloc s)) = false
  /\ has_char c (snd (UrlParse.splitnetloc s)) = false.
Proof.
  induction s as [| x s IH]; simpl; [auto |].
  intros H. destruct (UrlParse.netloc_delim x); simpl; [auto |].
  apply orb_false_iff in H. destruct H as [H1 H2].
  destruct (IH H2) as [Hn Hr].
  destruct (UrlParse.splitnetloc s) as [n r]. simpl in *.
  rewrite H1. auto.
Qed.

End StringFacts.

Section Bits.

Lemma fits_range (n x : Z) : 0 <= n -> fits n x -> 0 <= x < 2 ^ n.
Proof.
  intros Hn [H0 Hb]. split; [exact H0 |].
  destruct (Z.eq_dec x 0) as [-> | Hx]; [apply Z.pow_pos_nonneg; lia |].
  apply Z.log2_lt_pow2; [lia |].
  destruct (Z_lt_le_dec (Z.log2 x) n) as [Hl | Hl]; [exact Hl |].
  specialize (Hb (Z.log2 x)). rewrite Z.bit_log2 in Hb by lia.
  discriminate (Hb Hl).
Qed.

Lemma range_fits (n x : Z) : 0 <= x < 2 ^ n -> fits n x.
Proof.
  intros [H0 H1]. split; [exact H0 |]. intros k Hk.
  destruct (Z.eq_dec x 0) as [-> | Hx]; [apply Z.testbit_0_l |].
  apply Z.bits_above_log2; [exact H0 |].
  assert (0 <= n).
  { destruct (Z_lt_le_dec n 0) as [Hn | Hn]; [| exact Hn].
    rewrite Z.pow_neg_r in H1 by exact Hn. lia. }
  assert (Z.log2 x < n) by (apply Z.log2_lt_pow2; lia). lia.
Qed.

Lemma fits_mono (n m x : Z) : n <= m -> fits n x -> fits m x.
Proof. intros H [H0 Hb]. split; [exact H0 |]. intros k Hk. apply Hb. lia. Qed.

Lemma fits_land (n a b : Z) : fits n a -> fits n (Z.land a b).
Proof.
  intros [H0 Hb]. split.
  - apply Z.land_nonneg. left. exact H0.
  - intros k Hk. rewrite Z.land_spec, (Hb k Hk). reflexivity.
Qed.

Lemma fits_lor (n a b : Z) : fits n a -> fits n b -> fits n (Z.lor a b).
Proof.
  intros [Ha Hab] [Hb Hbb]. split.
  - apply Z.lor_nonneg. auto.
  - intros k Hk. rewrite Z.lor_spec, (Hab k Hk), (Hbb k Hk). reflexivity.
Qed.

Lemma fits_shiftl (n a : Z) : 0 <= n -> fits n a -> fits (n + 8) (Z.shiftl a 8).
Proof.
  intros Hn [H0 Hb]. split.
  - apply Z.shiftl_nonneg. exact H0.
  - intros k Hk. rewrite Z.shiftl_spec by lia. apply Hb. lia.
Qed.

Lemma fits_byte (x : Z) : fits 8 (Z.land x 255).
Proof.
  rewrite Z.land_comm. apply fits_land. apply range_fits. lia.
Qed.

Lemma be_bytes_fit (n : nat) (x : Z) : Forall (fits 8) (Sha1.be_bytes n x).
Proof.
  induction n as [| n IH]; simpl; constructor; [apply fits_byte | exact IH].
Qed.

Lemma be_int_fits (bs : list Z) :
  Forall (fits 8) bs ->
  forall n acc, 0 <= n -> fits n acc ->
    fits (n + 8 * Z.of_nat (List.length bs))
         (fold_left (fun acc b => Z.lor (Z.shiftl acc 8) b) bs acc).
Proof.
  induction 1 as [| b bs Hb Hbs IH]; intros n acc Hn Hacc.
  - simpl. rewrite Z.add_0_r. exact Hacc.
  - cbn [fold_left List.length].
    replace (n + 8 * Z.of_nat (S (List.length bs)))
      with ((n + 8) + 8 * Z.of_nat (List.length bs)) by lia.
    apply IH; [lia |].
    apply fits_lor; [apply fits_shiftl; assumption |].
    apply (fits_mono 8); [lia | exact Hb].
Qed.

Lemma digest_fits (msg : list Z) : Forall (fits 8) (Sha1.digest msg).
Proof.
  unfold Sha1.digest.
  destruct (fold_left Sha1.compress _ Sha1.init) as [[[[h0 h1] h2] h3] h4].
  repeat (apply Forall_app; split); apply be_bytes_fit.
Qed.

Lemma Forall_firstn_fits (n : nat) (l : list Z) :
  Forall (fits 8) l -> Forall (fits 8) (firstn n l).
Proof.
  intros H. revert n. induction H as [| x l Hx Hl IH]; intros [| n]; simpl;
    constructor; auto.
Qed.

(** A [uuid5] value is a 128-bit number. *)
Lemma uuid5_128 (ns : Uuid.UUID) (name : string) :
  0 <= Uuid.uuid5 ns name < 2 ^ 128.
Proof.
  apply fits_range; [lia |]. unfold Uuid.uuid5.
  set (hash := Sha1.digest _).
  assert (Hi : fits 128 (Sha1.be_int (firstn 16 hash))).
  { unfold Sha1.be_int.
    apply (fits_mono (0 + 8 * Z.of_nat (List.length (firstn 16 hash)))).
    - pose proof (firstn_le_length 16 hash). lia.
    - apply be_int_fits; [| lia | apply range_fits; lia].
      apply Forall_firstn_fits, digest_fits. }
  apply fits_lor; [| apply range_fits; cbn; lia].
  apply fits_land.
  apply fits_lor; [| apply range_fits; cbn; lia].
  apply fits_land. exact Hi.
Qed.

End Bits.

Section UrlFacts.
Import PyStr UrlParse.

Lemma has_char_split_scheme (c : ascii) (u : string) :
  has_char c u = false -> has_char c (snd (split_scheme u)) = false.
Proof.
  intros H. unfold split_scheme.
  destruct (partition ":" u) as [[pre rest] |] eqn:E; [| exact H].
  destruct (first_is_alpha pre && forallb scheme_char pre); [| exact H].
  apply (has_char_partition c _ _ _ _ E H).
Qed.

Lemma has_char_strip_2slash (c : ascii) (u rest : string) :
  strip_2slash u = Some rest -> has_char c u = false -> has_char c rest = false.
Proof.
  destruct u as [| a [| b u]]; simpl; try discriminate.
  destruct (Ascii.eqb a "/" && Ascii.eqb b "/"); [| discriminate].
  intros H Hc. inversion H; subst.
  apply orb_false_iff in Hc. destruct Hc as [_ Hc].
  apply orb_false_iff in Hc. apply Hc.
Qed.

Lemma has_char_netloc_part (c : ascii) (u : string) :
  has_char c u = false ->
  has_char c (fst (fst (netloc_part u))) = false
  /\ has_char c (snd (fst (netloc_part u))) = false.
Proof.
  intros H. unfold netloc_part.
  destruct (strip_2slash u) as [rest |] eqn:E; [| simpl; auto].
  pose proof (has_char_strip_2slash c _ _ E H) as Hr.
  destruct (has_char_splitnetloc c rest Hr) as [Hn Hp].
  destruct (splitnetloc rest) as [n r]. simpl in *. auto.
Qed.

(** A locator without square brackets passes the only test of
    [urlsplit], so [urlparse] returns a result for it. *)
Lemma urlparse_total_without_brackets (url : string) :
  has_char "[" url = false -> has_char "]" url = false ->
  exists r, urlparse url = Some r.
Proof.
  intros Ho Hc. unfold urlparse, urlsplit.
  set (u2 := filter _ (lstrip _ url)).
  assert (Ho2 : has_char "[" u2 = false)
    by (apply has_char_filter, has_char_lstrip, Ho).
  assert (Hc2 : has_char "]" u2 = false)
    by (apply has_char_filter, has_char_lstrip, Hc).
  pose proof (has_char_split_scheme _ _ Ho2) as Ho3.
  pose proof (has_char_split_scheme _ _ Hc2) as Hc3.
  destruct (split_scheme u2) as [sch u3]. simpl in Ho3, Hc3.
  destruct (has_char_netloc_part _ _ Ho3) as [Hon _].
  destruct (has_char_netloc_part _ _ Hc3) as [Hcn _].
  unfold netloc_part in *.
  destruct (strip_2slash u3) as [rest |].
  - destruct (splitnetloc rest) as [n r]. simpl in Hon, Hcn.
    unfold netloc_complaint. rewrite Hon, Hcn. simpl.
    destruct (path_part r) as [[p q] f].
    match goal with |- context [let (_, _) := ?x in _] => destruct x end.
    eexists. reflexivity.
  - destruct (path_part u3) as [[p q] f].
    match goal with |- context [let (_, _) := ?x in _] => destruct x end.
    eexists. reflexivity.
Qed.

End UrlFacts.

Section LocatorFacts.
Import PyStr UrlParse.

Lemma scheme_char_code (a : ascii) :
  scheme_char a = true -> 43 <= code a /\ code a <> 58.
Proof.
  unfold scheme_char, is_alpha, is_upper, is_lower, is_digit.
  rewrite !orb_true_iff, !andb_true_iff, !Z.leb_le.
  intros [[[[[H | H] | H] | H] | H] | H];
    try lia;
    apply Ascii.eqb_eq in H; subst a; cbn; lia.
Qed.

Lemma scheme_char_safe (a : ascii) :
  scheme_char a = true ->
  unsafe_url_byte a = false /\ c0_control_or_space a = false
  /\ Ascii.eqb a ":" = false.
Proof.
  intros H. destruct (scheme_char_code a H) as [H1 H2].
  unfold unsafe_url_byte, c0_control_or_space.
  repeat split.
  - rewrite !orb_false_iff, !Z.eqb_neq. lia.
  - apply Z.leb_gt. lia.
  - destruct (Ascii.eqb_spec a ":") as [-> | _]; [| reflexivity].
    cbn in H2. lia.
Qed.

Lemma filter_scheme (sch : string) :
  forallb scheme_char sch = true -> filter safe_url_byte sch = sch.
Proof.
  induction sch as [| a sch IH]; simpl; [reflexivity |].
  intros H. apply andb_true_iff in H. destruct H as [Ha Hs].
  unfold safe_url_byte at 1. destruct (scheme_char_safe a Ha) as [-> _]. simpl. rewrite (IH Hs).
  reflexivity.
Qed.

Lemma has_colon_scheme (sch : string) :
  forallb scheme_char sch = true -> has_char ":" sch = false.
Proof.
  induction sch as [| a sch IH]; simpl; [reflexivity |].
  intros H. apply andb_true_iff in H. destruct H as [Ha Hs].
  destruct (scheme_char_safe a Ha) as [_ [_ ->]]. simpl. exact (IH Hs).
Qed.

Lemma lstrip_scheme (sch x : string) :
  is_scheme sch = true ->
  lstrip c0_control_or_space (sch ++ x) = sch ++ x.
Proof.
  unfold is_scheme. intros H. apply andb_true_iff in H. destruct H as [H1 H2].
  destruct sch as [| a sch]; [discriminate |].
  simpl in H2. apply andb_true_iff in H2. destruct H2 as [Ha _].
  destruct (scheme_char_safe a Ha) as [_ [Hc _]].
  simpl. rewrite Hc. reflexivity.
Qed.

(** The scheme step of [urlsplit] on a locator: the scheme, in lower
    case, and the text after the colon. *)
Lemma split_scheme_locator (sch x : string) :
  is_scheme sch = true -> split_scheme (sch ++ ":" ++ x) = (lower sch, x).
Proof.
  intros H. unfold split_scheme.
  pose proof H as H'. unfold is_scheme in H'.
  apply andb_true_iff in H'. destruct H' as [H1 H2].
  change (sch ++ ":" ++ x) with (sch ++ String ":" x).
  rewrite (partition_hit ":" sch x (has_colon_scheme sch H2)).
  rewrite H1, H2. reflexivity.
Qed.

Lemma is_tail_filter (t : string) :
  is_tail t = true -> is_tail (filter safe_url_byte t) = true.
Proof.
  destruct t as [| c t]; simpl; [reflexivity |].
  intros H. apply orb_true_iff in H.
  destruct H as [H | H]; apply Ascii.eqb_eq in H; subst c; reflexivity.
Qed.

Lemma strip_2slash_app (b t : string) :
  is_tail t = true ->
  strip_2slash (b ++ t) = option_map (fun r => r ++ t) (strip_2slash b).
Proof.
  intros Ht.
  assert (Hd : forall c t', t = String c t' -> Ascii.eqb c "/" = false).
  { intros c t' ->. simpl in Ht. apply orb_true_iff in Ht.
    destruct Ht as [H | H]; apply Ascii.eqb_eq in H; subst c; reflexivity. }
  destruct b as [| a [| a' b]]; simpl.
  - destruct t as [| c [| d t']]; simpl; try reflexivity.
    rewrite (Hd c _ eq_refl). reflexivity.
  - destruct t as [| c t']; simpl; [reflexivity |].
    rewrite (Hd c _ eq_refl), andb_false_r. reflexivity.
  - destruct (Ascii.eqb a "/" && Ascii.eqb a' "/"); reflexivity.
Qed.

Lemma splitnetloc_app (b t : string) :
  is_tail t = true ->
  splitnetloc (b ++ t) = (fst (splitnetloc b), snd (splitnetloc b) ++ t).
Proof.
  intros Ht. induction b as [| a b IH]; simpl.
  - destruct t as [| c t']; simpl; [reflexivity |].
    simpl in Ht. unfold netloc_delim.
    apply orb_true_iff in Ht.
    destruct Ht as [H | H]; rewrite H; rewrite ?orb_true_r; reflexivity.
  - destruct (netloc_delim a); [reflexivity |].
    rewrite IH. destruct (splitnetloc b) as [n r]. reflexivity.
Qed.

Lemma netloc_part_app (b t : string) :
  is_tail t = true ->
  netloc_part (b ++ t)
  = (fst (fst (netloc_part b)), snd (fst (netloc_part b)) ++ t,
     snd (netloc_part b)).
Proof.
  intros Ht. unfold netloc_part. rewrite (strip_2slash_app b t Ht).
  destruct (strip_2slash b) as [rest |]; simpl; [| reflexivity].
  rewrite (splitnetloc_app rest t Ht).
  destruct (splitnetloc rest) as [n r]. reflexivity.
Qed.

(** The fragment and query steps leave a plain text before a tail as the
    path. *)
Lemma path_part_app (r t : string) :
  plain r = true -> is_tail t = true ->
  fst (fst (path_part (r ++ t))) = r.
Proof.
  unfold plain. intros Hp Ht.
  apply andb_true_iff in Hp. destruct Hp as [Hq Hf].
  apply negb_true_iff in Hq. apply negb_true_iff in Hf.
  unfold path_part.
  destruct t as [| c t'].
  - rewrite append_nil_r, (partition_miss _ _ Hf), (partition_miss _ _ Hq).
    reflexivity.
  - simpl in Ht. apply orb_true_iff in Ht.
    destruct Ht as [H | H]; apply Ascii.eqb_eq in H; subst c.
    + rewrite (partition_app_miss "#" r _ Hf).
      cbn [partition]. change (Ascii.eqb "?" "#") with false. cbv iota.
      destruct (partition "#" t') as [[l x] |].
      * rewrite (partition_hit "?" r l Hq). reflexivity.
      * rewrite (partition_hit "?" r t' Hq). reflexivity.
    + rewrite (partition_hit "#" r t' Hf), (partition_miss _ _ Hq).
      reflexivity.
Qed.

Lemma plain_netloc_part (b : string) :
  plain b = true -> plain (snd (fst (netloc_part b))) = true.
Proof.
  unfold plain. intros H. apply andb_true_iff in H. destruct H as [Hq Hf].
  apply negb_true_iff in Hq. apply negb_true_iff in Hf.
  destruct (has_char_netloc_part "?" b Hq) as [_ ->].
  destruct (has_char_netloc_part "#" b Hf) as [_ ->]. reflexivity.
Qed.

Lemma plain_filter (b : string) : plain b = true -> plain (filter safe_url_byte b) = true.
Proof.
  unfold plain. intros H. apply andb_true_iff in H. destruct H as [Hq Hf].
  apply negb_true_iff in Hq. apply negb_true_iff in Hf.
  rewrite (has_char_filter _ safe_url_byte _ Hq), (has_char_filter _ safe_url_byte _ Hf).
  reflexivity.
Qed.

(** What [urlparse] finds in a locator: network location and path come
    from the hierarchical part alone, up to the treatment of [;params],
    which follows the scheme. *)
Lemma urlparse_locator (sch body tail : string) :
  is_scheme sch = true -> plain body = true -> is_tail tail = true ->
  let '(n, p, ok) := netloc_part (filter safe_url_byte body) in
  if ok then
    exists r, urlparse (locator sch body tail) = Some r
              /\ netloc r = n
              /\ path r = parsed_path (takes_params sch) p
  else urlparse (locator sch body tail) = None.
Proof.
  intros Hs Hb Ht. unfold locator, urlparse, urlsplit.
  rewrite (lstrip_scheme _ _ Hs).
  rewrite !filter_app.
  pose proof Hs as Hs'. unfold is_scheme in Hs'.
  apply andb_true_iff in Hs'. destruct Hs' as [_ Hs2].
  rewrite (filter_scheme _ Hs2).
  change (filter safe_url_byte ":") with ":".
  rewrite (split_scheme_locator _ _ Hs).
  rewrite (netloc_part_app _ _ (is_tail_filter _ Ht)).
  pose proof (plain_netloc_part _ (plain_filter _ Hb)) as Hp.
  destruct (netloc_part (filter safe_url_byte body)) as [[n p] ok].
  cbn [fst snd] in *.
  destruct ok; [| reflexivity].
  pose proof (path_part_app p _ Hp (is_tail_filter _ Ht)) as Hpath.
  destruct (path_part (p ++ filter safe_url_byte tail)) as [[p' q] f].
  cbn [fst] in Hpath. subst p'.
  cbn [s_scheme s_path s_netloc s_query s_fragment].
  unfold parsed_path, takes_params.
  destruct (member (lower sch) uses_params && has_char ";" p).
  - destruct (splitparams p) as [u prm]. eexists. repeat split.
  - eexists. repeat split.
Qed.

End LocatorFacts.

Lemma same_components_same_identity (L1 L2 : string) (r1 r2 : UrlParse.ParseResult) :
  UrlParse.urlparse L1 = Some r1 -> UrlParse.urlparse L2 = Some r2 ->
  UrlParse.netloc r1 = UrlParse.netloc r2 ->
  UrlParse.path r1 = UrlParse.path r2 ->
  vmnetx_url_to_uuid L1 = vmnetx_url_to_uuid L2.
Proof.
  intros H1 H2 Hn Hp. unfold vmnetx_url_to_uuid, canonical_url.
  rewrite H1, H2, Hn, Hp. reflexivity.
Qed.

(** C1 (as amended): two locators in which [urlparse] finds the same
    network location and the same path have the same identity.  This
    covers locators that differ only in scheme and in a trailing query or
    fragment when both schemes are treated alike for [;params] (all
    vmnetx schemes are: none takes parameters) or the shared part has no
    [;].  Every identity is a 128-bit number, and the derivation reads
    nothing but its argument: it leaves the state of a run untouched and
    gives the same result in every state. *)
Theorem same_location_same_identity :
  (forall L1 L2 r1 r2,
      UrlParse.urlparse L1 = Some r1 -> UrlParse.urlparse L2 = Some r2 ->
      UrlParse.netloc r1 = UrlParse.netloc r2 ->
      UrlParse.path r1 = UrlParse.path r2 ->
      vmnetx_url_to_uuid L1 = vmnetx_url_to_uuid L2)
  /\ (forall s1 s2 body t1 t2,
         is_scheme s1 = true -> is_scheme s2 = true ->
         plain body = true -> is_tail t1 = true -> is_tail t2 = true ->
         takes_params s1 = takes_params s2 \/ PyStr.has_char ";" body = false ->
         vmnetx_url_to_uuid (locator s1 body t1)
         = vmnetx_url_to_uuid (locator s2 body t2))
  /\ (forall L u, vmnetx_url_to_uuid L = Some u -> 0 <= u < 2 ^ 128)
  /\ (forall L s t,
         fst (derive L s) = fst (derive L t) /\ snd (derive L s) = s).
Proof.
  split; [exact same_components_same_identity | split; [| split]].
  - intros s1 s2 body t1 t2 Hs1 Hs2 Hb Ht1 Ht2 Hprm.
    pose proof (urlparse_locator s1 body t1 Hs1 Hb Ht1) as H1.
    pose proof (urlparse_locator s2 body t2 Hs2 Hb Ht2) as H2.
    assert (Hsemi : PyStr.has_char ";" body = false ->
                    PyStr.has_char ";"
                      (snd (fst (UrlParse.netloc_part
                                   (PyStr.filter UrlParse.safe_url_byte body))))
                    = false).
    { intros H. apply has_char_netloc_part, has_char_filter, H. }
    destruct (UrlParse.netloc_part (PyStr.filter UrlParse.safe_url_byte body))
      as [[n p] ok].
    cbn [fst snd] in Hsemi.
    destruct ok.
    + destruct H1 as [r1 [E1 [N1 P1]]]. destruct H2 as [r2 [E2 [N2 P2]]].
      apply (same_components_same_identity _ _ r1 r2 E1 E2); [congruence |].
      rewrite P1, P2. destruct Hprm as [Hprm | Hprm].
      * rewrite Hprm. reflexivity.
      * unfold parsed_path. rewrite (Hsemi Hprm), !andb_false_r. reflexivity.
    + unfold vmnetx_url_to_uuid. rewrite H1, H2. reflexivity.
  - intros L u H. unfold vmnetx_url_to_uuid in H.
    destruct (UrlParse.urlparse L); inversion H. apply uuid5_128.
  - intros L s t. unfold derive, lift.
    destruct (vmnetx_url_to_uuid L); split; reflexivity.
Qed.

Lemma same_location_same_identity_witness :
  is_scheme "vmnetx" = true /\ is_scheme "vmnetx+https" = true
  /\ plain "//h/p" = true /\ is_tail "?q#f" = true /\ is_tail "" = true
  /\ (takes_params "vmnetx" = takes_params "vmnetx+https"
      \/ PyStr.has_char ";" "//h/p" = false)
  /\ vmnetx_url_to_uuid (locator "vmnetx" "//h/p" "?q#f")
     = vmnetx_url_to_uuid (locator "vmnetx+https" "//h/p" "")
  /\ (UrlParse.urlparse "https://h/p;x"
      = Some (UrlParse.mkParse "https" "h" "/p" "x" "" "")
      /\ UrlParse.urlparse "//h/p"
         = Some (UrlParse.mkParse "" "h" "/p" "" "" "")
      /\ vmnetx_url_to_uuid "https://h/p;x" = vmnetx_url_to_uuid "//h/p")
  /\ (vmnetx_url_to_uuid "//h/p" = Some 0x6f3b04f04cfe5aca81fa7e3ae3deb96a
      /\ 0 <= 0x6f3b04f04cfe5aca81fa7e3ae3deb96a < 2 ^ 128).
Proof.
  repeat (split; [reflexivity |]).
  split; [left; reflexivity |].
  split; [| split].
  - exact (proj1 (proj2 same_location_same_identity)
             "vmnetx" "vmnetx+https" "//h/p" "?q#f" ""
             eq_refl eq_refl eq_refl eq_refl eq_refl (or_introl eq_refl)).
  - split; [reflexivity | split; [reflexivity |]].
    exact (proj1 same_location_same_identity "https://h/p;x" "//h/p"
             _ _ eq_refl eq_refl eq_refl eq_refl).
  - assert (E : vmnetx_url_to_uuid "//h/p"
                = Some 0x6f3b04f04cfe5aca81fa7e3ae3deb96a)
      by (vm_compute; reflexivity).
    split; [exact E |].
    exact (proj1 (proj2 (proj2 same_location_same_identity)) "//h/p" _ E).
Defined.

(** C1 as stated fails: "https://h/p;x" and "vmnetx+https://h/p;x" differ
    only in their scheme, and their identities differ
    (6f3b04f0-4cfe-5aca-81fa-7e3ae3deb96a and
    81a90e40-624a-5b27-b5d8-88a60938f776): [urlparse] takes [;x] off the
    path for https and leaves it for vmnetx+https. *)
Lemma scheme_changes_identity :
  locator "https" "//h/p;x" "" = "https://h/p;x"
  /\ locator "vmnetx+https" "//h/p;x" "" = "vmnetx+https://h/p;x"
  /\ option_map Uuid.to_string (vmnetx_url_to_uuid "https://h/p;x")
     = Some "6f3b04f0-4cfe-5aca-81fa-7e3ae3deb96a"
  /\ option_map Uuid.to_string (vmnetx_url_to_uuid "vmnetx+https://h/p;x")
     = Some "81a90e40-624a-5b27-b5d8-88a60938f776"
  /\ vmnetx_url_to_uuid "https://h/p;x" <> vmnetx_url_to_uuid "vmnetx+https://h/p;x".
Proof.
  split; [reflexivity | split; [reflexivity |]].
  split; [vm_compute; reflexivity | split; [vm_compute; reflexivity |]].
  vm_compute. discriminate.
Qed.

(* ===================================================================== *)
(** ** The conversion pipeline *)
(* ===================================================================== *)

(** Reduces [emits P m] for a program [m] to [P e] for the events [e] it
    can add, which [tac] has to prove. *)
Ltac emits_go tac :=
  repeat first
    [ progress (cbv beta iota zeta)
    | apply emits_ret | apply emits_raise | apply emits_sys_exit
    | apply emits_lift | apply emits_int | apply emits_floordiv
    | apply emits_unpack_split | apply emits_derive
    | apply emits_emit; tac
    | apply emits_print; tac
    | apply emits_run; tac
    | apply emits_input; [intros; tac | tac]
    | apply emits_name_gate; [intros; tac | tac]
    | apply emits_copy_loop; [intros; tac | intros; tac]
    | apply emits_bind; [| intros]
    | apply emits_finally
    | match goal with
      | |- emits _ (match ?x with _ => _ end) => destruct x
      end ].

Ltac unfold_convert :=
  unfold convert, with_block, with_tmp_ctx, build, publish, emit_recipe,
    credentials, fetch, sizing, report_savings, compression.

(** With a working directory named by the operator, a conversion neither
    asks for the push, nor pushes, nor removes the image or any file. *)
Lemma convert_keeps_everything (w : World) (args : Args) (d : string) :
  tmp_dir args = Some d ->
  emits (fun e => publishes_or_deletes e = false) (convert w args).
Proof.
  intros H. unfold_convert. rewrite !H.
  emits_go ltac:(reflexivity).
Qed.

Lemma bind_ok_inv {A B} (m : M A) (k : A -> M B) (s s' : state) (b : B) :
  bind m k s = (Ok b, s') ->
  exists a s1, m s = (Ok a, s1) /\ k a s1 = (Ok b, s').
Proof.
  unfold bind. destruct (m s) as [[a | e | n] s1]; try discriminate.
  intros H. exists a, s1. auto.
Qed.

Lemma ends_bind {A B} (e : B -> event) (m : M A) (k : A -> M B) :
  emits (fun _ => True) m -> (forall a, ends_with e (k a)) ->
  ends_with e (bind m k).
Proof.
  intros Hm Hk s b s' H.
  destruct (bind_ok_inv _ _ _ _ _ H) as [a [s1 [H1 H2]]].
  destruct (Hm s) as [e1 [E1 _]]. rewrite H1 in E1. simpl in E1.
  destruct (Hk a s1 b s' H2) as [e2 E2].
  exists (e1 ++ e2)%list. rewrite E2, E1, <- !app_assoc. reflexivity.
Qed.

Lemma ends_run_ret {B} (w : World) (cmd : list string) (b : B) (e : B -> event) :
  e b = Run cmd -> ends_with e (bind (run w cmd) (fun _ => ret b)).
Proof.
  intros He s b' s'. unfold run, bind, emit, ret, raise.
  destruct (w_run w cmd =? 0); [| discriminate].
  intros H. inversion H; subst. exists []. rewrite He. reflexivity.
Qed.

(** A build that returns has started [docker build] last. *)
Lemma build_ends_with_docker_build (w : World) (args : Args) (d : string) :
  ends_with (docker_build w args d) (build w args d).
Proof.
  unfold build.
  repeat first
    [ progress (cbv beta iota zeta)
    | apply ends_run_ret; reflexivity
    | apply ends_bind;
      [ solve [unfold fetch, sizing, report_savings, compression;
               emits_go ltac:(exact I)]
      | intros ]
    | match goal with
      | |- ends_with _ (match ?x with _ => _ end) => destruct x
      end ].
Qed.

(** With a working directory named by the operator, a conversion is the
    build followed at once by the recipe. *)
Lemma convert_kept_eq (w : World) (args : Args) (d : string) (s : state) :
  tmp_dir args = Some d -> dry_run args = [] ->
  convert w args s = bind (build w args d) (emit_recipe args) s.
Proof.
  intros H H0. unfold convert, with_block, with_tmp_ctx, publish. rewrite H, H0.
  unfold bind, ret. destruct (build w args d s) as [[b | e | n] s1]; reflexivity.
Qed.

Lemma emit_recipe_starts (args : Args) (b : Built) (s : state) :
  exists rest,
    trace (snd (emit_recipe args b s))
    = (trace s ++ Print ("Creating Sinfonia recipe "
                         ++ Uuid.to_string (sinfonia_uuid b) ++ nl) :: rest)%list.
Proof.
  unfold emit_recipe, print. rewrite bind_emit.
  match goal with
  | |- context [bind ?m ?k ?st] =>
      assert (E : emits (fun _ => True) (bind m k))
        by (unfold credentials; emits_go ltac:(exact I));
      destruct (E st) as [rest [Hr _]]
  end.
  exists rest. rewrite Hr. cbn [trace]. rewrite <- app_assoc. reflexivity.
Qed.

(** C10: with a working directory named by the operator, a conversion
    shows no push confirmation prompt, starts neither [docker push] nor
    [docker image rm], and removes no file or directory; it is the build
    followed at once by the recipe stage, so that after a build that
    succeeds the event after [docker build] is the announcement of the
    recipe. *)
Theorem keep_directory_skips_publication
        (w : World) (args : Args) (d : string) (s : state) :
  tmp_dir args = Some d ->
  Forall (fun e => publishes_or_deletes e = false) (events_of (convert w args) s)
  /\ (dry_run args = [] ->
      convert w args s = bind (build w args d) (emit_recipe args) s)
  /\ (forall b s1,
         dry_run args = [] -> build w args d s = (Ok b, s1) ->
         exists evs rest,
           events_of (convert w args) s
           = (evs ++ [docker_build w args d b;
                      Print ("Creating Sinfonia recipe "
                             ++ Uuid.to_string (sinfonia_uuid b) ++ nl)]
                  ++ rest)%list).
Proof.
  intros H. split; [| split].
  - apply emits_events_of, (convert_keeps_everything w args d H).
  - intros H0. apply convert_kept_eq; assumption.
  - intros b s1 H0 Hb.
    destruct (build_ends_with_docker_build w args d s b s1 Hb) as [evs E].
    destruct (emit_recipe_starts args b s1) as [rest R].
    exists evs, rest. apply events_of_app.
    rewrite (convert_kept_eq w args d s H H0), (bind_ok _ _ _ _ _ Hb), R, E.
    rewrite <- !app_assoc. reflexivity.
Qed.

Lemma keep_directory_skips_publication_witness :
  tmp_dir Demo.keep_args = Some "work"
  /\ dry_run Demo.keep_args = []
  /\ Forall (fun e => publishes_or_deletes e = false)
            (events_of (convert Demo.world Demo.keep_args)
                       (Demo.start ["Win 3.1"; ""]))
  /\ written_paths (events_of (convert Demo.world Demo.keep_args)
                              (Demo.start ["Win 3.1"; ""]))
     = ["work/.dockerignore"; "work/Dockerfile"; Demo.recipe_file]
  /\ convert Demo.world Demo.keep_args (Demo.start ["Win 3.1"; ""])
     = bind (build Demo.world Demo.keep_args "work")
            (emit_recipe Demo.keep_args) (Demo.start ["Win 3.1"; ""])
  /\ exists b evs rest,
       events_of (convert Demo.world Demo.keep_args) (Demo.start ["Win 3.1"; ""])
       = (evs ++ [docker_build Demo.world Demo.keep_args "work" b;
                  Print ("Creating Sinfonia recipe "
                         ++ Uuid.to_string (sinfonia_uuid b) ++ nl)]
              ++ rest)%list.
Proof.
  pose proof (keep_directory_skips_publication
                Demo.world Demo.keep_args "work" (Demo.start ["Win 3.1"; ""])
                eq_refl) as [H1 [H2 H3]].
  split; [reflexivity | split; [reflexivity | split; [exact H1 | split; [| split]]]].
  - vm_compute. reflexivity.
  - exact (H2 eq_refl).
  - eexists. eapply (fun s1 Hb => H3 _ s1 eq_refl Hb).
    vm_compute. reflexivity.
Defined.

Section NoExit.

Lemma no_exit_ret {A} (a : A) : no_exit (ret a).
Proof. intros s n. discriminate. Qed.

Lemma no_exit_raise {A} (e : exn) : no_exit (@raise A e).
Proof. intros s n. discriminate. Qed.

Lemma no_exit_emit (e : event) : no_exit (emit e).
Proof. intros s n. discriminate. Qed.

Lemma no_exit_bind {A B} (m : M A) (k : A -> M B) :
  no_exit m -> (forall a, no_exit (k a)) -> no_exit (bind m k).
Proof.
  intros Hm Hk s n. unfold bind. specialize (Hm s).
  destruct (m s) as [[a | e | n'] s1]; simpl in *.
  - apply Hk.
  - discriminate.
  - exfalso. apply (Hm n'). reflexivity.
Qed.

Lemma no_exit_finally {A} (m : M A) (c : M unit) :
  no_exit m -> no_exit (finally m c).
Proof.
  intros Hm s n. unfold finally. specialize (Hm s n).
  destruct (m s) as [r s1]. exact Hm.
Qed.

Lemma no_exit_input (p : string) : no_exit (input p).
Proof. intros s n. unfold input. destruct (stdin s); discriminate. Qed.

Lemma no_exit_lift {A} (e : exn) (o : option A) : no_exit (lift e o).
Proof. destruct o; [apply no_exit_ret | apply no_exit_raise]. Qed.

Lemma no_exit_floordiv (a b : Z) : no_exit (floordiv a b).
Proof.
  unfold floordiv. destruct (b =? 0); [apply no_exit_raise | apply no_exit_ret].
Qed.

Lemma no_exit_run (w : World) (cmd : list string) : no_exit (run w cmd).
Proof.
  unfold run. apply no_exit_bind; [apply no_exit_emit | intros _].
  destruct (w_run w cmd =? 0); [apply no_exit_ret | apply no_exit_raise].
Qed.

Lemma no_exit_name_gate (name : string) : no_exit (name_gate name).
Proof.
  intros [tr lines] n. unfold name_gate. simpl.
  revert name tr. induction lines as [| l rest IH]; intros name tr; simpl;
    match goal with |- context [if ?b then _ else _] => destruct b end;
    try discriminate.
  apply IH.
Qed.

Lemma no_exit_copy_loop (dst : string) (total : Z) (bufs : list Z) :
  forall copied, no_exit (copy_loop dst total copied bufs).
Proof.
  induction bufs as [| n rest IH]; intros copied; simpl.
  - apply no_exit_ret.
  - destruct (n <=? 0); [apply no_exit_ret |].
    apply no_exit_bind; [apply no_exit_emit | intros _].
    apply no_exit_bind; [apply no_exit_floordiv | intros pct].
    apply no_exit_bind; [apply no_exit_emit | intros _].
    apply IH.
Qed.

End NoExit.

Ltac no_exit_go :=
  repeat first
    [ progress (cbv beta iota zeta)
    | apply no_exit_ret | apply no_exit_raise | apply no_exit_lift
    | apply no_exit_floordiv | apply no_exit_emit | apply no_exit_run
    | apply no_exit_input | apply no_exit_name_gate | apply no_exit_copy_loop
    | apply no_exit_bind; [| intros]
    | apply no_exit_finally
    | match goal with
      | |- no_exit (match ?x with _ => _ end) => destruct x
      end ].

(** With a deploy token nothing asks for the push, and the [with] block
    never ends in [SystemExit]. *)
Lemma with_block_no_exit (w : World) (args : Args) (token : string) :
  deploy_token args = Some token -> no_exit (with_block w args).
Proof.
  intros H.
  unfold with_block, with_tmp_ctx, build, publish, fetch, sizing,
    report_savings, compression, derive, int, print.
  rewrite !H. no_exit_go.
Qed.

Section RecipePath.

Lemma last_char_app (a b : string) :
  b <> EmptyString -> last_char (a ++ b) = last_char b.
Proof.
  intros Hb. induction a as [| x a IH]; [reflexivity |].
  simpl. destruct (a ++ b) eqn:E; [| exact IH].
  destruct a; simpl in E; [contradiction | discriminate].
Qed.

Lemma with_suffix_ends (name sfx : string) :
  exists stem, with_suffix name sfx = stem ++ sfx.
Proof.
  unfold with_suffix.
  destruct (PyStr.rpartition "." name) as [[stem ext] |]; [| eauto].
  destruct (UrlParse.nonempty stem && UrlParse.nonempty ext); eauto.
Qed.

(** A joined path ends as the file name does. *)
Lemma path_join_last (p name : string) :
  name <> EmptyString -> last_char (path_join p name) = last_char name.
Proof.
  intros Hn. unfold path_join.
  destruct (String.eqb p "."); [reflexivity |].
  destruct (ends_with_slash p).
  - apply last_char_app, Hn.
  - rewrite <- append_assoc. apply last_char_app, Hn.
Qed.

(** A recipe file has a name that ends in [.yaml]. *)
Lemma recipe_path_last (u : Uuid.UUID) : last_char (recipe_path u) = Some "l"%char.
Proof.
  unfold recipe_path.
  destruct (with_suffix_ends (Uuid.to_string u) ".yaml") as [stem ->].
  rewrite path_join_last by (destruct stem; discriminate).
  rewrite last_char_app; [reflexivity | discriminate].
Qed.

(** The files of the build context are no recipe files. *)
Lemma build_file_is_no_recipe (d name content : string) :
  name <> EmptyString -> last_char name <> Some "l"%char ->
  ~ writes_recipe (WriteText (path_join d name) content).
Proof.
  intros Hn Hl [u [c H]]. injection H as Hp _.
  apply (f_equal last_char) in Hp. rewrite recipe_path_last in Hp.
  rewrite path_join_last in Hp by exact Hn.
  contradiction.
Qed.

End RecipePath.

(** Proves that an event writes no recipe file and starts no push. *)
Ltac quiet_event :=
  split;
  [ first [ apply build_file_is_no_recipe; discriminate
          | let u := fresh in let c := fresh in let H := fresh in
            intros [u [c H]]; discriminate H ]
  | reflexivity ].

(** A build writes no recipe file and pushes nothing. *)
Lemma build_is_local (w : World) (args : Args) (d : string) :
  emits (fun e => ~ writes_recipe e /\ pushes e = false) (build w args d).
Proof.
  unfold build, fetch, sizing, report_savings, compression.
  emits_go ltac:(quiet_event).
Qed.

(** Proves [~ writes_recipe e] for an event that is no [WriteText]. *)
Ltac not_a_write :=
  let u := fresh in let c := fresh in let H := fresh in
  intros [u [c H]]; discriminate H.

Lemma publish_writes_no_recipe (w : World) (args : Args) (d tag : string) :
  emits (fun e => ~ writes_recipe e) (publish w args d tag).
Proof. unfold publish. emits_go ltac:(not_a_write). Qed.

(** The [with] block writes no recipe file. *)
Lemma with_block_writes_no_recipe (w : World) (args : Args) :
  emits (fun e => ~ writes_recipe e) (with_block w args).
Proof.
  assert (Hbody : forall d,
             emits (fun e => ~ writes_recipe e)
                   (bind (build w args d)
                         (fun b => bind (publish w args d
                                           (docker_tag args (sinfonia_uuid b)))
                                        (fun _ => ret b)))).
  { intros d. apply emits_bind.
    - apply (emits_weaken _ _ _ (fun e H => proj1 H) (build_is_local w args d)).
    - intros b. apply emits_bind; [apply publish_writes_no_recipe | intros _].
      apply emits_ret. }
  unfold with_block, with_tmp_ctx. destruct (tmp_dir args) as [d |].
  - apply Hbody.
  - apply emits_bind; [apply emits_emit; not_a_write | intros _].
    apply emits_finally; [apply Hbody | apply emits_emit; not_a_write].
Qed.

(** With a deploy token that has no colon the recipe stage prints its
    announcement and fails at the unpacking of the credentials. *)
Lemma emit_recipe_malformed (args : Args) (token : string) (b : Built) (s : state) :
  deploy_token args = Some token -> PyStr.has_char ":" token = false ->
  emit_recipe args b s
  = (Raise unpack_error,
     mkState (trace s ++ [Print ("Creating Sinfonia recipe "
                                 ++ Uuid.to_string (sinfonia_uuid b) ++ nl)])
             (stdin s)).
Proof.
  intros H Hc. unfold emit_recipe, print. rewrite bind_emit.
  unfold credentials. rewrite H. unfold unpack_split.
  rewrite (partition_miss _ _ Hc).
  unfold bind, lift, ret, raise.
  destruct (PyStr.partition "/" (registry args)) as [[r1 r2] |]; reflexivity.
Qed.

(** The rest of the [with] block after a build, in a temporary directory
    and without a deploy token, when the operator's answer does not start
    with "yes": the working files are removed, the operator is asked, and
    the block is left by [sys.exit()]. *)
Lemma publish_declined (w : World) (args : Args) (d tag answer : string)
      (rest : list string) (s1 : state) :
  tmp_dir args = None -> deploy_token args = None ->
  stdin s1 = answer :: rest ->
  PyStr.startswith "yes" (PyStr.lower answer) = false ->
  publish w args d tag s1
  = (Exit 0,
     mkState (trace s1 ++ [Unlink (path_join d ".dockerignore");
                           Unlink (path_join d "Dockerfile");
                           Unlink (path_join d "disk.qcow2");
                           Rmdir d;
                           Input push_prompt answer])
             rest).
Proof.
  intros Ht Hk Hin Hno. unfold publish. rewrite Ht, Hk.
  rewrite !bind_emit. cbn [trace stdin].
  unfold bind, input, sys_exit. cbn [trace stdin].
  rewrite Hin, Hno. cbn [negb].
  rewrite <- !app_assoc. reflexivity.
Qed.

(** C2 (as amended): in a temporary working directory and without a
    deploy token, when the build has succeeded and the operator's answer
    to the push confirmation does not start with "yes", the conversion
    ends by [sys.exit()] with status 0 right after the prompt: the
    temporary directory is cleaned up, nothing is pushed, and no recipe
    file is written. *)
Theorem declined_push_exits_before_recipe
        (w : World) (args : Args) (s : state)
        (b : Built) (s1 : state) (answer : string) (rest : list string) :
  tmp_dir args = None -> deploy_token args = None -> dry_run args = [] ->
  build w args (w_mkdtemp w) (after_mkdtemp w s) = (Ok b, s1) ->
  stdin s1 = answer :: rest ->
  PyStr.startswith "yes" (PyStr.lower answer) = false ->
  convert w args s
  = (Exit 0, mkState (trace s1 ++ declined_events (w_mkdtemp w) answer) rest)
  /\ exit_status (fst (convert w args s)) = 0
  /\ Forall (fun e => ~ writes_recipe e /\ pushes e = false)
            (events_of (convert w args) s).
Proof.
  intros Ht Hk Hd Hb Hin Hno.
  assert (E : convert w args s
              = (Exit 0,
                 mkState (trace s1 ++ declined_events (w_mkdtemp w) answer) rest)).
  { assert (Ew : with_block w args s
                 = (Exit 0,
                    mkState (trace s1 ++ declined_events (w_mkdtemp w) answer)
                            rest)).
    { unfold with_block, with_tmp_ctx. rewrite Ht.
      rewrite bind_emit. fold (after_mkdtemp w s).
      unfold finally.
      rewrite (bind_ok _ _ _ _ _ Hb).
      rewrite (bind_exit _ _ _ _ _
                 (publish_declined w args _ _ answer rest s1 Ht Hk Hin Hno)).
      unfold emit. cbn [snd trace stdin]. unfold declined_events.
      rewrite <- !app_assoc. reflexivity. }
    unfold convert. rewrite Hd.
    change (bind (ret tt) ?k s) with (k tt s). cbv beta.
    apply (bind_exit _ _ _ _ _ Ew). }
  split; [exact E | split; [rewrite E; reflexivity |]].
  destruct (build_is_local w args (w_mkdtemp w) (after_mkdtemp w s))
    as [evs [Ev Fv]].
  rewrite Hb in Ev. cbn [snd] in Ev. unfold after_mkdtemp in Ev. cbn [trace] in Ev.
  erewrite events_of_app.
  2:{ rewrite E. cbn [snd trace]. rewrite Ev, <- !app_assoc. reflexivity. }
  apply Forall_app. split; [repeat constructor; not_a_write |].
  apply Forall_app. split; [exact Fv |].
  unfold declined_events. repeat constructor; not_a_write.
Qed.

Lemma declined_push_exits_before_recipe_witness :
  tmp_dir Demo.public_args = None /\ deploy_token Demo.public_args = None
  /\ dry_run Demo.public_args = []
  /\ PyStr.startswith "yes" (PyStr.lower "no") = false
  /\ exit_status (fst (convert Demo.world Demo.public_args
                         (Demo.start ["Win 3.1"; "no"; "x"]))) = 0
  /\ Forall (fun e => ~ writes_recipe e /\ pushes e = false)
            (events_of (convert Demo.world Demo.public_args)
                       (Demo.start ["Win 3.1"; "no"; "x"])).
Proof.
  repeat (split; [reflexivity |]).
  eapply (fun b s1 Hb Hin =>
            proj2 (declined_push_exits_before_recipe
                     Demo.world Demo.public_args
                     (Demo.start ["Win 3.1"; "no"; "x"])
                     b s1 "no" ["x"] eq_refl eq_refl eq_refl Hb Hin eq_refl)).
  - vm_compute. reflexivity.
  - reflexivity.
Defined.

(** C2 as stated fails: in a run without deploy token in which the
    operator answers "no", the exit status is 0 and the only files written
    are those of the build context; no recipe file is written. *)
Lemma declined_push_writes_no_recipe :
  fst (convert Demo.world Demo.public_args (Demo.start ["Win 3.1"; "no"]))
  = Exit 0
  /\ written_paths (events_of (convert Demo.world Demo.public_args)
                              (Demo.start ["Win 3.1"; "no"]))
     = ["/var/tmp/tmpab12/.dockerignore"; "/var/tmp/tmpab12/Dockerfile"]
  /\ written_paths (events_of (convert Demo.world Demo.public_args)
                              (Demo.start ["Win 3.1"; "yes"; ""]))
     = ["/var/tmp/tmpab12/.dockerignore"; "/var/tmp/tmpab12/Dockerfile";
        Demo.recipe_file].
Proof. vm_compute. repeat split. Qed.

(* ===================================================================== *)
(** ** More on the deployment waiter *)
(* ===================================================================== *)

Lemma handshake_prefix (data : string) :
  PyStr.startswith "RFB" (substring 0 3 data) = PyStr.startswith "RFB" data.
Proof.
  unfold PyStr.startswith.
  destruct data as [| a [| b [| c d]]]; cbn [substring String.prefix];
    try reflexivity.
  destruct (Ascii.ascii_dec "R" a); [| reflexivity].
  destruct (Ascii.ascii_dec "F" b); [| reflexivity].
  destruct (Ascii.ascii_dec "B" c); [| reflexivity].
  destruct d; reflexivity.
Qed.

Lemma attempt_retried (p : Probe) (s : state) :
  retried p ->
  attempt p s = (Ok Polling, mkState (trace s ++ idle_round) (stdin s)).
Proof.
  intros [H | [data [-> H]]]; [apply attempt_not_ready, H |].
  unfold attempt, print. rewrite !bind_emit. cbn [trace stdin].
  rewrite handshake_prefix, H. rewrite bind_emit. cbn [trace stdin].
  unfold ret. rewrite <- !app_assoc. reflexivity.
Qed.

Lemma poll_retried (w : World) (n : nat) :
  forall k fuel s,
    (forall j, (j < n)%nat -> retried (w_probe w (k + j))) ->
    poll w (n + fuel) k s
    = poll w fuel (k + n)
           (mkState (trace s ++ List.concat (repeat idle_round n)) (stdin s)).
Proof.
  induction n as [| n IH]; intros k fuel s H.
  - simpl. rewrite app_nil_r, Nat.add_0_r, state_eta. reflexivity.
  - change (S n + fuel)%nat with (S (n + fuel)). cbn [poll].
    assert (H0 : retried (w_probe w k)).
    { rewrite <- (Nat.add_0_r k). apply H. lia. }
    rewrite (bind_ok _ _ _ _ _ (attempt_retried _ s H0)).
    rewrite IH.
    + cbn [trace stdin repeat List.concat].
      rewrite <- app_assoc, Nat.add_succ_r. reflexivity.
    + intros j Hj. replace (S k + j)%nat with (k + S j)%nat by lia.
      apply H. lia.
Qed.

(** X1: an endpoint that accepts the connection but sends something that
    does not begin with "RFB" (another protocol, fewer than three bytes,
    nothing) is treated like one that is not ready: as long as every
    attempt ends that way the waiter keeps polling, one attempt after the
    other, and starts no command. *)
Theorem wrong_preamble_is_retried (w : World) (args : Args) (s : state) :
  (forall k, retried (w_probe w k)) ->
  forall fuel,
    stage2 w fuel args s
    = (Ok Polling,
       mkState (trace s ++ waiting_banner :: List.concat (repeat idle_round fuel))
               (stdin s))
    /\ attempts (events_of (stage2 w fuel args) s) = fuel
    /\ commands (events_of (stage2 w fuel args) s) = 0%nat.
Proof.
  intros H fuel.
  assert (E : stage2 w fuel args s
              = (Ok Polling,
                 mkState (trace s ++ waiting_banner
                            :: List.concat (repeat idle_round fuel))
                         (stdin s))).
  { unfold stage2, print. rewrite bind_emit.
    rewrite <- (Nat.add_0_r fuel) at 1.
    unfold bind at 1. rewrite poll_retried by (intros j _; apply H).
    cbn [poll ret trace stdin]. rewrite <- app_assoc. reflexivity. }
  split; [exact E |].
  erewrite events_of_app; [| rewrite E; reflexivity].
  destruct (attempts_idle fuel) as [Ha Hc].
  unfold attempts, commands in *. cbn [List.filter waiting_banner is_connect is_run].
  auto.
Qed.

Lemma wrong_preamble_is_retried_witness :
  (forall k, retried (w_probe (mkWorld "" (fun p => p) (fun _ => None)
                                 (fun _ => None) (fun _ => 0) (fun _ => 0)
                                 (fun _ => None) (fun _ => Answered "RF")
                                 "olive2022") k))
  /\ attempts (events_of (stage2 (mkWorld "" (fun p => p) (fun _ => None)
                                    (fun _ => None) (fun _ => 0) (fun _ => 0)
                                    (fun _ => None) (fun _ => Answered "RF")
                                    "olive2022")
                                 7 Demo.public_args) (Demo.start [])) = 7%nat.
Proof.
  assert (H : forall k, retried (w_probe (mkWorld "" (fun p => p) (fun _ => None)
                                 (fun _ => None) (fun _ => 0) (fun _ => 0)
                                 (fun _ => None) (fun _ => Answered "RF")
                                 "olive2022") k)).
  { intros k. right. exists "RF". split; reflexivity. }
  split; [exact H |].
  exact (proj1 (proj2 (wrong_preamble_is_retried _ Demo.public_args
                         (Demo.start []) H 7%nat))).
Defined.

(** The waiter up to the attempt that ends the loop. *)
Lemma stage2_after_retries (w : World) (args : Args) (s : state)
      (N fuel : nat) :
  (forall k, (k < N)%nat -> retried (w_probe w k)) -> (N < fuel)%nat ->
  stage2 w fuel args s
  = bind (bind (attempt (w_probe w N))
               (fun st => match st with
                          | Connected => ret Connected
                          | Polling => poll w (fuel - N - 1) (S N)
                          end))
         (fun st => match st with
                    | Polling => ret Polling
                    | Connected => bind (connect_viewer w args)
                                        (fun _ => ret Connected)
                    end)
         (mkState (trace s ++ waiting_banner :: List.concat (repeat idle_round N))
                  (stdin s)).
Proof.
  intros H Hf. unfold stage2, print. rewrite bind_emit.
  replace fuel with (N + S (fuel - N - 1))%nat at 1 by lia.
  unfold bind at 1.
  rewrite poll_retried by (intros j Hj; apply H; lia).
  cbn [poll trace stdin]. simpl Nat.add. rewrite <- app_assoc. reflexivity.
Qed.

(** X2: the waiter retries only the three not-ready outcomes and wrong
    preambles.  Any other exception of a connection attempt (the model's
    [Failed e]: a reset connection, an unreachable network) ends the
    waiter at once with that exception, and no viewer is started. *)
Theorem waiter_passes_other_errors
        (w : World) (args : Args) (s : state) (N fuel : nat) (e : exn) :
  (forall k, (k < N)%nat -> retried (w_probe w k)) ->
  w_probe w N = Failed e -> (N < fuel)%nat ->
  stage2 w fuel args s
  = (Raise e, mkState (trace s ++ waiter_prefix N) (stdin s))
  /\ attempts (events_of (stage2 w fuel args) s) = S N
  /\ commands (events_of (stage2 w fuel args) s) = 0%nat.
Proof.
  intros H He Hf.
  assert (E : stage2 w fuel args s
              = (Raise e, mkState (trace s ++ waiter_prefix N) (stdin s))).
  { rewrite (stage2_after_retries w args s N fuel H Hf), He.
    unfold attempt, print, bind, emit, raise, waiter_prefix, ready_round.
    cbn [trace stdin]. rewrite <- !app_assoc. reflexivity. }
  split; [exact E |].
  erewrite events_of_app; [| rewrite E; reflexivity].
  unfold waiter_prefix.
  change (waiting_banner :: List.concat (repeat idle_round N) ++ ready_round)%list
    with ([waiting_banner] ++ List.concat (repeat idle_round N) ++ ready_round)%list.
  destruct (attempts_app [waiting_banner]
              (List.concat (repeat idle_round N) ++ ready_round)) as [A1 C1].
  destruct (attempts_app (List.concat (repeat idle_round N)) ready_round)
    as [A2 C2].
  destruct (attempts_idle N) as [A3 C3].
  rewrite A1, C1, A2, C2, A3, C3.
  change (attempts [waiting_banner]) with 0%nat.
  change (commands [waiting_banner]) with 0%nat.
  change (attempts ready_round) with 1%nat.
  change (commands ready_round) with 0%nat. lia.
Qed.

Lemma waiter_passes_other_errors_witness :
  (forall k, (k < 1)%nat ->
             retried (w_probe (mkWorld "" (fun p => p) (fun _ => None)
                                 (fun _ => None) (fun _ => 0) (fun _ => 0)
                                 (fun _ => None)
                                 (fun k => match k with
                                           | O => Timeout
                                           | _ => Failed (OSError "unreachable")
                                           end)
                                 "olive2022") k))
  /\ fst (stage2 (mkWorld "" (fun p => p) (fun _ => None)
                    (fun _ => None) (fun _ => 0) (fun _ => 0)
                    (fun _ => None)
                    (fun k => match k with
                              | O => Timeout
                              | _ => Failed (OSError "unreachable")
                              end)
                    "olive2022") 5 Demo.public_args (Demo.start []))
     = Raise (OSError "unreachable").
Proof.
  assert (H : forall k, (k < 1)%nat ->
             retried (w_probe (mkWorld "" (fun p => p) (fun _ => None)
                                 (fun _ => None) (fun _ => 0) (fun _ => 0)
                                 (fun _ => None)
                                 (fun k => match k with
                                           | O => Timeout
                                           | _ => Failed (OSError "unreachable")
                                           end)
                                 "olive2022") k)).
  { intros [| k] Hk; [left; right; right; reflexivity | lia]. }
  split; [exact H |].
  exact (f_equal fst
           (proj1 (waiter_passes_other_errors _ Demo.public_args (Demo.start [])
                     1%nat 5%nat (OSError "unreachable") H eq_refl
                     ltac:(lia)))).
Defined.

(** The waiter from the attempt that sees the preamble on. *)
Lemma stage2_connected (w : World) (args : Args) (s : state)
      (N fuel : nat) (data : string) :
  (forall k, (k < N)%nat -> retried (w_probe w k)) ->
  w_probe w N = Answered data -> PyStr.startswith "RFB" data = true ->
  (N < fuel)%nat ->
  stage2 w fuel args s
  = bind (connect_viewer w args) (fun _ => ret Connected)
         (mkState (trace s ++ waiter_prefix N) (stdin s)).
Proof.
  intros H Ha Hr Hf.
  rewrite (stage2_after_retries w args s N fuel H Hf), Ha.
  erewrite bind_ok.
  2:{ erewrite bind_ok; [| apply attempt_ready; exact Hr]. reflexivity. }
  cbn [trace stdin]. unfold waiter_prefix. rewrite <- !app_assoc. reflexivity.
Qed.

Lemma stage2_starts_viewer (w : World) (args : Args) (s : state)
      (N fuel : nat) (data : string) (cmd : list string) :
  (forall k, (k < N)%nat -> retried (w_probe w k)) ->
  w_probe w N = Answered data -> PyStr.startswith "RFB" data = true ->
  (N < fuel)%nat ->
  connect_viewer w args = bind (print nl) (fun _ => run w cmd) ->
  stage2 w fuel args s
  = (viewer_result w cmd,
     mkState (trace s ++ waiter_prefix N ++ viewer_events cmd) (stdin s)).
Proof.
  intros H Ha Hr Hf Hv.
  rewrite (stage2_connected w args s N fuel data H Ha Hr Hf), Hv.
  unfold viewer_result, viewer_events, run, print, bind, emit, ret, raise.
  cbn [trace stdin].
  destruct (w_run w cmd =? 0); rewrite <- !app_assoc; reflexivity.
Qed.

(** X3: once the preamble has been seen, the waiter starts exactly one
    viewer, the first one found of remote-viewer, gvncviewer, vncviewer:
    remote-viewer with the URL "vnc://vmi-vnc:5900", the other two with
    "vmi-vnc:0", each behind the words of [dry_run].  The waiter ends
    [Connected] when the viewer returns 0 and with [CalledProcessError]
    otherwise. *)
Theorem waiter_starts_first_viewer
        (w : World) (args : Args) (s : state) (N fuel : nat) (data : string) :
  (forall k, (k < N)%nat -> retried (w_probe w k)) ->
  w_probe w N = Answered data -> PyStr.startswith "RFB" data = true ->
  (N < fuel)%nat ->
  forall viewer,
    (w_which w "remote-viewer" = Some viewer ->
     let cmd := (dry_run args ++ [viewer; "vnc://vmi-vnc:5900"])%list in
     stage2 w fuel args s
     = (viewer_result w cmd,
        mkState (trace s ++ waiter_prefix N ++ viewer_events cmd) (stdin s)))
    /\ (w_which w "remote-viewer" = None ->
        w_which w "gvncviewer" = Some viewer ->
        let cmd := (dry_run args ++ [viewer; "vmi-vnc:0"])%list in
        stage2 w fuel args s
        = (viewer_result w cmd,
           mkState (trace s ++ waiter_prefix N ++ viewer_events cmd) (stdin s)))
    /\ (w_which w "remote-viewer" = None ->
        w_which w "gvncviewer" = None ->
        w_which w "vncviewer" = Some viewer ->
        let cmd := (dry_run args ++ [viewer; "vmi-vnc:0"])%list in
        stage2 w fuel args s
        = (viewer_result w cmd,
           mkState (trace s ++ waiter_prefix N ++ viewer_events cmd) (stdin s))).
Proof.
  intros H Ha Hr Hf viewer. split; [| split].
  - intros H1 cmd. apply (stage2_starts_viewer w args s N fuel data cmd H Ha Hr Hf).
    unfold connect_viewer. rewrite H1. reflexivity.
  - intros H1 H2 cmd.
    apply (stage2_starts_viewer w args s N fuel data cmd H Ha Hr Hf).
    unfold connect_viewer. rewrite H1, H2. reflexivity.
  - intros H1 H2 H3 cmd.
    apply (stage2_starts_viewer w args s N fuel data cmd H Ha Hr Hf).
    unfold connect_viewer. rewrite H1, H2, H3. reflexivity.
Qed.

Lemma waiter_starts_first_viewer_witness :
  (forall k, (k < 2)%nat -> retried (w_probe Demo.world k))
  /\ w_probe Demo.world 2 = Answered "RFB 003.008"
  /\ w_which Demo.world "vncviewer" = Some "/usr/bin/vncviewer"
  /\ stage2 Demo.world 3 Demo.public_args (Demo.start [])
     = (Ok Connected,
        mkState ([] ++ waiter_prefix 2
                    ++ viewer_events ["/usr/bin/vncviewer"; "vmi-vnc:0"])
                []).
Proof.
  assert (H : forall k, (k < 2)%nat -> retried (w_probe Demo.world k)).
  { intros [| [| k]] Hk;
      [left; right; left; reflexivity | left; right; left; reflexivity | lia]. }
  split; [exact H | split; [reflexivity | split; [reflexivity |]]].
  exact (proj2 (proj2 (waiter_starts_first_viewer
                         Demo.world Demo.public_args (Demo.start [])
                         2%nat 3%nat "RFB 003.008" H eq_refl eq_refl
                         ltac:(lia) "/usr/bin/vncviewer"))
               eq_refl eq_refl eq_refl).
Defined.

(** X4: when none of the three viewers is installed the waiter, once the
    preamble has been seen, reports it, sleeps ten seconds and returns
    normally: no command is started and no exception raised, so the
    process ends with status 0. *)
Theorem waiter_without_viewer_returns
        (w : World) (args : Args) (s : state) (N fuel : nat) (data : string) :
  (forall k, (k < N)%nat -> retried (w_probe w k)) ->
  w_probe w N = Answered data -> PyStr.startswith "RFB" data = true ->
  (N < fuel)%nat ->
  w_which w "remote-viewer" = None -> w_which w "gvncviewer" = None ->
  w_which w "vncviewer" = None ->
  stage2 w fuel args s
  = (Ok Connected,
     mkState (trace s ++ waiter_prefix N ++ no_viewer_events) (stdin s))
  /\ exit_status (fst (stage2 w fuel args s)) = 0
  /\ commands (waiter_prefix N ++ no_viewer_events) = 0%nat.
Proof.
  intros H Ha Hr Hf H1 H2 H3.
  assert (E : stage2 w fuel args s
              = (Ok Connected,
                 mkState (trace s ++ waiter_prefix N ++ no_viewer_events)
                         (stdin s))).
  { rewrite (stage2_connected w args s N fuel data H Ha Hr Hf).
    unfold connect_viewer. rewrite H1, H2, H3.
    unfold no_viewer_events, print, bind, emit, ret. cbn [trace stdin].
    rewrite <- !app_assoc. reflexivity. }
  split; [exact E | split; [rewrite E; reflexivity |]].
  unfold waiter_prefix.
  change (waiting_banner :: List.concat (repeat idle_round N) ++ ready_round)%list
    with ([waiting_banner] ++ List.concat (repeat idle_round N) ++ ready_round)%list.
  rewrite <- !app_assoc.
  repeat match goal with
         | |- context [commands (?a ++ ?b)] =>
             rewrite (proj2 (attempts_app a b))
         end.
  rewrite (proj2 (attempts_idle N)). reflexivity.
Qed.

Lemma waiter_without_viewer_returns_witness :
  (forall k, (k < 1)%nat ->
             retried (w_probe (mkWorld "" (fun p => p) (fun _ => None)
                                 (fun _ => None) (fun _ => 0) (fun _ => 0)
                                 (fun _ => None)
                                 (fun k => match k with
                                           | O => Answered "SSH-2.0"
                                           | _ => Answered "RFB 003.008"
                                           end)
                                 "olive2022") k))
  /\ exit_status
       (fst (stage2 (mkWorld "" (fun p => p) (fun _ => None)
                       (fun _ => None) (fun _ => 0) (fun _ => 0)
                       (fun _ => None)
                       (fun k => match k with
                                 | O => Answered "SSH-2.0"
                                 | _ => Answered "RFB 003.008"
                                 end)
                       "olive2022") 4 Demo.public_args (Demo.start []))) = 0.
Proof.
  assert (H : forall k, (k < 1)%nat ->
             retried (w_probe (mkWorld "" (fun p => p) (fun _ => None)
                                 (fun _ => None) (fun _ => 0) (fun _ => 0)
                                 (fun _ => None)
                                 (fun k => match k with
                                           | O => Answered "SSH-2.0"
                                           | _ => Answered "RFB 003.008"
                                           end)
                                 "olive2022") k)).
  { intros [| k] Hk; [right; exists "SSH-2.0"; split; reflexivity | lia]. }
  split; [exact H |].
  exact (proj1 (proj2 (waiter_without_viewer_returns
                         _ Demo.public_args (Demo.start []) 1%nat 4%nat
                         "RFB 003.008" H eq_refl eq_refl ltac:(lia)
                         eq_refl eq_refl eq_refl))).
Defined.

(* ===================================================================== *)
(** ** More on the conversion pipeline *)
(* ===================================================================== *)

(** The body of the [with] block only adds events. *)
Lemma with_body_extends (w : World) (args : Args) (d : string) :
  emits (fun _ => True)
        (bind (build w args d)
              (fun b => bind (publish w args d (docker_tag args (sinfonia_uuid b)))
                             (fun _ => ret b))).
Proof.
  apply emits_bind.
  - apply (emits_weaken _ _ _ (fun e _ => I) (build_is_local w args d)).
  - intros b. apply emits_bind; [| intros _; apply emits_ret].
    apply (emits_weaken _ _ _ (fun e _ => I)
             (publish_writes_no_recipe w args d _)).
Qed.

(** X5: a conversion in a temporary working directory removes that
    directory whatever happens in the [with] block: its events are the
    creation of the directory, the events of the block, and the removal,
    whether the block returns, raises an exception or exits. *)
Theorem temporary_directory_is_removed (w : World) (args : Args) (s : state) :
  tmp_dir args = None ->
  (exists evs,
      events_of (with_block w args) s
      = (Mkdtemp "/var/tmp" (w_mkdtemp w) :: evs ++ [Rmtree (w_mkdtemp w)])%list)
  /\ (dry_run args = [] ->
      exists evs rest,
        events_of (convert w args) s
        = (Mkdtemp "/var/tmp" (w_mkdtemp w) :: evs
             ++ Rmtree (w_mkdtemp w) :: rest)%list).
Proof.
  intros Ht.
  assert (Hw : forall t, exists evs,
               trace (snd (with_block w args t))
               = (trace t ++ Mkdtemp "/var/tmp" (w_mkdtemp w) :: evs
                    ++ [Rmtree (w_mkdtemp w)])%list).
  { intros t. unfold with_block, with_tmp_ctx. rewrite Ht.
    rewrite bind_emit. unfold finally.
    destruct (with_body_extends w args (w_mkdtemp w)
                (mkState (trace t ++ [Mkdtemp "/var/tmp" (w_mkdtemp w)]) (stdin t)))
      as [evs [E _]].
    match goal with
    | |- context [let (_, _) := ?m ?st in _] => destruct (m st) as [r s1]
    end.
    cbn [snd trace] in *. exists evs. unfold emit. cbn [snd trace].
    rewrite E, <- !app_assoc. reflexivity. }
  split.
  - destruct (Hw s) as [evs E]. exists evs. apply events_of_app, E.
  - intros Hd. destruct (Hw s) as [evs E].
    assert (Ec : convert w args s = bind (with_block w args) (emit_recipe args) s)
      by (unfold convert; rewrite Hd; reflexivity).
    exists evs. unfold bind in Ec.
    destruct (with_block w args s) as [[b | e | n] s1]; cbn [snd] in E.
    + destruct (emit_recipe_starts args b s1) as [rest R].
      eexists. apply events_of_app.
      rewrite Ec, R, E.
      repeat (rewrite <- app_assoc || rewrite <- app_comm_cons). reflexivity.
    + exists []. apply events_of_app. rewrite Ec. cbn [snd]. rewrite E. reflexivity.
    + exists []. apply events_of_app. rewrite Ec. cbn [snd]. rewrite E. reflexivity.
Qed.

Lemma temporary_directory_is_removed_witness :
  tmp_dir Demo.malformed_args = None
  /\ dry_run Demo.malformed_args = []
  /\ (exists evs rest,
         events_of (convert Demo.world Demo.malformed_args) (Demo.start [])
         = (Mkdtemp "/var/tmp" "/var/tmp/tmpab12" :: evs
              ++ Rmtree "/var/tmp/tmpab12" :: rest)%list)
  /\ fst (convert Demo.world Demo.malformed_args (Demo.start []))
     = Raise EOFError.
Proof.
  split; [reflexivity | split; [reflexivity | split]].
  - exact (proj2 (temporary_directory_is_removed
                    Demo.world Demo.malformed_args (Demo.start []) eq_refl)
                 eq_refl).
  - vm_compute. reflexivity.
Defined.

Section FailFast.

Variable w : World.

Lemma no_run_commands (l : list event) :
  Forall (fun e => is_run e = false) l -> commands l = 0%nat.
Proof.
  unfold commands. induction 1 as [| e l He Hl IH]; [reflexivity |].
  simpl. rewrite He. exact IH.
Qed.

Lemma no_run_inside (pre post : list event) (cmd : list string) :
  ~ Forall (fun e => is_run e = false) (pre ++ Run cmd :: post).
Proof.
  intros H. apply Forall_app in H. destruct H as [_ H].
  inversion H as [| ? ? H1 _]. discriminate H1.
Qed.

Lemma ff_of_emits {A} (m : M A) :
  emits (fun e => is_run e = false) m -> fails_fast w m.
Proof.
  intros H s. destruct (H s) as [evs [E F]]. exists evs. split; [exact E |].
  intros pre cmd post -> _. exfalso. exact (no_run_inside _ _ _ F).
Qed.

Lemma ff_run (cmd : list string) : fails_fast w (run w cmd).
Proof.
  intros s. exists [Run cmd]. split.
  - unfold run, bind, emit, ret, raise.
    destruct (w_run w cmd =? 0); reflexivity.
  - intros pre cmd' post E Hrc.
    destruct pre as [| x pre]; [| destruct pre; discriminate E].
    injection E as <- <-. split; [| reflexivity].
    unfold run, bind, emit, ret, raise.
    destruct (Z.eqb_spec (w_run w cmd) 0) as [H0 | _]; [contradiction | reflexivity].
Qed.

Lemma ff_bind {A B} (m : M A) (k : A -> M B) :
  fails_fast w m -> (forall a, fails_fast w (k a)) -> fails_fast w (bind m k).
Proof.
  intros Hm Hk s. unfold bind.
  destruct (Hm s) as [e1 [E1 F1]].
  destruct (m s) as [[a | e | n] s1]; cbn [fst snd] in *.
  - destruct (Hk a s1) as [e2 [E2 F2]].
    exists (e1 ++ e2)%list. split; [rewrite E2, E1, app_assoc; reflexivity |].
    intros pre cmd post E Hrc.
    apply app_eq_app in E. destruct E as [l [[Ea Eb] | [Ea Eb]]].
    + destruct l as [| x l].
      * rewrite app_nil_r in Ea. subst e1. simpl in Eb.
        apply (F2 [] cmd post (eq_sym Eb) Hrc).
      * injection Eb as <- Eb. subst e1.
        destruct (F1 pre cmd l eq_refl Hrc) as [Hr _]. discriminate Hr.
    + apply (F2 l cmd post Eb Hrc).
  - exists e1. split; [exact E1 |].
    intros pre cmd post E Hrc. destruct (F1 pre cmd post E Hrc) as [Hr Hn].
    split; [injection Hr as ->; reflexivity | exact Hn].
  - exists e1. split; [exact E1 |].
    intros pre cmd post E Hrc. destruct (F1 pre cmd post E Hrc) as [Hr _].
    discriminate Hr.
Qed.

Lemma ff_finally {A} (m : M A) (c : M unit) :
  fails_fast w m -> emits (fun e => is_run e = false) c ->
  fails_fast w (finally m c).
Proof.
  intros Hm Hc s. unfold finally.
  destruct (Hm s) as [e1 [E1 F1]].
  destruct (m s) as [r s1]; cbn [fst snd] in *.
  destruct (Hc s1) as [e2 [E2 F2]].
  exists (e1 ++ e2)%list. split; [rewrite E2, E1, app_assoc; reflexivity |].
  intros pre cmd post E Hrc.
  apply app_eq_app in E. destruct E as [l [[Ea Eb] | [Ea Eb]]].
  - destruct l as [| x l].
    + simpl in Eb. subst e2. exfalso. exact (no_run_inside [] _ _ F2).
    + injection Eb as <- Eb. subst e1 post.
      destruct (F1 pre cmd l eq_refl Hrc) as [Hr Hn].
      split; [exact Hr |].
      rewrite (proj2 (attempts_app l e2)), Hn, (no_run_commands _ F2).
      reflexivity.
  - subst e2. exfalso. exact (no_run_inside _ _ _ F2).
Qed.

End FailFast.

(** Reduces [fails_fast w m] along the structure of [m]. *)
Ltac ff_go :=
  repeat first
    [ progress (cbv beta iota zeta)
    | apply ff_run
    | apply ff_of_emits; solve [emits_go ltac:(reflexivity)]
    | apply ff_bind; [| intros]
    | apply ff_finally; [| solve [emits_go ltac:(reflexivity)]]
    | match goal with
      | |- fails_fast _ (match ?x with _ => _ end) => destruct x
      end ].

Lemma convert_fails_fast (w : World) (args : Args) :
  fails_fast w (convert w args).
Proof.
  unfold convert, with_block, with_tmp_ctx, build, publish, emit_recipe,
    credentials, fetch, sizing, report_savings, compression.
  ff_go.
Qed.

(** X6: every stage of a conversion is fail-fast.  When a command the
    conversion has started (qemu-img, docker build, docker push, docker
    image rm) returns a non-zero code, the conversion ends with
    [CalledProcessError] for that command and code, so with exit status 1,
    and it starts no command after the one that failed. *)
Theorem failed_command_is_fatal
        (w : World) (args : Args) (s : state) (cmd : list string) :
  In (Run cmd) (events_of (convert w args) s) -> w_run w cmd <> 0 ->
  fst (convert w args s) = Raise (CalledProcessError (w_run w cmd) cmd)
  /\ exit_status (fst (convert w args s)) = 1
  /\ exists pre post,
      events_of (convert w args) s = (pre ++ Run cmd :: post)%list
      /\ commands post = 0%nat.
Proof.
  intros Hin Hrc.
  destruct (convert_fails_fast w args s) as [evs [E F]].
  rewrite (events_of_app _ _ _ E) in *.
  destruct (in_split _ _ Hin) as [pre [post Hs]].
  destruct (F pre cmd post Hs Hrc) as [Hr Hn].
  split; [exact Hr | split; [rewrite Hr; reflexivity |]].
  exists pre, post. auto.
Qed.

Lemma failed_command_is_fatal_witness :
  In (Run qemu_command)
     (events_of (convert qemu_fails_world Demo.public_args)
                (Demo.start ["Win 3.1"; "yes"]))
  /\ w_run qemu_fails_world qemu_command <> 0
  /\ fst (convert qemu_fails_world Demo.public_args
                  (Demo.start ["Win 3.1"; "yes"]))
     = Raise (CalledProcessError 1 qemu_command)
  /\ commands (events_of (convert qemu_fails_world Demo.public_args)
                         (Demo.start ["Win 3.1"; "yes"])) = 1%nat.
Proof.
  assert (Hin : In (Run qemu_command)
                   (events_of (convert qemu_fails_world Demo.public_args)
                              (Demo.start ["Win 3.1"; "yes"]))).
  { vm_compute. repeat (first [left; reflexivity | right]). }
  assert (Hrc : w_run qemu_fails_world qemu_command <> 0) by discriminate.
  split; [exact Hin | split; [exact Hrc | split]].
  - exact (proj1 (failed_command_is_fatal qemu_fails_world Demo.public_args
                    (Demo.start ["Win 3.1"; "yes"]) qemu_command Hin Hrc)).
  - vm_compute. reflexivity.
Defined.

Section PushGuard.

Lemma pg_of_emits {A} (m : M A) :
  emits (fun e => pushes e = false) m -> push_guarded m.
Proof.
  intros H s. destruct (H s) as [evs [E F]]. exists evs. split; [exact E |].
  intros cmd Hin Hp. exfalso.
  rewrite Forall_forall in F. specialize (F _ Hin). simpl in F. congruence.
Qed.

Lemma pg_bind {A B} (m : M A) (k : A -> M B) :
  push_guarded m -> (forall a, push_guarded (k a)) -> push_guarded (bind m k).
Proof.
  intros Hm Hk s. unfold bind.
  destruct (Hm s) as [e1 [E1 F1]].
  destruct (m s) as [[a | e | n] s1]; cbn [fst snd] in *;
    [| exists e1; auto | exists e1; auto].
  destruct (Hk a s1) as [e2 [E2 F2]].
  exists (e1 ++ e2)%list. split; [rewrite E2, E1, app_assoc; reflexivity |].
  intros cmd Hin Hp. apply in_app_or in Hin. destruct Hin as [Hin | Hin].
  - destruct (F1 cmd Hin Hp) as [ans [Ha Hy]].
    exists ans. split; [apply in_or_app; left; exact Ha | exact Hy].
  - destruct (F2 cmd Hin Hp) as [ans [Ha Hy]].
    exists ans. split; [apply in_or_app; right; exact Ha | exact Hy].
Qed.

Lemma pg_finally {A} (m : M A) (c : M unit) :
  push_guarded m -> push_guarded c -> push_guarded (finally m c).
Proof.
  intros Hm Hc s. unfold finally.
  destruct (Hm s) as [e1 [E1 F1]].
  destruct (m s) as [r s1]; cbn [fst snd] in *.
  destruct (Hc s1) as [e2 [E2 F2]].
  exists (e1 ++ e2)%list. split; [rewrite E2, E1, app_assoc; reflexivity |].
  intros cmd Hin Hp. apply in_app_or in Hin. destruct Hin as [Hin | Hin].
  - destruct (F1 cmd Hin Hp) as [ans [Ha Hy]].
    exists ans. split; [apply in_or_app; left; exact Ha | exact Hy].
  - destruct (F2 cmd Hin Hp) as [ans [Ha Hy]].
    exists ans. split; [apply in_or_app; right; exact Ha | exact Hy].
Qed.

(** The confirmation: what follows the prompt runs only after a yes. *)
Lemma pg_ask {B} (k : M B) :
  emits (fun _ => True) k ->
  push_guarded
    (bind (bind (input push_prompt)
                (fun answer =>
                   if negb (PyStr.startswith "yes" (PyStr.lower answer))
                   then sys_exit else ret tt))
          (fun _ => k)).
Proof.
  intros Hk s. unfold bind, input, sys_exit, ret.
  destruct (stdin s) as [| answer rest] eqn:Hin.
  - exists [InputEOF push_prompt]. split; [reflexivity |].
    intros cmd [H | []] _. discriminate H.
  - destruct (PyStr.startswith "yes" (PyStr.lower answer)) eqn:Hy; cbn [negb].
    + destruct (Hk (mkState (trace s ++ [Input push_prompt answer]) rest))
        as [ek [Ek _]].
      exists (Input push_prompt answer :: ek). split.
      * rewrite Ek. cbn [trace]. rewrite <- app_assoc. reflexivity.
      * intros cmd _ _. exists answer. split; [left; reflexivity | exact Hy].
    + exists [Input push_prompt answer]. split; [reflexivity |].
      intros cmd [H | []] _. discriminate H.
Qed.

End PushGuard.

Ltac pg_go :=
  repeat first
    [ progress (cbv beta iota zeta)
    | apply pg_ask; solve [emits_go ltac:(exact I)]
    | apply pg_of_emits; solve [emits_go ltac:(reflexivity)]
    | apply pg_bind; [| intros]
    | apply pg_finally
    | match goal with
      | |- push_guarded (match ?x with _ => _ end) => destruct x
      end ].

Lemma convert_push_guarded (w : World) (args : Args) :
  deploy_token args = None -> push_guarded (convert w args).
Proof.
  intros H.
  unfold convert, with_block, with_tmp_ctx, build, publish, emit_recipe,
    credentials, fetch, sizing, report_savings, compression.
  rewrite !H. pg_go.
Qed.

Lemma convert_with_token_never_asks (w : World) (args : Args) (token : string) :
  deploy_token args = Some token ->
  emits (fun e => asks_push e = false) (convert w args).
Proof.
  intros H. unfold_convert. rewrite !H.
  emits_go ltac:(reflexivity).
Qed.

(** X7: publication needs the operator's consent exactly when no deploy
    token was given.  Without a token, a conversion that starts
    [docker push] has shown the push confirmation prompt and read an
    answer that starts with "yes" (in any case of letters).  With a
    token, the prompt is never shown. *)
Theorem push_needs_consent_without_token (w : World) (args : Args) (s : state) :
  (deploy_token args = None ->
   forall cmd,
     In (Run cmd) (events_of (convert w args) s) ->
     is_docker "push" cmd = true ->
     exists answer,
       In (Input push_prompt answer) (events_of (convert w args) s)
       /\ says_yes answer = true)
  /\ (forall token,
         deploy_token args = Some token ->
         Forall (fun e => asks_push e = false) (events_of (convert w args) s)).
Proof.
  split.
  - intros H cmd Hin Hp.
    destruct (convert_push_guarded w args H s) as [evs [E F]].
    rewrite (events_of_app _ _ _ E) in *. exact (F cmd Hin Hp).
  - intros token H. apply emits_events_of.
    exact (convert_with_token_never_asks w args token H).
Qed.

Lemma push_needs_consent_without_token_witness :
  (deploy_token Demo.public_args = None
   /\ In (Run ["docker"; "push"; "reg.example.com/proj/" ++ Demo.identity ++ ":latest"])
         (events_of (convert Demo.world Demo.public_args)
                    (Demo.start ["Win 3.1"; "YES please"; ""]))
   /\ exists answer,
       In (Input push_prompt answer)
          (events_of (convert Demo.world Demo.public_args)
                     (Demo.start ["Win 3.1"; "YES please"; ""]))
       /\ says_yes answer = true)
  /\ (deploy_token Demo.restricted_args = Some "alice:secret"
      /\ Forall (fun e => asks_push e = false)
                (events_of (convert Demo.world Demo.restricted_args)
                           (Demo.start ["Win 3.1"; ""]))).
Proof.
  assert (Hin : In (Run ["docker"; "push";
                         "reg.example.com/proj/" ++ Demo.identity ++ ":latest"])
                   (events_of (convert Demo.world Demo.public_args)
                              (Demo.start ["Win 3.1"; "YES please"; ""]))).
  { vm_compute. repeat (first [left; reflexivity | right]). }
  split.
  - split; [reflexivity | split; [exact Hin |]].
    exact (proj1 (push_needs_consent_without_token
                    Demo.world Demo.public_args
                    (Demo.start ["Win 3.1"; "YES please"; ""]))
                 eq_refl _ Hin eq_refl).
  - split; [reflexivity |].
    exact (proj2 (push_needs_consent_without_token
                    Demo.world Demo.restricted_args
                    (Demo.start ["Win 3.1"; ""]))
                 "alice:secret" eq_refl).
Defined.

(* ===================================================================== *)
(** ** The identity as a name *)
(* ===================================================================== *)

Lemma nibble_range (y : Z) : 0 <= Z.land y 15 < 16.
Proof.
  change 16 with (2 ^ 4). apply fits_range; [lia |].
  rewrite Z.land_comm. apply fits_land, range_fits. lia.
Qed.

Lemma hex_digit_cases (y : Z) (P : ascii -> Prop) :
  (forall d, 0 <= d < 16 -> P (Uuid.hex_digit d)) ->
  P (Uuid.hex_digit (Z.land y 15)).
Proof. intros H. apply H, nibble_range. Qed.

Lemma hex_digit_not_dot (d : Z) :
  0 <= d < 16 -> Ascii.eqb (Uuid.hex_digit d) "." = false.
Proof.
  intros H.
  assert (C : d = 0 \/ d = 1 \/ d = 2 \/ d = 3 \/ d = 4 \/ d = 5 \/ d = 6
              \/ d = 7 \/ d = 8 \/ d = 9 \/ d = 10 \/ d = 11 \/ d = 12
              \/ d = 13 \/ d = 14 \/ d = 15) by lia.
  repeat (destruct C as [C | C]; [subst d; reflexivity |]).
  subst d; reflexivity.
Qed.

(** The text of an identity: 36 characters, none of them a dot. *)
Lemma identity_text (u : Uuid.UUID) :
  String.length (Uuid.to_string u) = 36%nat
  /\ PyStr.has_char "." (Uuid.to_string u) = false.
Proof.
  cbv beta iota zeta delta [Uuid.to_string Uuid.hex substring append].
  split; [reflexivity |].
  cbn [PyStr.has_char].
  repeat rewrite (hex_digit_cases _ (fun c => Ascii.eqb c "." = false)
                    hex_digit_not_dot).
  reflexivity.
Qed.

Lemma rpartition_miss (c : ascii) (s : string) :
  PyStr.has_char c s = false -> PyStr.rpartition c s = None.
Proof.
  induction s as [| x s IH]; simpl; [reflexivity |].
  intros H. apply orb_false_iff in H. destruct H as [H1 H2].
  rewrite (IH H2), H1. reflexivity.
Qed.

(** The text of an identity has no dot, so [with_suffix] only appends. *)
Lemma recipe_path_spelled (u : Uuid.UUID) :
  recipe_path u = "RECIPES/" ++ Uuid.to_string u ++ ".yaml".
Proof.
  destruct (identity_text u) as [_ Hd].
  unfold recipe_path, path_join, with_suffix, RECIPES.
  rewrite (rpartition_miss _ _ Hd). reflexivity.
Qed.

(** X8: the recipe of an identity is the file [RECIPES/<identity>.yaml],
    the identity written as 36 characters: [Path.with_suffix] finds no
    suffix to replace in the identity, which contains no dot. *)
Theorem recipe_file_is_named_by_identity (u : Uuid.UUID) :
  recipe_path u = "RECIPES/" ++ Uuid.to_string u ++ ".yaml"
  /\ String.length (Uuid.to_string u) = 36%nat
  /\ String.length (recipe_path u) = 49%nat.
Proof.
  destruct (identity_text u) as [Hl _].
  pose proof (recipe_path_spelled u) as E.
  split; [exact E | split; [exact Hl |]].
  rewrite E.
  assert (La : forall a b, String.length (a ++ b)
                           = (String.length a + String.length b)%nat).
  { intros a b. induction a as [| x a IH]; simpl; [| rewrite IH]; reflexivity. }
  rewrite !La, Hl. reflexivity.
Qed.

Section Returns.

Lemma returns_ret {A} (Q : A -> Prop) (a : A) : Q a -> returns Q (ret a).
Proof. intros H s a' s' E. inversion E; subst. exact H. Qed.

Lemma returns_bind {A B} (Q : B -> Prop) (m : M A) (k : A -> M B) :
  (forall a, returns Q (k a)) -> returns Q (bind m k).
Proof.
  intros Hk s b s' E. destruct (bind_ok_inv _ _ _ _ _ E) as [a [s1 [_ E2]]].
  exact (Hk a s1 b s' E2).
Qed.

Lemma returns_bind_lift {A B} (Q : B -> Prop) (e : exn) (o : option A)
      (k : A -> M B) :
  (forall a, o = Some a -> returns Q (k a)) -> returns Q (bind (lift e o) k).
Proof.
  intros Hk s b s' E. destruct (bind_ok_inv _ _ _ _ _ E) as [a [s1 [E1 E2]]].
  destruct o as [a' |]; [| discriminate E1].
  inversion E1; subst. exact (Hk a eq_refl s1 b s' E2).
Qed.

(** A build that returns has derived the identity of the locator. *)
Lemma build_returns_identity (w : World) (args : Args) (d : string) :
  returns (fun b => vmnetx_url_to_uuid (url args) = Some (sinfonia_uuid b))
          (build w args d).
Proof.
  unfold build. cbv beta iota zeta.
  apply returns_bind. intros _. unfold derive.
  apply returns_bind_lift. intros u Hu.
  repeat first
    [ progress (cbv beta iota zeta)
    | apply returns_ret; exact Hu
    | apply returns_bind; intros
    | match goal with
      | |- returns _ (match ?x with _ => _ end) => destruct x
      end ].
Qed.

End Returns.

Lemma extends_trace {A} (m : M A) (s : state) :
  emits (fun _ => True) m ->
  exists evs, trace (snd (m s)) = (trace s ++ evs)%list.
Proof. intros H. destruct (H s) as [evs [E _]]. eauto. Qed.

(** A [with] block that returns has run a build in the working directory. *)
Lemma with_block_inv (w : World) (args : Args) (s s1 : state) (b : Built) :
  with_block w args s = (Ok b, s1) ->
  exists s0 sb e0 e1,
    build w args (working_dir w args) s0 = (Ok b, sb)
    /\ trace s0 = (trace s ++ e0)%list
    /\ trace s1 = (trace sb ++ e1)%list.
Proof.
  unfold with_block, with_tmp_ctx, working_dir.
  destruct (tmp_dir args) as [d |] eqn:Ht.
  - intros E. destruct (bind_ok_inv _ _ _ _ _ E) as [b' [sb [Eb Ep]]].
    destruct (bind_ok_inv _ _ _ _ _ Ep) as [x [sp [Epub Er]]].
    inversion Er; subst.
    destruct (extends_trace _ sb (emits_weaken _ _ _ (fun e _ => I)
                                    (publish_writes_no_recipe w args d
                                       (docker_tag args (sinfonia_uuid b)))))
      as [e1 E1].
    rewrite Epub in E1. cbn [snd] in E1.
    exists s, sb, [], e1. rewrite app_nil_r. auto.
  - rewrite bind_emit. unfold finally.
    set (s0 := mkState (trace s ++ [Mkdtemp "/var/tmp" (w_mkdtemp w)]) (stdin s)).
    destruct (bind (build w args (w_mkdtemp w)) _ s0) as [r sx] eqn:Ebody.
    intros E. inversion E; subst r s1.
    destruct (bind_ok_inv _ _ _ _ _ Ebody) as [b' [sb [Eb Ep]]].
    destruct (bind_ok_inv _ _ _ _ _ Ep) as [x [sp [Epub Er]]].
    inversion Er; subst.
    destruct (extends_trace _ sb (emits_weaken _ _ _ (fun e _ => I)
                                    (publish_writes_no_recipe w args (w_mkdtemp w)
                                       (docker_tag args (sinfonia_uuid b)))))
      as [e1 E1].
    rewrite Epub in E1. cbn [snd] in E1.
    exists s0, sb, [Mkdtemp "/var/tmp" (w_mkdtemp w)],
           (e1 ++ [Rmtree (w_mkdtemp w)])%list.
    split; [exact Eb | split; [reflexivity |]].
    unfold emit. cbn [snd trace]. rewrite E1, app_assoc. reflexivity.
Qed.

Lemma emit_recipe_ok_inv (args : Args) (b : Built) (s1 s' : state) :
  emit_recipe args b s1 = (Ok tt, s') ->
  exists c, credentials args s1 = (Ok c, s1).
Proof.
  unfold emit_recipe, print. rewrite bind_emit. intros E.
  destruct (bind_ok_inv _ _ _ _ _ E) as [c [sx [Ec _]]].
  exists c. exact (proj2 (credentials_pure _ _ _ _ Ec) s1).
Qed.

(* ===================================================================== *)
(** ** The download *)
(* ===================================================================== *)









Lemma written_app (a b : list event) :
  written (a ++ b) = written a + written b.
Proof.
  induction a as [| e a IH]; [reflexivity |].
  destruct e; simpl; rewrite IH; lia.
Qed.

(** X11: the download loop on a response with a positive
    content-length [total] and buffers that are not empty returns
    normally, writes every byte of the body to the package file, and
    ends with the progress line of the percentage
    [100 * bytes // total] of all the bytes copied: "100%" when
    the body is as long as the header says. *)
Theorem download_reports_progress
        (dst : string) (total : Z) (bufs : list Z) (copied : Z) (s : state) :
  0 < total -> Forall (fun n => 0 < n) bufs ->
  exists evs,
    copy_loop dst total copied bufs s
    = (Ok tt, mkState (trace s ++ evs) (stdin s))
    /\ written evs = total_size bufs
    /\ Forall (fun e => forall p n, e = WriteChunk p n -> p = dst) evs
    /\ (bufs <> [] ->
        exists pre,
          evs = (pre ++ [progress_line
                           (100 * (copied + total_size bufs) / total)])%list)
    /\ (bufs <> [] -> copied + total_size bufs = total ->
        exists pre, evs = (pre ++ [Print (cr ++ tab ++ "100%")])%list).
Proof.
  intros Ht Hb.
  assert (G : exists evs,
             copy_loop dst total copied bufs s
             = (Ok tt, mkState (trace s ++ evs) (stdin s))
             /\ written evs = total_size bufs
             /\ Forall (fun e => forall p n, e = WriteChunk p n -> p = dst) evs
             /\ (bufs <> [] ->
                 exists pre,
                   evs = (pre ++ [progress_line
                                    (100 * (copied + total_size bufs) / total)])%list)).
  { revert copied s. induction Hb as [| n rest Hn Hrest IH]; intros copied s.
    - exists []. cbn [copy_loop]. unfold ret. rewrite app_nil_r, state_eta.
      split; [reflexivity | split; [reflexivity | split; [constructor |]]].
      intros H. contradiction.
    - cbn [copy_loop].
      destruct (Z.leb_spec n 0) as [Hle | _]; [lia |].
      rewrite bind_emit. unfold floordiv.
      destruct (Z.eqb_spec total 0) as [E | _]; [lia |].
      unfold bind at 1. unfold ret at 1. unfold print. rewrite bind_emit.
      cbn [trace stdin].
      destruct (IH (copied + n)
                   (mkState ((trace s ++ [WriteChunk dst n])
                               ++ [Print (cr ++ tab
                                            ++ PyStr.of_Z (100 * (copied + n) / total)
                                            ++ "%")])
                            (stdin s)))
        as [evs [E [W [F L]]]].
      exists (WriteChunk dst n
                :: progress_line (100 * (copied + n) / total) :: evs).
      split; [| split; [| split]].
      + rewrite E. cbn [trace stdin]. unfold progress_line.
        rewrite <- !app_assoc. reflexivity.
      + cbn [written total_size fold_right progress_line].
        unfold total_size in W. rewrite W. reflexivity.
      + constructor; [intros p m H; injection H as -> _; reflexivity |].
        constructor; [intros p m H; discriminate H | exact F].
      + intros _. destruct rest as [| m rest'].
        * exists [WriteChunk dst n].
          assert (E0 : evs = []).
          { cbn [copy_loop] in E. unfold ret in E.
            injection E as E. rewrite <- (app_nil_r (_ ++ [_])) in E at 1.
            apply app_inv_head in E. auto. }
          rewrite E0. cbn [total_size fold_right app].
          replace (copied + (n + 0)) with (copied + n) by lia. reflexivity.
        * destruct (L ltac:(discriminate)) as [pre Hpre].
          exists (WriteChunk dst n
                    :: progress_line (100 * (copied + n) / total) :: pre).
          rewrite Hpre. cbn [total_size fold_right app].
          replace (copied + n + (m + fold_right Z.add 0 rest'))
            with (copied + (n + (m + fold_right Z.add 0 rest'))) by lia.
          reflexivity. }
  destruct G as [evs [E [W [F L]]]]. exists evs.
  split; [exact E | split; [exact W | split; [exact F | split; [exact L |]]]].
  intros Hne Hsum. destruct (L Hne) as [pre Hpre]. exists pre.
  rewrite Hpre, Hsum. unfold progress_line.
  replace (100 * total / total) with 100
    by (symmetry; apply Z.div_mul; lia).
  reflexivity.
Qed.

Lemma download_reports_progress_witness :
  0 < 10 /\ Forall (fun n => 0 < n) [4; 6]
  /\ exists evs,
      copy_loop "pkg.zip" 10 0 [4; 6] (Demo.start [])
      = (Ok tt, mkState ([] ++ evs) [])
      /\ written evs = 10.
Proof.
  assert (H1 : 0 < 10) by lia.
  assert (H2 : Forall (fun n => 0 < n) [4; 6])
    by (repeat constructor; lia).
  split; [exact H1 | split; [exact H2 |]].
  destruct (download_reports_progress "pkg.zip" 10 [4; 6] 0 (Demo.start [])
                                      H1 H2) as [evs [E [W _]]].
  exists evs. split; [exact E | exact W].
Defined.

(* ===================================================================== *)
(** ** The desktop handler *)
(* ===================================================================== *)

Lemma uninstall_dry (d : Desktop) (x : string) (dry : list string) :
  emits (dry_event (x :: dry)) (uninstall d (x :: dry)).
Proof. unfold uninstall. emits_go ltac:(exact I). Qed.

Lemma install_dry (w : World) (d : Desktop) (a : InstallArgs) :
  i_dry_run a <> [] -> emits (dry_event (i_dry_run a)) (install w d a).
Proof.
  intros H. unfold install, uninstall, locate_app.
  destruct (i_dry_run a) as [| x dry]; [contradiction |].
  emits_go ltac:(first [exact I | eexists; reflexivity]).
Qed.

(** X13: a dry run of [install] or [uninstall] leaves the desktop as it
    is.  With [--dry-run] (any words in [dry_run]), the only things
    either does are to print, to make and remove a fresh temporary
    directory, and to start commands behind the dry-run words: no file
    is written, the installed handler is not removed, and [uninstall]
    starts no command at all. *)
Theorem dry_run_leaves_desktop_alone
        (w : World) (d : Desktop) (a : InstallArgs) (s : state) :
  i_dry_run a <> [] ->
  Forall (dry_event (i_dry_run a)) (events_of (install w d a) s)
  /\ events_of (uninstall d (i_dry_run a)) s
     = [Print ("rm " ++ desktop_file d ++ nl)]
  /\ Forall (fun e => forall p, e <> Unlink p /\ forall c, e <> WriteText p c)
            (events_of (install w d a) s).
Proof.
  intros H.
  assert (F : Forall (dry_event (i_dry_run a)) (events_of (install w d a) s))
    by (apply emits_events_of, install_dry, H).
  split; [exact F | split].
  - destruct (i_dry_run a) as [| x dry]; [contradiction |].
    apply events_of_app. reflexivity.
  - eapply Forall_impl; [| exact F].
    intros e He p. split; [| intros c]; intros ->; exact He.
Qed.

Lemma dry_run_leaves_desktop_alone_witness :
  i_dry_run (mkInstallArgs ["echo"] None "launch") <> []
  /\ Forall (dry_event ["echo"])
            (events_of (install bare_world lost_desktop
                                (mkInstallArgs ["echo"] None "launch"))
                       (Demo.start []))
  /\ events_of (uninstall lost_desktop ["echo"]) (Demo.start [])
     = [Print ("rm /home/u/.local/share/applications/olive2022.desktop" ++ nl)].
Proof.
  assert (H : i_dry_run (mkInstallArgs ["echo"] None "launch") <> [])
    by discriminate.
  split; [exact H |].
  pose proof (dry_run_leaves_desktop_alone
                bare_world lost_desktop
                (mkInstallArgs ["echo"] None "launch") (Demo.start []) H)
    as [T1 [T2 _]].
  split; [exact T1 | exact T2].
Defined.

(** The events of [uninstall] without [--dry-run]. *)
Lemma uninstall_run (d : Desktop) (s : state) :
  exists pre,
    uninstall d [] s = (Ok tt, mkState (trace s ++ pre) (stdin s))
    /\ ((d_exists d (desktop_file d) = true /\ pre = [Unlink (desktop_file d)])
        \/ (d_exists d (desktop_file d) = false /\ pre = [])).
Proof.
  unfold uninstall. destruct (d_exists d (desktop_file d)).
  - exists [Unlink (desktop_file d)]. split; [reflexivity | auto].
  - exists []. unfold ret. rewrite app_nil_r, state_eta. auto.
Qed.

Lemma warning_run (w : World) (a : InstallArgs) (s : state) :
  exists warn,
    match find_tier3 w a with
    | None => print missing_tier3_warning
    | Some _ => ret tt
    end s = (Ok tt, mkState (trace s ++ warn) (stdin s))
    /\ ((find_tier3 w a = None /\ warn = [Print missing_tier3_warning])
        \/ ((exists t, find_tier3 w a = Some t) /\ warn = [])).
Proof.
  destruct (find_tier3 w a) as [t |].
  - exists []. unfold ret. rewrite app_nil_r, state_eta. eauto.
  - exists [Print missing_tier3_warning]. split; [reflexivity | auto].
Qed.



(** X15: [install] is not atomic.  It removes the installed handler
    before it locates the program file, so when the file is found neither
    from the working directory nor beside the interpreter, the run ends
    with the second [FileNotFoundError] after the old handler has been
    removed: no desktop file is written and no command is started. *)
Theorem failed_install_has_uninstalled
        (w : World) (d : Desktop) (a : InstallArgs) (s : state) :
  i_dry_run a = [] -> d_cwd_app d = None -> d_exe_app d = None ->
  fst (install w d a s) = Raise (OSError "FileNotFoundError")
  /\ (d_exists d (desktop_file d) = true ->
      In (Unlink (desktop_file d)) (events_of (install w d a) s))
  /\ Forall (fun e => is_write e = false /\ is_run e = false)
            (events_of (install w d a) s).
Proof.
  intros Hd H1 H2.
  destruct (warning_run w a s) as [warn [Ew Hw]].
  destruct (uninstall_run d (mkState (trace s ++ warn) (stdin s)))
    as [old [Eo Ho]].
  assert (E : install w d a s
              = (Raise (OSError "FileNotFoundError"),
                 mkState (trace s ++ warn ++ old) (stdin s))).
  { unfold install. cbv zeta.
    rewrite (bind_ok _ _ _ _ _ Ew), Hd, (bind_ok _ _ _ _ _ Eo).
    unfold locate_app. rewrite H1, H2. unfold lift, bind at 1, raise.
    cbn [trace stdin]. rewrite <- app_assoc. reflexivity. }
  split; [rewrite E; reflexivity |].
  rewrite (events_of_app _ _ (warn ++ old)%list) by (rewrite E; reflexivity).
  split.
  - intros Hx. apply in_or_app. right.
    destruct Ho as [[_ ->] | [Hf _]]; [left; reflexivity | congruence].
  - apply Forall_app. split.
    + destruct Hw as [[_ ->] | [_ ->]]; repeat constructor.
    + destruct Ho as [[_ ->] | [_ ->]]; repeat constructor.
Qed.

Lemma failed_install_has_uninstalled_witness :
  i_dry_run (mkInstallArgs [] (Some "/usr/bin/sinfonia-tier3") "launch") = []
  /\ d_cwd_app lost_desktop = None /\ d_exe_app lost_desktop = None
  /\ install bare_world lost_desktop
             (mkInstallArgs [] (Some "/usr/bin/sinfonia-tier3") "launch")
             (Demo.start [])
     = (Raise (OSError "FileNotFoundError"),
        mkState [Unlink "/home/u/.local/share/applications/olive2022.desktop"]
                [])
  /\ fst (install bare_world lost_desktop
                  (mkInstallArgs [] (Some "/usr/bin/sinfonia-tier3") "launch")
                  (Demo.start []))
     = Raise (OSError "FileNotFoundError").
Proof.
  split; [reflexivity | split; [reflexivity | split; [reflexivity |]]].
  split; [vm_compute; reflexivity |].
  exact (proj1 (failed_install_has_uninstalled
                  bare_world lost_desktop
                  (mkInstallArgs [] (Some "/usr/bin/sinfonia-tier3") "launch")
                  (Demo.start []) eq_refl eq_refl eq_refl)).
Defined.

(* ===================================================================== *)
(** ** Packages that cannot be read *)
(* ===================================================================== *)

Section StopsEarly.

Lemma se_raise {A B} (e : exn) (k : A -> M B) :
  stops_early (bind (raise e) k).
Proof.
  intros s. split; [exists e; reflexivity |].
  exists []. cbn. rewrite app_nil_r. auto.
Qed.

Lemma se_ret {A B} (e : exn) (a : A) (k : A -> M B) :
  stops_early (k a) -> stops_early (bind (lift e (Some a)) k).
Proof. intros H s. exact (H s). Qed.

Lemma se_first {A B} (m : M A) (k : A -> M B) :
  stops_early m -> stops_early (bind m k).
Proof.
  intros H s. destruct (H s) as [[e He] [evs [E F]]].
  unfold bind. destruct (m s) as [[a | e' | n] s1]; cbn [fst] in He;
    try discriminate.
  split; [exists e'; reflexivity | exists evs; auto].
Qed.

Lemma se_bind {A B} (Q : A -> Prop) (m : M A) (k : A -> M B) :
  emits (fun e => is_run e = false /\ is_write e = false) m ->
  no_exit m -> returns Q m ->
  (forall a, Q a -> stops_early (k a)) -> stops_early (bind m k).
Proof.
  intros Hm Hn Hq Hk s. unfold bind.
  destruct (Hm s) as [e1 [E1 F1]]. specialize (Hn s).
  destruct (m s) as [[a | e | n] s1] eqn:Em; cbn [fst snd] in *.
  - destruct (Hk a (Hq s a s1 Em) s1) as [He [e2 [E2 F2]]].
    split; [exact He |].
    exists (e1 ++ e2)%list. rewrite E2, E1, app_assoc. split; [reflexivity |].
    apply Forall_app; auto.
  - split; [exists e; reflexivity | exists e1; auto].
  - exfalso. exact (Hn n eq_refl).
Qed.

Lemma se_finally {A} (m : M A) (c : M unit) :
  stops_early m ->
  emits (fun e => is_run e = false /\ is_write e = false) c ->
  stops_early (finally m c).
Proof.
  intros Hm Hc s. unfold finally.
  destruct (Hm s) as [He [e1 [E1 F1]]].
  destruct (m s) as [r s1]; cbn [fst snd] in *.
  destruct (Hc s1) as [e2 [E2 F2]].
  split; [exact He |].
  exists (e1 ++ e2)%list. rewrite E2, E1, app_assoc. split; [reflexivity |].
  apply Forall_app; auto.
Qed.

Lemma returns_any {A} (m : M A) : returns (fun _ => True) m.
Proof. intros s a s' _. exact I. Qed.

End StopsEarly.

(** One step of a [stops_early] proof over a statement that cannot start
    a command. *)
Ltac se_quiet :=
  apply (se_bind (fun _ => True));
  [ solve [unfold fetch, sizing, report_savings, compression;
           emits_go ltac:(split; reflexivity)]
  | solve [unfold fetch, sizing, derive, int, print; no_exit_go]
  | apply returns_any
  | intros ? _ ].

Lemma build_stops_early (w : World) (args : Args) :
  unreadable (w_zipfile w (package_path w args)) ->
  stops_early (build w args (working_dir w args)).
Proof.
  intros H. unfold build. cbv zeta.
  se_quiet. se_quiet. se_quiet.
  apply (se_bind (fun p => p = package_path w args)).
  { destruct (vmnetx_package args);
      unfold fetch; emits_go ltac:(split; reflexivity). }
  { destruct (vmnetx_package args);
      unfold fetch, int, print; no_exit_go. }
  { unfold package_path. destruct (vmnetx_package args) as [p |].
    - intros st q st' E. inversion E. reflexivity.
    - intros st q st' E.
      destruct (bind_ok_inv _ _ _ _ _ E) as [x [s1 [_ E1]]].
      inversion E1. reflexivity. }
  intros pkg ->.
  destruct (w_zipfile w (package_path w args)) as [z |] eqn:Ez;
    [| apply se_raise].
  apply se_ret; cbv beta. cbn [unreadable] in H.
  destruct (package_xml z) as [[description |] |] eqn:Ep;
    [| apply se_ret; cbv beta; apply se_raise | apply se_raise].
  apply se_ret; cbv beta; apply se_ret; cbv beta.
  destruct (Xml.lookup "name" (Xml.attrib description)) as [name |] eqn:En;
    [| apply se_raise].
  apply se_ret; cbv beta. se_quiet. se_quiet.
  destruct (domain_xml z) as [[domain |] |] eqn:Ed;
    [| apply se_ret; cbv beta; apply se_raise | apply se_raise].
  apply se_ret; cbv beta; apply se_ret; cbv beta. se_quiet.
  match goal with |- stops_early (match ?x with _ => _ end) => destruct x end.
  se_quiet. se_quiet.
  destruct (has_disk_img z) eqn:Eh.
  - exfalso. destruct H as [H | [H | H]];
      [discriminate H | exact H | discriminate H].
  - apply se_raise.
Qed.

Lemma convert_stops_early (w : World) (args : Args) :
  unreadable (w_zipfile w (package_path w args)) ->
  stops_early (convert w args).
Proof.
  intros H. pose proof (build_stops_early w args H) as Hb.
  unfold convert.
  apply (se_bind (fun _ => True));
    [ emits_go ltac:(split; reflexivity) | no_exit_go | apply returns_any
    | intros _ _ ].
  apply se_first.
  unfold with_block, with_tmp_ctx. unfold working_dir in Hb.
  destruct (tmp_dir args) as [d |].
  - apply se_first, Hb.
  - apply (se_bind (fun _ => True));
      [ emits_go ltac:(split; reflexivity) | no_exit_go | apply returns_any
      | intros _ _ ].
    apply se_finally; [apply se_first, Hb |].
    emits_go ltac:(split; reflexivity).
Qed.

(** X16: a package that cannot be read stops the conversion before any
    tool is started.  When the package file is no archive, lacks
    [vmnetx-package.xml], [domain.xml] or [disk.img], holds a descriptor
    that is not well-formed XML, or a package descriptor without a [name],
    the conversion ends with an exception (exit status 1), starts no
    command and writes no Dockerfile and no recipe. *)
Theorem unreadable_package_starts_no_tool
        (w : World) (args : Args) (s : state) :
  unreadable (w_zipfile w (package_path w args)) ->
  (exists e, fst (convert w args s) = Raise e)
  /\ exit_status (fst (convert w args s)) = 1
  /\ commands (events_of (convert w args) s) = 0%nat
  /\ written_paths (events_of (convert w args) s) = [].
Proof.
  intros H.
  destruct (convert_stops_early w args H s) as [[e He] [evs [E F]]].
  split; [exists e; exact He | split; [rewrite He; reflexivity |]].
  rewrite (events_of_app _ _ _ E).
  split.
  - apply no_run_commands. eapply Forall_impl; [| exact F].
    intros x Hx. exact (proj1 Hx).
  - clear E. induction F as [| x l [_ Hx] _ IH]; [reflexivity |].
    destruct x; try exact IH. discriminate Hx.
Qed.

Lemma unreadable_package_starts_no_tool_witness :
  unreadable (w_zipfile diskless_world
                        (package_path diskless_world Demo.public_args))
  /\ fst (convert diskless_world Demo.public_args (Demo.start ["Win 3.1"]))
     = Raise (KeyError "disk.img")
  /\ commands (events_of (convert diskless_world Demo.public_args)
                         (Demo.start ["Win 3.1"])) = 0%nat.
Proof.
  assert (H : unreadable (w_zipfile diskless_world
                            (package_path diskless_world Demo.public_args)))
    by (right; right; reflexivity).
  split; [exact H | split; [vm_compute; reflexivity |]].
  exact (proj1 (proj2 (proj2 (unreadable_package_starts_no_tool
                                diskless_world Demo.public_args
                                (Demo.start ["Win 3.1"]) H)))).
Defined.

(* ===================================================================== *)
(** ** What a completed conversion has done *)
(* ===================================================================== *)

(** A conversion that completes is a build in the working directory,
    what is left of the [with] block, and the recipe stage. *)
Lemma convert_ok_events (w : World) (args : Args) (s s' : state) :
  convert w args s = (Ok tt, s') ->
  exists b c s0 sb e0 e1 last,
    build w args (working_dir w args) s0 = (Ok b, sb)
    /\ forall bev,
        trace sb = (trace s0 ++ bev)%list ->
        events_of (convert w args) s
        = (e0 ++ bev ++ e1 ++ recipe_events args b c last)%list.
Proof.
  intros E.
  assert (Hd : dry_run args = []).
  { unfold convert in E. destruct (dry_run args); [reflexivity | discriminate E]. }
  assert (Ec : bind (with_block w args) (emit_recipe args) s = (Ok tt, s')).
  { rewrite <- E. unfold convert. rewrite Hd. reflexivity. }
  destruct (bind_ok_inv _ _ _ _ _ Ec) as [b [s1 [Ew Er]]].
  destruct (with_block_inv w args s s1 b Ew) as [s0 [sb [e0 [e1 [Eb [E0 E1]]]]]].
  destruct (emit_recipe_ok_inv args b s1 s' Er) as [c Hc].
  destruct (emit_recipe_run args b c s1 Hc) as [r [last [Erun _]]].
  exists b, c, s0, sb, e0, e1, last.
  split; [exact Eb |].
  intros bev Hb. apply events_of_app. rewrite E. cbn [snd].
  rewrite Er in Erun. pose proof (f_equal snd Erun) as Hs. cbn [snd] in Hs.
  rewrite Hs. cbn [trace]. rewrite E1, Hb, E0. unfold recipe_events.
  rewrite <- !app_assoc. reflexivity.
Qed.

Section EndsWithEvents.



End EndsWithEvents.







(** X9: the identity of the locator is the one key that ties a conversion
    to a launch.  A conversion that completes has derived the identity [u]
    of its locator, has built the image under the tag
    [<registry>/<u>:latest] and has written the recipe to
    [RECIPES/<u>.yaml]; a launch of the same locator passes the same [u]
    to sinfonia-tier3, as its one command. *)
Theorem identity_ties_conversion_to_launch
        (w : World) (args : Args) (s s' : state) :
  convert w args s = (Ok tt, s') ->
  exists b c,
    vmnetx_url_to_uuid (url args) = Some (sinfonia_uuid b)
    /\ In (Run ["docker"; "build"; "-t";
                registry args ++ "/" ++ Uuid.to_string (sinfonia_uuid b)
                  ++ ":latest";
                w_resolve w (working_dir w args)])
          (events_of (convert w args) s)
    /\ In (WriteText ("RECIPES/" ++ Uuid.to_string (sinfonia_uuid b) ++ ".yaml")
                     (recipe_body args b ++ c))
          (events_of (convert w args) s)
    /\ forall largs t,
        url largs = url args ->
        launch w largs t
        = run w (launch_command w largs (sinfonia_uuid b)) t.
Proof.
  intros E.
  destruct (convert_ok_events w args s s' E)
    as [b [c [s0 [sb [e0 [e1 [last [Eb Hev]]]]]]]].
  pose proof (build_returns_identity w args _ s0 b sb Eb) as Hu.
  destruct (build_ends_with_docker_build w args _ s0 b sb Eb) as [evs Ebd].
  exists b, c.
  split; [exact Hu | split; [| split]].
  - rewrite (Hev _ Ebd). apply in_or_app. right. apply in_or_app. left.
    apply in_or_app. right. left. reflexivity.
  - rewrite (Hev _ Ebd).
    rewrite <- (recipe_path_spelled (sinfonia_uuid b)).
    apply in_or_app. right. apply in_or_app. right.
    apply in_or_app. right. right. right. left. reflexivity.
  - intros largs t Hl. unfold launch, derive. rewrite Hl, Hu. reflexivity.
Qed.

Lemma identity_ties_conversion_to_launch_witness :
  fst (convert Demo.world Demo.keep_args (Demo.start ["Win 3.1"; ""])) = Ok tt
  /\ exists b c,
      vmnetx_url_to_uuid (url Demo.keep_args) = Some (sinfonia_uuid b)
      /\ In (WriteText ("RECIPES/" ++ Uuid.to_string (sinfonia_uuid b) ++ ".yaml")
                       (recipe_body Demo.keep_args b ++ c))
            (events_of (convert Demo.world Demo.keep_args)
                       (Demo.start ["Win 3.1"; ""])).
Proof.
  split; [vm_compute; reflexivity |].
  assert (E : exists s', convert Demo.world Demo.keep_args
                                 (Demo.start ["Win 3.1"; ""]) = (Ok tt, s'))
    by (eexists; vm_compute; reflexivity).
  destruct E as [s' E].
  destruct (identity_ties_conversion_to_launch
              Demo.world Demo.keep_args (Demo.start ["Win 3.1"; ""]) s' E)
    as [b [c [H1 [_ [H3 _]]]]].
  exists b, c. exact (conj H1 H3).
Defined.

(* ===================================================================== *)
(** ** What a conversion that completes has done, step by step *)
(* ===================================================================== *)

(** The name gate, when it returns: the lines it has read, all but the
    last of them placeholders, and the name it returns. *)
Lemma name_gate_ok_inv (name : string) (s s' : state) (n : string) :
  name_gate name s = (Ok n, s') ->
  exists asked,
    stdin s = (asked ++ stdin s')%list
    /\ trace s' = (trace s ++ map (Input name_prompt) asked)%list
    /\ ~ placeholder n
    /\ ((~ placeholder name /\ asked = [] /\ n = name)
        \/ (placeholder name
            /\ exists bad, asked = (bad ++ [n])%list /\ Forall placeholder bad)).
Proof.
  destruct s as [tr lines]. unfold name_gate. cbn [trace stdin].
  revert name tr. induction lines as [| l rest IH]; intros name tr.
  - cbn [name_loop].
    destruct (PyStr.member name [""; "Virtual Machine"]) eqn:E; [discriminate |].
    intros H. inversion H; subst. exists []. cbn [trace stdin map app].
    rewrite app_nil_r. apply not_placeholder_member in E.
    split; [reflexivity | split; [reflexivity | split; [exact E |]]].
    left. auto.
  - cbn [name_loop].
    destruct (PyStr.member name [""; "Virtual Machine"]) eqn:E.
    + intros H. apply placeholder_member in E.
      destruct (IH l (tr ++ [Input name_prompt l])%list H)
        as [asked [Hs [Ht [Hn Hc]]]].
      exists (l :: asked). cbn [trace stdin] in *.
      split; [cbn [app]; rewrite <- Hs; reflexivity |].
      split; [rewrite Ht, <- app_assoc; reflexivity |].
      split; [exact Hn |]. right. split; [exact E |].
      destruct Hc as [[Hl [Ha Hnl]] | [Hl [bad [Ha Hb]]]].
      * subst. exists []. split; [reflexivity | constructor].
      * subst. exists (l :: bad). split; [reflexivity | constructor; assumption].
    + intros H. inversion H; subst. exists []. cbn [trace stdin map app].
      rewrite app_nil_r. apply not_placeholder_member in E.
      split; [reflexivity | split; [reflexivity | split; [exact E |]]].
      left. auto.
Qed.

(** [report_savings] for a size before the re-encoding that is not 0. *)
Lemma report_savings_events (post pre : Z) (s : state) :
  pre <> 0 ->
  report_savings post pre s
  = (Ok tt, mkState (trace s ++ savings_events post pre) (stdin s)).
Proof.
  intros H. unfold report_savings, compression, floordiv, savings_events.
  destruct (Z.eqb_spec pre 0) as [E | _]; [contradiction |].
  unfold bind, ret. cbn [negb].
  destruct (100 - 100 * post / pre =? 0); cbn [negb].
  - rewrite app_nil_r, state_eta. reflexivity.
  - reflexivity.
Qed.


Lemma fetch_transfers (w : World) (args : Args) (pkg : string) :
  emits transfer_event (fetch w args pkg).
Proof. unfold fetch. emits_go ltac:(exact I). Qed.

Lemma ret_ok_inv {A} (a b : A) (s s' : state) :
  ret a s = (Ok b, s') -> b = a /\ s' = s.
Proof. unfold ret. intros H. injection H as H1 H2. auto. Qed.

Lemma lift_ok_inv {A} (e : exn) (o : option A) (s s' : state) (a : A) :
  lift e o s = (Ok a, s') -> o = Some a /\ s' = s.
Proof.
  destruct o as [x |]; [| discriminate].
  intros H. inversion H. auto.
Qed.

Lemma run_ok_inv (w : World) (cmd : list string) (s s' : state) :
  run w cmd s = (Ok tt, s') ->
  w_run w cmd = 0 /\ s' = mkState (trace s ++ [Run cmd]) (stdin s).
Proof.
  unfold run. rewrite bind_emit.
  destruct (Z.eqb_spec (w_run w cmd) 0) as [E | E]; [| discriminate].
  intros H. inversion H. auto.
Qed.

Lemma sizing_ok_inv (domain : Xml.Element) (s s' : state) (c m : Z) :
  sizing domain s = (Ok (c, m), s') ->
  s' = s
  /\ PyInt.int (Xml.findtext domain "vcpu" "1") = Some c
  /\ exists v, PyInt.int (Xml.findtext domain "memory" "65536") = Some v
               /\ m = v / 1024.
Proof.
  unfold sizing, int. intros E.
  destruct (bind_ok_inv _ _ _ _ _ E) as [c' [s1 [H1 E1]]].
  destruct (bind_ok_inv _ _ _ _ _ E1) as [v [s2 [H2 E2]]].
  apply lift_ok_inv in H1. apply lift_ok_inv in H2.
  destruct H1 as [H1 ->]. destruct H2 as [H2 ->].
  inversion E2; subst. eauto.
Qed.

Lemma bind_ret {A B} (a : A) (k : A -> M B) (s : state) :
  bind (ret a) k s = k a s.
Proof. reflexivity. Qed.

Lemma raise_not_ok {A B} (e : exn) (k : A -> M B) (s s' : state) (b : B) :
  bind (raise e) k s = (Ok b, s') -> False.
Proof. discriminate. Qed.

Lemma report_savings_ok_inv (post pre : Z) (s s' : state) :
  report_savings post pre s = (Ok tt, s') ->
  pre <> 0 /\ s' = mkState (trace s ++ savings_events post pre) (stdin s).
Proof.
  intros H.
  assert (Hp : pre <> 0).
  { unfold report_savings, compression, floordiv in H.
    destruct (Z.eqb_spec pre 0) as [E | E]; [discriminate | exact E]. }
  split; [exact Hp |].
  rewrite (report_savings_events post pre s Hp) in H.
  injection H as H. symmetry. exact H.
Qed.

(** A build that completes: what it has read, and its events. *)
Lemma build_ok_inv (w : World) (args : Args) (d : string) (s s' : state)
      (b : Built) :
  build w args d s = (Ok b, s') ->
  exists z description domain name0 v s1 s2 fetched,
    vmnetx_url_to_uuid (url args) = Some (sinfonia_uuid b)
    /\ w_zipfile w (package_in args d) = Some z
    /\ package_xml z = Some (Some description)
    /\ Xml.lookup "name" (Xml.attrib description) = Some name0
    /\ domain_xml z = Some (Some domain)
    /\ PyInt.int (Xml.findtext domain "vcpu" "1") = Some (cpus b)
    /\ PyInt.int (Xml.findtext domain "memory" "65536") = Some v
    /\ memory b = v / 1024
    /\ has_disk_img z = true
    /\ w_run w (recompress_command w d) = 0
    /\ w_stat_size w (path_join d "disk.img") <> 0
    /\ trace s1
       = (trace s
            ++ Mkdir d
            :: Print ("UUID: " ++ Uuid.to_string (sinfonia_uuid b) ++ nl)
            :: fetched)%list
    /\ Forall transfer_event fetched
    /\ name_gate name0 s1 = (Ok (vmi_fullname b), s2)
    /\ trace s' = (trace s2 ++ inspected_events w args d b)%list
    /\ stdin s' = stdin s2.
Proof.
  unfold build. cbv zeta. intros E.
  rewrite bind_emit in E.
  destruct (bind_ok_inv _ _ _ _ _ E) as [u [t1 [Hu E1]]]. clear E.
  unfold derive in Hu. apply lift_ok_inv in Hu. destruct Hu as [Hu ->].
  unfold print in E1. rewrite bind_emit in E1. cbn [trace stdin] in E1.
  destruct (bind_ok_inv _ _ _ _ _ E1) as [pkg [t2 [Hp E2]]]. clear E1.
  assert (Hf : pkg = package_in args d
               /\ exists fetched,
                   trace t2 = (trace s ++ Mkdir d
                                 :: Print ("UUID: " ++ Uuid.to_string u ++ nl)
                                 :: fetched)%list
                   /\ Forall transfer_event fetched).
  { unfold package_in. destruct (vmnetx_package args) as [p |].
    - apply ret_ok_inv in Hp. destruct Hp as [-> ->]. split; [reflexivity |].
      exists []. cbn [trace]. rewrite <- app_assoc. split; [reflexivity | constructor].
    - destruct (bind_ok_inv _ _ _ _ _ Hp) as [x [t [Hfetch Hr]]].
      apply ret_ok_inv in Hr. destruct Hr as [-> ->]. split; [reflexivity |].
      pose proof (fetch_transfers w args (path_join d "vmnetx-package.zip")
                    (mkState ((trace s ++ [Mkdir d])
                                ++ [Print ("UUID: " ++ Uuid.to_string u ++ nl)])
                             (stdin s)))
        as [fetched [Ht F]].
      rewrite Hfetch in Ht. cbn [snd trace] in Ht.
      exists fetched. rewrite Ht, <- !app_assoc. split; [reflexivity | exact F]. }
  destruct Hf as [-> [fetched [Ht2 Ff]]].
  destruct (bind_ok_inv _ _ _ _ _ E2) as [z [t3 [Hz E3]]]. clear E2.
  apply lift_ok_inv in Hz. destruct Hz as [Hz ->].
  destruct (bind_ok_inv _ _ _ _ _ E3) as [doc [t4 [Hdoc E4]]]. clear E3.
  apply lift_ok_inv in Hdoc. destruct Hdoc as [Hdoc ->].
  destruct (bind_ok_inv _ _ _ _ _ E4) as [description [t5 [Hdesc E5]]]. clear E4.
  apply lift_ok_inv in Hdesc. destruct Hdesc as [-> ->].
  destruct (bind_ok_inv _ _ _ _ _ E5) as [name0 [t6 [Hname E6]]]. clear E5.
  apply lift_ok_inv in Hname. destruct Hname as [Hname ->].
  destruct (bind_ok_inv _ _ _ _ _ E6) as [name [s2 [Hgate E7]]]. clear E6.
  rewrite bind_emit in E7.
  destruct (bind_ok_inv _ _ _ _ _ E7) as [doc2 [t7 [Hdoc2 E8]]]. clear E7.
  apply lift_ok_inv in Hdoc2. destruct Hdoc2 as [Hdoc2 ->].
  destruct (bind_ok_inv _ _ _ _ _ E8) as [domain [t8 [Hdom E9]]]. clear E8.
  apply lift_ok_inv in Hdom. destruct Hdom as [-> ->].
  destruct (bind_ok_inv _ _ _ _ _ E9) as [[c m] [t9 [Hsz E10]]]. clear E9.
  apply sizing_ok_inv in Hsz. destruct Hsz as [-> [Hc [v [Hv Hm]]]].
  rewrite !bind_emit in E10. cbn [trace stdin] in E10.
  destruct (has_disk_img z) eqn:Hdisk; [| exfalso; exact (raise_not_ok _ _ _ _ _ E10)].
  rewrite bind_emit in E10. cbn [trace stdin] in E10.
  exists z, description, domain, name0, v, t2, s2, fetched.
  unfold inspected_events, image_events, docker_build, recompress_command.
  destruct (tmp_dir args) as [keep |] eqn:Htmp;
    destruct (vmnetx_package args) as [given |] eqn:Hgiven;
    rewrite ?bind_ret, ?bind_emit in E10; cbn [trace stdin] in E10;
    (destruct (bind_ok_inv _ _ _ _ _ E10) as [[] [t10 [Hq E11]]]; clear E10;
     apply run_ok_inv in Hq; destruct Hq as [Hq ->];
     destruct (bind_ok_inv _ _ _ _ _ E11) as [[] [t11 [Hr E12]]]; clear E11;
     apply report_savings_ok_inv in Hr; destruct Hr as [Hpre ->];
     rewrite ?bind_ret, ?bind_emit in E12; cbn [trace stdin] in E12;
     destruct (bind_ok_inv _ _ _ _ _ E12) as [[] [t12 [Hb E13]]]; clear E12;
     apply run_ok_inv in Hb; destruct Hb as [Hb ->];
     apply ret_ok_inv in E13; destruct E13 as [-> ->];
     cbn [trace stdin sinfonia_uuid vmi_fullname cpus memory];
     repeat (split; [first [assumption | reflexivity] |]);
     split; [| reflexivity];
     unfold package_in; rewrite ?Hgiven;
     repeat (rewrite <- app_assoc || rewrite <- app_comm_cons || rewrite app_nil_l);
     reflexivity).
Qed.

Lemma input_ok_inv (p : string) (s s' : state) (l : string) :
  input p s = (Ok l, s') ->
  s' = mkState (trace s ++ [Input p l]) (tl (stdin s)) /\ hd_error (stdin s) = Some l.
Proof.
  unfold input. destruct (stdin s) as [| x rest]; [discriminate |].
  intros H. injection H as H1 H2. subst. auto.
Qed.

(** A publication that completes. *)
Lemma publish_ok_inv (w : World) (args : Args) (d tag : string) (s s' : state) :
  publish w args d tag s = (Ok tt, s') ->
  exists consent,
    trace s' = (trace s ++ published_events args d tag consent)%list
    /\ Forall (fun e => exists answer,
                   e = Input push_prompt answer /\ says_yes answer = true)
              consent
    /\ (deploy_token args <> None -> consent = [])
    /\ (tmp_dir args = None -> deploy_token args = None -> consent <> [])
    /\ (tmp_dir args = None -> w_run w ["docker"; "push"; tag] = 0).
Proof.
  unfold publish, published_events. destruct (tmp_dir args) as [keep |].
  - intros H. apply ret_ok_inv in H. destruct H as [_ ->].
    exists []. rewrite app_nil_r.
    split; [reflexivity | split; [constructor | split; [reflexivity |]]].
    split; intros; discriminate.
  - rewrite !bind_emit. cbn [trace stdin]. intros H.
    destruct (bind_ok_inv _ _ _ _ _ H) as [[] [t1 [Hc H1]]]. clear H.
    unfold print in H1. rewrite bind_emit in H1.
    destruct (bind_ok_inv _ _ _ _ _ H1) as [[] [t2 [Hp H2]]]. clear H1.
    apply run_ok_inv in Hp. destruct Hp as [Hp ->].
    apply run_ok_inv in H2. destruct H2 as [Hr ->].
    cbn [trace stdin].
    destruct (deploy_token args) as [token |].
    + apply ret_ok_inv in Hc. destruct Hc as [_ ->].
      exists []. cbn [trace stdin].
      split; [repeat (rewrite <- app_assoc || rewrite <- app_comm_cons
                      || rewrite app_nil_l); reflexivity |].
      split; [constructor | split; [reflexivity |]].
      split; [intros _ Hn; discriminate Hn | intros _; exact Hp].
    + destruct (bind_ok_inv _ _ _ _ _ Hc) as [answer [t3 [Hi Hy]]]. clear Hc.
      apply input_ok_inv in Hi. destruct Hi as [-> _].
      unfold says_yes.
      destruct (PyStr.startswith "yes" (PyStr.lower answer)) eqn:Ey;
        cbn [negb] in Hy; [| discriminate Hy].
      apply ret_ok_inv in Hy. destruct Hy as [_ ->].
      exists [Input push_prompt answer]. cbn [trace stdin].
      split; [repeat (rewrite <- app_assoc || rewrite <- app_comm_cons
                      || rewrite app_nil_l); reflexivity |].
      split; [constructor; [exists answer; auto | constructor] |].
      split; [intros Hn; contradiction Hn; reflexivity |].
      split; [intros _ _; discriminate | intros _; exact Hp].
Qed.

(** A [with] block that completes: the build and the publication in the
    working directory. *)
Lemma with_block_ok_inv (w : World) (args : Args) (s s1 : state) (b : Built) :
  with_block w args s = (Ok b, s1) ->
  exists sb sp,
    build w args (working_dir w args)
          (mkState (trace s ++ entered_events w args) (stdin s)) = (Ok b, sb)
    /\ publish w args (working_dir w args) (docker_tag args (sinfonia_uuid b)) sb
       = (Ok tt, sp)
    /\ trace s1 = (trace sp ++ left_events w args)%list.
Proof.
  unfold with_block, with_tmp_ctx, working_dir, entered_events, left_events.
  destruct (tmp_dir args) as [d |].
  - intros E. destruct (bind_ok_inv _ _ _ _ _ E) as [b' [sb [Eb Ep]]].
    destruct (bind_ok_inv _ _ _ _ _ Ep) as [[] [sp [Epub Er]]].
    apply ret_ok_inv in Er. destruct Er as [-> ->].
    exists sb, sp. rewrite !app_nil_r, state_eta. auto.
  - rewrite bind_emit. unfold finally.
    set (s0 := mkState (trace s ++ [Mkdtemp "/var/tmp" (w_mkdtemp w)]) (stdin s)).
    destruct (bind (build w args (w_mkdtemp w)) _ s0) as [r sx] eqn:Ebody.
    intros E. injection E as Hr Hs1. subst r.
    destruct (bind_ok_inv _ _ _ _ _ Ebody) as [b' [sb [Eb Ep]]].
    destruct (bind_ok_inv _ _ _ _ _ Ep) as [[] [sp [Epub Er]]].
    apply ret_ok_inv in Er. destruct Er as [-> ->].
    exists sb, sp. split; [exact Eb | split; [exact Epub |]].
    rewrite <- Hs1. reflexivity.
Qed.

(** The recipe stage, when it completes. *)
Lemma emit_recipe_ok_run (args : Args) (b : Built) (s s' : state) :
  emit_recipe args b s = (Ok tt, s') ->
  exists c l,
    (forall t, credentials args t = (Ok c, t))
    /\ trace s' = (trace s ++ recipe_events args b c (Input done_prompt l))%list.
Proof.
  unfold emit_recipe, print. rewrite bind_emit. intros E.
  destruct (bind_ok_inv _ _ _ _ _ E) as [c [t [Hc E1]]]. clear E.
  destruct (credentials_pure _ _ _ _ Hc) as [-> Hpure].
  rewrite !bind_emit in E1. cbn [trace stdin] in E1.
  destruct (bind_ok_inv _ _ _ _ _ E1) as [l [t1 [Hi E2]]]. clear E1.
  apply input_ok_inv in Hi. destruct Hi as [-> _].
  apply ret_ok_inv in E2. destruct E2 as [_ ->].
  exists c, l. split; [exact Hpure |].
  cbn [trace stdin]. unfold recipe_events.
  repeat (rewrite <- app_assoc || rewrite <- app_comm_cons || rewrite app_nil_l).
  reflexivity.
Qed.

(** A conversion that completes: what it has read, and all its events,
    in order. *)
Lemma convert_ok_inv (w : World) (args : Args) (s s' : state) :
  convert w args s = (Ok tt, s') ->
  exists b z description domain name0 v c fetched asked consent l,
    dry_run args = []
    /\ vmnetx_url_to_uuid (url args) = Some (sinfonia_uuid b)
    /\ w_zipfile w (package_path w args) = Some z
    /\ package_xml z = Some (Some description)
    /\ Xml.lookup "name" (Xml.attrib description) = Some name0
    /\ domain_xml z = Some (Some domain)
    /\ PyInt.int (Xml.findtext domain "vcpu" "1") = Some (cpus b)
    /\ PyInt.int (Xml.findtext domain "memory" "65536") = Some v
    /\ memory b = v / 1024
    /\ has_disk_img z = true
    /\ w_stat_size w (path_join (working_dir w args) "disk.img") <> 0
    /\ ~ placeholder (vmi_fullname b)
    /\ ((~ placeholder name0 /\ asked = [] /\ vmi_fullname b = name0)
        \/ (placeholder name0
            /\ exists bad, asked = (bad ++ [vmi_fullname b])%list
                           /\ Forall placeholder bad))
    /\ (forall t, credentials args t = (Ok c, t))
    /\ Forall transfer_event fetched
    /\ Forall (fun e => exists answer,
                   e = Input push_prompt answer /\ says_yes answer = true)
              consent
    /\ (deploy_token args <> None -> consent = [])
    /\ (tmp_dir args = None -> deploy_token args = None -> consent <> [])
    /\ events_of (convert w args) s
       = (entered_events w args
            ++ Mkdir (working_dir w args)
            :: Print ("UUID: " ++ Uuid.to_string (sinfonia_uuid b) ++ nl)
            :: fetched
            ++ map (Input name_prompt) asked
            ++ inspected_events w args (working_dir w args) b
            ++ published_events args (working_dir w args)
                                (docker_tag args (sinfonia_uuid b)) consent
            ++ left_events w args
            ++ recipe_events args b c (Input done_prompt l))%list.
Proof.
  intros E.
  assert (Hd : dry_run args = []).
  { unfold convert in E. destruct (dry_run args); [reflexivity | discriminate E]. }
  assert (Ec : bind (with_block w args) (emit_recipe args) s = (Ok tt, s')).
  { rewrite <- E. unfold convert. rewrite Hd. reflexivity. }
  destruct (bind_ok_inv _ _ _ _ _ Ec) as [b [s1 [Ew Er]]].
  destruct (with_block_ok_inv w args s s1 b Ew) as [sb [sp [Eb [Ep E1]]]].
  destruct (build_ok_inv w args _ _ sb b Eb)
    as [z [description [domain [name0 [v [t1 [t2 [fetched H]]]]]]]].
  destruct H as [Hu [Hz [Hdesc [Hname [Hdom [Hc [Hv [Hm [Hdisk [_ [Hpre
                [Ht1 [Ff [Hgate [Hsb _]]]]]]]]]]]]]]].
  destruct (name_gate_ok_inv name0 t1 t2 _ Hgate) as [asked [_ [Ht2 [Hn Hcase]]]].
  destruct (publish_ok_inv w args _ _ sb sp Ep)
    as [consent [Hsp [Fc [Hc0 [Hc1 _]]]]].
  destruct (emit_recipe_ok_run args b s1 s' Er) as [c [l [Hpure Hs']]].
  exists b, z, description, domain, name0, v, c, fetched, asked, consent, l.
  repeat (split; [first [assumption | exact Hz] |]).
  apply events_of_app. rewrite E. cbn [snd].
  rewrite Hs', E1, Hsp, Hsb, Ht2, Ht1. cbn [trace].
  repeat (rewrite <- app_assoc || rewrite <- app_comm_cons || rewrite app_nil_l).
  reflexivity.
Qed.

(* ===================================================================== *)
(** ** Disk encoder: the compression report *)
(* ===================================================================== *)

(** C3 as stated fails: the claim truncates the saving, the code the
    quotient.  For a disk of 3 bytes re-encoded to 1 byte the saving is
    66.67 per cent, 66 when truncated, and the code reports 67; for 1000
    and 999 bytes the truncated saving is 0, which would suppress the
    line, and the code reports 1.  The last part is a whole conversion. *)
Lemma savings_round_the_quotient_down :
  spec_savings 1 3 = 66
  /\ report_savings 1 3 (Demo.start [])
     = (Ok tt, mkState [Print ("compression savings 67%" ++ nl)] [])
  /\ spec_savings 999 1000 = 0
  /\ report_savings 999 1000 (Demo.start [])
     = (Ok tt, mkState [Print ("compression savings 1%" ++ nl)] [])
  /\ In (Print ("compression savings 67%" ++ nl))
        (events_of (convert small_disk_world Demo.keep_args)
                   (Demo.start ["Win 3.1"; ""])).
Proof.
  split; [reflexivity | split; [reflexivity | split; [reflexivity |]]].
  split; [reflexivity |].
  vm_compute. repeat (first [left; reflexivity | right]).
Qed.

(** C3 (as amended): the savings reported after the re-encoding are
    [100 - q], [q] being the integer quotient of 100 times the size after
    by the size before, rounded down (for sizes that are not negative:
    truncated toward zero); it is the quotient that loses its fraction,
    not the saving.  A value of 0 prints no line.  Sizes 1000 and 400
    report 60%, sizes 1000 and 1000 print no line.  In a conversion that
    completes the sizes are those of [disk.qcow2] and [disk.img] in the
    working directory, the second is not 0, and the line, if any, is what
    comes between the [qemu-img] command and the next step. *)
Theorem compression_savings_report :
  (forall post pre s,
      0 < pre -> 0 <= post ->
      let c := 100 - Z.quot (100 * post) pre in
      compression post pre s = (Ok c, s)
      /\ (c <> 0 ->
          report_savings post pre s
          = (Ok tt, mkState (trace s ++ [Print ("compression savings "
                                                ++ PyStr.of_Z c ++ "%" ++ nl)])
                            (stdin s)))
      /\ (c = 0 -> report_savings post pre s = (Ok tt, s)))
  /\ (forall s,
         report_savings 400 1000 s
         = (Ok tt, mkState (trace s ++ [Print ("compression savings 60%" ++ nl)])
                           (stdin s))
         /\ report_savings 1000 1000 s = (Ok tt, s))
  /\ (forall w args s s',
         convert w args s = (Ok tt, s') ->
         let pre := w_stat_size w (path_join (working_dir w args) "disk.img") in
         let post := w_stat_size w (path_join (working_dir w args) "disk.qcow2") in
         let c := 100 - (100 * post) / pre in
         pre <> 0
         /\ exists before rest,
             events_of (convert w args) s
             = (before
                  ++ [Run (recompress_command w (working_dir w args))]
                  ++ (if c =? 0 then []
                      else [Print ("compression savings " ++ PyStr.of_Z c
                                   ++ "%" ++ nl)])
                  ++ match tmp_dir args with
                     | None => [Unlink (path_join (working_dir w args) "disk.img")]
                     | Some _ => []
                     end
                  ++ Print ("Creating containerDisk image" ++ nl) :: rest)%list).
Proof.
  split; [| split].
  - intros post pre s Hpre Hpost c.
    assert (Hc : compression post pre s = (Ok c, s)).
    { unfold compression, floordiv, bind.
      destruct (Z.eqb_spec pre 0) as [E | _]; [lia |].
      unfold ret, c. rewrite Z.quot_div_nonneg by lia. reflexivity. }
    split; [exact Hc | split].
    + intros Hnz. unfold report_savings, bind at 1. rewrite Hc.
      destruct (Z.eqb_spec c 0) as [E | _]; [contradiction |]. reflexivity.
    + intros Hz. unfold report_savings, bind at 1. rewrite Hc, Hz. reflexivity.
  - intros s. split; [reflexivity |].
    unfold report_savings, compression, floordiv, bind, ret. cbn.
    reflexivity.
  - intros w args s s' E pre post c.
    destruct (convert_ok_inv w args s s' E)
      as [b [z [description [domain [name0 [v [cr [fetched [asked [consent [l H]]]]]]]]]]].
    destruct H as [_ [_ [_ [_ [_ [_ [_ [_ [_ [_ [Hpre [_ [_ [_ [_ [_ [_ [_ Hev]]]]]]]]]]]]]]]]]].
    split; [exact Hpre |].
    exists (entered_events w args
              ++ Mkdir (working_dir w args)
              :: Print ("UUID: " ++ Uuid.to_string (sinfonia_uuid b) ++ nl)
              :: fetched
              ++ map (Input name_prompt) asked
              ++ [Print (vmi_fullname b ++ nl);
                  Print ("cpus " ++ PyStr.of_Z (cpus b) ++ " memory "
                         ++ PyStr.of_Z (memory b) ++ nl);
                  Print ("Extracting disk image" ++ nl);
                  Extract "disk.img" (working_dir w args)]
              ++ match tmp_dir args, vmnetx_package args with
                 | None, None =>
                     [Unlink (path_join (working_dir w args) "vmnetx-package.zip")]
                 | _, _ => []
                 end
              ++ [Print ("Recompressing disk image" ++ nl)])%list,
           (image_events w args (working_dir w args) b
              ++ published_events args (working_dir w args)
                                  (docker_tag args (sinfonia_uuid b)) consent
              ++ left_events w args
              ++ recipe_events args b cr (Input done_prompt l))%list.
    rewrite Hev. unfold inspected_events, savings_events. fold pre post c.
    repeat (rewrite <- app_assoc || rewrite <- app_comm_cons || rewrite app_nil_l).
    reflexivity.
Qed.

Lemma compression_savings_report_witness :
  (0 < 3 /\ 0 <= 1
   /\ compression 1 3 (Demo.start []) = (Ok 67, Demo.start [])
   /\ report_savings 1 3 (Demo.start [])
      = (Ok tt, mkState [Print ("compression savings 67%" ++ nl)] []))
  /\ fst (convert Demo.world Demo.keep_args (Demo.start ["Win 3.1"; ""])) = Ok tt
  /\ w_stat_size Demo.world (path_join (working_dir Demo.world Demo.keep_args)
                                      "disk.img") = 1000
  /\ w_stat_size Demo.world (path_join (working_dir Demo.world Demo.keep_args)
                                      "disk.qcow2") = 400
  /\ exists before rest,
      events_of (convert Demo.world Demo.keep_args) (Demo.start ["Win 3.1"; ""])
      = (before
           ++ [Run (recompress_command Demo.world "work")]
           ++ [Print ("compression savings 60%" ++ nl)]
           ++ []
           ++ Print ("Creating containerDisk image" ++ nl) :: rest)%list.
Proof.
  split.
  { assert (Hpre : 0 < 3) by lia. assert (Hpost : 0 <= 1) by lia.
    destruct (proj1 compression_savings_report 1 3 (Demo.start []) Hpre Hpost)
      as [H1 [H2 _]].
    split; [exact Hpre | split; [exact Hpost | split; [exact H1 |]]].
    apply H2. discriminate. }
  split; [vm_compute; reflexivity | split; [reflexivity | split; [reflexivity |]]].
  assert (E : exists s', convert Demo.world Demo.keep_args
                                 (Demo.start ["Win 3.1"; ""]) = (Ok tt, s'))
    by (eexists; vm_compute; reflexivity).
  destruct E as [s' E].
  exact (proj2 (proj2 (proj2 compression_savings_report)
                  Demo.world Demo.keep_args (Demo.start ["Win 3.1"; ""]) s' E)).
Defined.

(* ===================================================================== *)
(** ** Package inspector: sizing and the name gate *)
(* ===================================================================== *)

(** The resource lines of the recipe are those of the build. *)
Lemma recipe_body_resources (args : Args) (b : Built) :
  exists head tail,
    recipe_body args b
    = head ++ "      cpu: " ++ PyStr.of_Z (cpus b) ++ nl
           ++ "      memory: " ++ PyStr.of_Z (memory b) ++ "Mi" ++ nl ++ tail.
Proof.
  unfold recipe_body.
  exists ("description: " ++ dq ++ vmi_fullname b ++ dq ++ nl
          ++ "chart: https://cmusatyalab.github.io/olive2022/vmi" ++ nl
          ++ "version: 0.1.2" ++ nl
          ++ "values:" ++ nl
          ++ "  containerDisk:" ++ nl
          ++ "    repository: " ++ dq ++ registry args ++ dq ++ nl
          ++ "    name: " ++ dq ++ Uuid.to_string (sinfonia_uuid b) ++ dq ++ nl
          ++ "    bus: sata" ++ nl
          ++ "  resources:" ++ nl
          ++ "    requests:" ++ nl),
         ("  virtvnc:" ++ nl ++ "    fullnameOverride: vmi" ++ nl).
  repeat rewrite append_assoc. reflexivity.
Qed.

(** C5: the memory value of the domain descriptor is divided by 1024 with
    the remainder dropped ([1024 * memory <= v < 1024 * memory + 1024]);
    131072 gives 128 and 1500 gives 1; a descriptor without [vcpu] and
    [memory] gives 1 CPU and the default memory 65536 / 1024 = 64.  A
    conversion that completes has applied this to the [domain.xml] of its
    package: the integers [c] of its [vcpu] and [v] of its [memory] text
    (or of the defaults) give the line "cpus c memory v // 1024" and the
    lines [cpu: c] and [memory: (v // 1024)Mi] of the recipe it writes. *)
Theorem memory_normalisation :
  (forall domain c v s,
      PyInt.int (Xml.findtext domain "vcpu" "1") = Some c ->
      PyInt.int (Xml.findtext domain "memory" "65536") = Some v ->
      exists m, sizing domain s = (Ok (c, m), s)
                /\ 1024 * m <= v < 1024 * m + 1024)
  /\ (forall attrs s,
         sizing (Xml.mkElement attrs [("memory", Some "131072")]) s
         = (Ok (1, 128), s)
         /\ sizing (Xml.mkElement attrs [("memory", Some "1500")]) s
            = (Ok (1, 1), s))
  /\ (forall attrs cs s,
         Xml.lookup "vcpu" cs = None -> Xml.lookup "memory" cs = None ->
         sizing (Xml.mkElement attrs cs) s = (Ok (1, 64), s))
  /\ (forall w args s s',
         convert w args s = (Ok tt, s') ->
         exists z domain c v b access head tail,
           w_zipfile w (package_path w args) = Some z
           /\ domain_xml z = Some (Some domain)
           /\ PyInt.int (Xml.findtext domain "vcpu" "1") = Some c
           /\ PyInt.int (Xml.findtext domain "memory" "65536") = Some v
           /\ 1024 * (v / 1024) <= v < 1024 * (v / 1024) + 1024
           /\ In (Print ("cpus " ++ PyStr.of_Z c ++ " memory "
                         ++ PyStr.of_Z (v / 1024) ++ nl))
                 (events_of (convert w args) s)
           /\ In (WriteText (recipe_path (sinfonia_uuid b))
                            (recipe_body args b ++ access))
                 (events_of (convert w args) s)
           /\ recipe_body args b
              = head ++ "      cpu: " ++ PyStr.of_Z c ++ nl
                     ++ "      memory: " ++ PyStr.of_Z (v / 1024) ++ "Mi" ++ nl
                     ++ tail).
Proof.
  split; [| split; [| split]].
  - intros domain c v s Hc Hv. exists (v / 1024). split.
    + unfold sizing, int, bind. rewrite Hc, Hv. reflexivity.
    + pose proof (Z.div_mod v 1024 ltac:(lia)).
      pose proof (Z.mod_pos_bound v 1024 ltac:(lia)). lia.
  - intros attrs s. split; reflexivity.
  - intros attrs cs s H1 H2.
    unfold sizing, Xml.findtext. simpl. rewrite H1, H2. reflexivity.
  - intros w args s s' E.
    destruct (convert_ok_inv w args s s' E)
      as [b [z [description [domain [name0 [v [cr [fetched [asked [consent [l H]]]]]]]]]]].
    destruct H as [_ [_ [Hz [_ [_ [Hdom [Hc [Hv [Hm [_ [_ [_ [_ [_ [_ [_ [_ [_ Hev]]]]]]]]]]]]]]]]]].
    destruct (recipe_body_resources args b) as [head [tail Hb]].
    exists z, domain, (cpus b), v, b, cr, head, tail.
    repeat (split; [assumption |]).
    split; [| split; [| split]].
    + pose proof (Z.div_mod v 1024 ltac:(lia)).
      pose proof (Z.mod_pos_bound v 1024 ltac:(lia)). lia.
    + rewrite Hev, <- Hm. unfold inspected_events.
      apply in_or_app. right. right. right.
      apply in_or_app. right. apply in_or_app. right.
      apply in_or_app. left. right. left. reflexivity.
    + rewrite Hev. unfold recipe_events.
      apply in_or_app. right. right. right.
      apply in_or_app. right. apply in_or_app. right.
      apply in_or_app. right. apply in_or_app. right.
      apply in_or_app. right. right. right. left. reflexivity.
    + rewrite Hb, Hm. reflexivity.
Qed.

Lemma memory_normalisation_witness :
  (PyInt.int (Xml.findtext Demo.domain "vcpu" "1") = Some 2
   /\ PyInt.int (Xml.findtext Demo.domain "memory" "65536") = Some 131072
   /\ exists m, sizing Demo.domain (Demo.start []) = (Ok (2, m), Demo.start [])
                /\ 1024 * m <= 131072 < 1024 * m + 1024)
  /\ (Xml.lookup "vcpu" [("name", Some "machine")] = None
      /\ Xml.lookup "memory" [("name", Some "machine")] = None
      /\ sizing (Xml.mkElement [] [("name", Some "machine")]) (Demo.start [])
         = (Ok (1, 64), Demo.start []))
  /\ (fst (convert Demo.world Demo.keep_args (Demo.start ["Win 3.1"; ""])) = Ok tt
      /\ In (Print ("cpus 2 memory 128" ++ nl))
            (events_of (convert Demo.world Demo.keep_args)
                       (Demo.start ["Win 3.1"; ""]))
      /\ exists z domain c v,
          w_zipfile Demo.world (package_path Demo.world Demo.keep_args) = Some z
          /\ domain_xml z = Some (Some domain)
          /\ PyInt.int (Xml.findtext domain "vcpu" "1") = Some c
          /\ PyInt.int (Xml.findtext domain "memory" "65536") = Some v
          /\ In (Print ("cpus " ++ PyStr.of_Z c ++ " memory "
                        ++ PyStr.of_Z (v / 1024) ++ nl))
                (events_of (convert Demo.world Demo.keep_args)
                           (Demo.start ["Win 3.1"; ""]))).
Proof.
  pose proof memory_normalisation as [T1 [_ [T3 T4]]].
  split; [| split].
  - split; [reflexivity | split; [reflexivity |]].
    exact (T1 Demo.domain 2 131072 (Demo.start []) eq_refl eq_refl).
  - split; [reflexivity | split; [reflexivity |]].
    exact (T3 [] [("name", Some "machine")] (Demo.start []) eq_refl eq_refl).
  - split; [vm_compute; reflexivity |].
    split; [vm_compute; repeat (first [left; reflexivity | right]) |].
    assert (E : exists s', convert Demo.world Demo.keep_args
                                   (Demo.start ["Win 3.1"; ""]) = (Ok tt, s'))
      by (eexists; vm_compute; reflexivity).
    destruct E as [s' E].
    destruct (T4 Demo.world Demo.keep_args (Demo.start ["Win 3.1"; ""]) s' E)
      as [z [domain [c [v [b [access [head [tail H]]]]]]]].
    destruct H as [H1 [H2 [H3 [H4 [_ [H6 _]]]]]].
    exists z, domain, c, v.
    exact (conj H1 (conj H2 (conj H3 (conj H4 H6)))).
Defined.

(** Finds an event named in full in a list built with [::] and [++]. *)
Ltac in_find :=
  first [ left; reflexivity
        | right; in_find
        | apply in_or_app; left; in_find
        | apply in_or_app; right; in_find ].

(** No event of the download is the prompt for the name. *)
Lemma transfer_events_ask_no_name (l : list event) :
  Forall transfer_event l -> List.filter asks_name l = [].
Proof.
  induction 1 as [| e l He _ IH]; [reflexivity |].
  destruct e; try contradiction; simpl; exact IH.
Qed.

(** The consent of the operator is asked with another prompt. *)
Lemma consent_asks_no_name (l : list event) :
  Forall (fun e => exists answer,
              e = Input push_prompt answer /\ says_yes answer = true) l ->
  List.filter asks_name l = [].
Proof.
  induction 1 as [| e l [answer [-> _]] _ IH]; [reflexivity |].
  simpl. exact IH.
Qed.

(** Every prompt for the name is one. *)
Lemma name_prompts_ask_name (asked : list string) :
  List.filter asks_name (map (Input name_prompt) asked)
  = map (Input name_prompt) asked.
Proof.
  induction asked as [| a asked IH]; [reflexivity |].
  simpl. rewrite IH. reflexivity.
Qed.

(** C8: a display name that is empty or "Virtual Machine" makes the
    pipeline ask the operator, again and again until a line that is neither
    is entered; that line becomes the name.  Any other name passes through
    unchanged and nothing is asked.  No placeholder is ever returned as the
    name.  A conversion that completes has applied this to the [name]
    attribute [name0] of the [vmnetx-package.xml] of its package: its name
    is no placeholder; it is [name0] with no prompt when [name0] is none,
    else the first entered line that is none; the prompts for the name are
    exactly these lines, in order; before them only the working directory
    is made and the package fetched, and the report of the name, the
    extraction, the [Dockerfile] with the name and the recipe with the name
    all follow them. *)
Theorem name_gate_blocks_on_placeholder :
  (forall name s, ~ placeholder name -> name_gate name s = (Ok name, s))
  /\ (forall name bad good rest tr,
         placeholder name -> Forall placeholder bad -> ~ placeholder good ->
         name_gate name (mkState tr (bad ++ good :: rest)%list)
         = (Ok good,
            mkState (tr ++ map (Input name_prompt) (bad ++ [good]))%list rest))
  /\ (forall name s name' s',
         name_gate name s = (Ok name', s') -> ~ placeholder name')
  /\ (forall w args s s',
         convert w args s = (Ok tt, s') ->
         exists z description name0 b asked fetched after access,
           w_zipfile w (package_path w args) = Some z
           /\ package_xml z = Some (Some description)
           /\ Xml.lookup "name" (Xml.attrib description) = Some name0
           /\ ~ placeholder (vmi_fullname b)
           /\ ((~ placeholder name0 /\ asked = [] /\ vmi_fullname b = name0)
               \/ (placeholder name0
                   /\ exists bad, asked = (bad ++ [vmi_fullname b])%list
                                  /\ Forall placeholder bad))
           /\ List.filter asks_name (events_of (convert w args) s)
              = map (Input name_prompt) asked
           /\ Forall transfer_event fetched
           /\ events_of (convert w args) s
              = (entered_events w args ++ Mkdir (working_dir w args)
                   :: Print ("UUID: " ++ Uuid.to_string (sinfonia_uuid b) ++ nl)
                   :: fetched
                   ++ map (Input name_prompt) asked
                   ++ Print (vmi_fullname b ++ nl) :: after)%list
           /\ In (Extract "disk.img" (working_dir w args)) after
           /\ In (WriteText (path_join (working_dir w args) "Dockerfile")
                            (dockerfile_text (vmi_fullname b))) after
           /\ In (WriteText (recipe_path (sinfonia_uuid b))
                            (recipe_body args b ++ access)) after).
Proof.
  split; [| split; [| split]].
  - intros name [tr lines] H. apply not_placeholder_member in H.
    unfold name_gate. simpl trace. simpl stdin.
    destruct lines; unfold name_loop; rewrite H; reflexivity.
  - intros name bad. revert name.
    induction bad as [| b bad IH]; intros name good rest tr Hn Hb Hg.
    + apply placeholder_member in Hn. apply not_placeholder_member in Hg.
      unfold name_gate. simpl trace. simpl stdin. simpl app.
      cbn [name_loop]. rewrite Hn.
      destruct rest; cbn [name_loop]; rewrite Hg; reflexivity.
    + inversion Hb as [| ? ? Hb1 Hb2]; subst.
      apply placeholder_member in Hn.
      unfold name_gate. simpl trace. simpl stdin.
      change ((b :: bad) ++ good :: rest)%list with (b :: (bad ++ good :: rest))%list.
      cbn [name_loop]. rewrite Hn.
      specialize (IH b good rest (tr ++ [Input name_prompt b])%list Hb1 Hb2 Hg).
      unfold name_gate in IH. simpl trace in IH. simpl stdin in IH.
      rewrite IH. simpl map. rewrite <- app_assoc. reflexivity.
  - intros name [tr lines]. unfold name_gate. simpl trace. simpl stdin.
    revert name tr. induction lines as [| l rest IH]; intros name tr name' s'.
    + cbn [name_loop].
      destruct (PyStr.member name [""; "Virtual Machine"]) eqn:E.
      * discriminate.
      * intros H. inversion H; subst. apply not_placeholder_member, E.
    + cbn [name_loop].
      destruct (PyStr.member name [""; "Virtual Machine"]) eqn:E.
      * apply IH.
      * intros H. inversion H; subst. apply not_placeholder_member, E.
  - intros w args s s' E.
    destruct (convert_ok_inv w args s s' E)
      as [b [z [description [domain [name0 [v [cr [fetched [asked [consent [l H]]]]]]]]]]].
    destruct H as [_ [_ [Hz [Hx [Hn [_ [_ [_ [_ [_ [_ [Hnp [Hcase [_ [Hf [Hc [_ [_ Hev]]]]]]]]]]]]]]]]]].
    exists z, description, name0, b, asked, fetched,
      (tl (inspected_events w args (working_dir w args) b)
       ++ published_events args (working_dir w args)
                           (docker_tag args (sinfonia_uuid b)) consent
       ++ left_events w args
       ++ recipe_events args b cr (Input done_prompt l))%list, cr.
    split; [exact Hz |]. split; [exact Hx |]. split; [exact Hn |].
    split; [exact Hnp |]. split; [exact Hcase |].
    split; [| split; [exact Hf | split; [| split; [| split]]]].
    + rewrite Hev.
      rewrite List.filter_app.
      cbn [List.filter asks_name].
      repeat rewrite List.filter_app.
      rewrite (transfer_events_ask_no_name fetched Hf).
      rewrite name_prompts_ask_name.
      unfold entered_events, inspected_events, published_events, left_events,
        recipe_events, savings_events, image_events, docker_build.
      destruct (tmp_dir args); destruct (vmnetx_package args);
        destruct (100 - _ =? 0); cbn [List.filter asks_name app];
        repeat rewrite List.filter_app;
        rewrite ?(consent_asks_no_name consent Hc);
        cbn [List.filter asks_name app];
        rewrite ?app_nil_r; reflexivity.
    + rewrite Hev. reflexivity.
    + unfold inspected_events. cbn [tl app]. in_find.
    + unfold inspected_events, image_events. cbn [tl app]. in_find.
    + unfold recipe_events. in_find.
Qed.

Lemma name_gate_blocks_on_placeholder_witness :
  (~ placeholder "Win 3.1"
   /\ name_gate "Win 3.1" (Demo.start ["x"]) = (Ok "Win 3.1", Demo.start ["x"]))
  /\ (placeholder "" /\ Forall placeholder ["Virtual Machine"]
      /\ name_gate "" (mkState [] (["Virtual Machine"] ++ "Win 3.1" :: ["x"])%list)
         = (Ok "Win 3.1",
            mkState ([] ++ map (Input name_prompt)
                               (["Virtual Machine"] ++ ["Win 3.1"]))%list
                    ["x"]))
  /\ (name_gate "" (Demo.start ["Win 3.1"])
      = (Ok "Win 3.1", mkState [Input name_prompt "Win 3.1"] [])
      /\ ~ placeholder "Win 3.1")
  /\ (fst (convert Demo.world Demo.keep_args
                   (Demo.start ["Virtual Machine"; "Win 3.1"; ""])) = Ok tt
      /\ exists asked,
          List.filter asks_name
            (events_of (convert Demo.world Demo.keep_args)
                       (Demo.start ["Virtual Machine"; "Win 3.1"; ""]))
          = map (Input name_prompt) asked).
Proof.
  assert (H0 : placeholder "") by (left; reflexivity).
  assert (H1 : Forall placeholder ["Virtual Machine"])
    by (constructor; [right; reflexivity | constructor]).
  assert (H2 : ~ placeholder "Win 3.1") by (intros [H | H]; discriminate).
  pose proof name_gate_blocks_on_placeholder as [T1 [T2 [T3 T4]]].
  split; [| split; [| split]].
  - split; [exact H2 | exact (T1 "Win 3.1" (Demo.start ["x"]) H2)].
  - split; [exact H0 | split; [exact H1 |]].
    exact (T2 "" ["Virtual Machine"] "Win 3.1" ["x"] [] H0 H1 H2).
  - split; [reflexivity |].
    exact (T3 "" (Demo.start ["Win 3.1"]) "Win 3.1"
              (mkState [Input name_prompt "Win 3.1"] []) eq_refl).
  - split; [vm_compute; reflexivity |].
    assert (E : exists s', convert Demo.world Demo.keep_args
                             (Demo.start ["Virtual Machine"; "Win 3.1"; ""])
                           = (Ok tt, s'))
      by (eexists; vm_compute; reflexivity).
    destruct E as [s' E].
    destruct (T4 Demo.world Demo.keep_args
                 (Demo.start ["Virtual Machine"; "Win 3.1"; ""]) s' E)
      as [z [description [name0 [b [asked [fetched [after [access H]]]]]]]].
    destruct H as [_ [_ [_ [_ [_ [H6 _]]]]]].
    exists asked. exact H6.
Defined.

(* ===================================================================== *)
(** ** The access-control block of the recipe *)
(* ===================================================================== *)

(** [s.split(c, 1)] has two parts exactly when [c] occurs in [s]: the
    text before its first occurrence and the text after it. *)
Lemma partition_some_inv (c : ascii) (s l r : string) :
  PyStr.partition c s = Some (l, r) ->
  s = l ++ String c r /\ PyStr.has_char c l = false.
Proof.
  revert l. induction s as [| a s IH]; intros l; simpl; [discriminate |].
  destruct (Ascii.eqb a c) eqn:E.
  - intros H. injection H as <- <-. apply Ascii.eqb_eq in E. subst a.
    split; reflexivity.
  - destruct (PyStr.partition c s) as [[l0 r0] |]; [| discriminate].
    intros H. injection H as <- <-.
    destruct (IH l0 eq_refl) as [-> Hl]. simpl. rewrite E, Hl.
    split; reflexivity.
Qed.

(** The block of a run with a deploy token: both texts split. *)
Lemma credentials_some_inv (args : Args) (token c : string) (s s' : state) :
  deploy_token args = Some token ->
  credentials args s = (Ok c, s') ->
  exists host rest user pass,
    registry args = host ++ "/" ++ rest
    /\ PyStr.has_char "/" host = false
    /\ token = user ++ ":" ++ pass
    /\ PyStr.has_char ":" user = false
    /\ c = credentials_text host user pass.
Proof.
  intros Ht. unfold credentials, unpack_split, lift, bind, ret, raise.
  rewrite Ht.
  destruct (PyStr.partition "/" (registry args)) as [[host rest] |] eqn:Er;
    [| discriminate].
  destruct (PyStr.partition ":" token) as [[user pass] |] eqn:Et;
    [| discriminate].
  intros H. injection H as <- _.
  apply partition_some_inv in Er. apply partition_some_inv in Et.
  destruct Er as [Er Hh]. destruct Et as [Et Hu].
  exists host, rest, user, pass.
  split; [exact Er |]. split; [exact Hh |]. split; [exact Et |].
  split; [exact Hu | reflexivity].
Qed.

(** C6: the access-control block of the recipe follows the credentials.
    Without a deploy token it is exactly [  restricted: false], with no
    credential field.  With a token [user:pass], [user] without a colon,
    and a registry [host/rest], [host] without a slash, it is the block
    with registry [host], username [user], password [pass] and
    [restricted: true]: the token is split at its first colon and the
    registry at its first slash; for "alice:secret" and
    "reg.example.com/proj" these are "reg.example.com", "alice" and
    "secret".  A conversion that completes ends with the recipe stage,
    which writes the recipe body followed by this block to the recipe
    file: without a token the body and [  restricted: false]; with a token,
    the token and the registry do split so and the block is that of their
    parts.  The last two parts run whole conversions. *)
Theorem recipe_access_block :
  (forall args s,
      deploy_token args = None ->
      credentials args s = (Ok "  restricted: false", s))
  /\ (forall args host rest user pass s,
         deploy_token args = Some (user ++ ":" ++ pass) ->
         PyStr.has_char ":" user = false ->
         registry args = host ++ "/" ++ rest ->
         PyStr.has_char "/" host = false ->
         credentials args s = (Ok (credentials_text host user pass), s))
  /\ credentials_text "reg.example.com" "alice" "secret"
     = "  containerDiskCredentials:" ++ nl
       ++ "    registry: " ++ dq ++ "reg.example.com" ++ dq ++ nl
       ++ "    username: " ++ dq ++ "alice" ++ dq ++ nl
       ++ "    password: " ++ dq ++ "secret" ++ dq ++ nl
       ++ "  restricted: true" ++ nl
  /\ (forall w args s s',
         convert w args s = (Ok tt, s') ->
         exists b c before l,
           events_of (convert w args) s
           = (before
                ++ [Print ("Creating Sinfonia recipe "
                           ++ Uuid.to_string (sinfonia_uuid b) ++ nl);
                    Mkdir RECIPES;
                    WriteText (recipe_path (sinfonia_uuid b))
                              (recipe_body args b ++ c);
                    Input done_prompt l])%list
           /\ match deploy_token args with
              | None => c = "  restricted: false"
              | Some token =>
                  exists host rest user pass,
                    registry args = host ++ "/" ++ rest
                    /\ PyStr.has_char "/" host = false
                    /\ token = user ++ ":" ++ pass
                    /\ PyStr.has_char ":" user = false
                    /\ c = credentials_text host user pass
              end)
  /\ In (WriteText Demo.recipe_file (Demo.recipe_head ++ Demo.restricted_block))
        (events_of (convert Demo.world Demo.restricted_args)
                   (Demo.start ["Win 3.1"; ""]))
  /\ In (WriteText Demo.recipe_file (Demo.recipe_head ++ "  restricted: false"))
        (events_of (convert Demo.world Demo.public_args)
                   (Demo.start ["Win 3.1"; "yes"; ""])).
Proof.
  split; [| split; [| split; [| split; [| split]]]].
  - intros args s H. unfold credentials. rewrite H. reflexivity.
  - intros args host rest user pass s Ht Hu Hr Hh.
    unfold credentials, unpack_split, lift, bind, ret.
    rewrite Ht, Hr.
    change (host ++ "/" ++ rest) with (host ++ String "/" rest).
    change (user ++ ":" ++ pass) with (user ++ String ":" pass).
    rewrite (partition_hit _ _ _ Hh), (partition_hit _ _ _ Hu).
    reflexivity.
  - reflexivity.
  - intros w args s s' E.
    destruct (convert_ok_inv w args s s' E)
      as [b [z [description [domain [name0 [v [cr [fetched [asked [consent [l H]]]]]]]]]]].
    destruct H as [_ [_ [_ [_ [_ [_ [_ [_ [_ [_ [_ [_ [_ [Hcr [_ [_ [_ [_ Hev]]]]]]]]]]]]]]]]]].
    exists b, cr,
      (entered_events w args ++ Mkdir (working_dir w args)
         :: Print ("UUID: " ++ Uuid.to_string (sinfonia_uuid b) ++ nl) :: fetched
         ++ map (Input name_prompt) asked
         ++ inspected_events w args (working_dir w args) b
         ++ published_events args (working_dir w args)
                             (docker_tag args (sinfonia_uuid b)) consent
         ++ left_events w args)%list, l.
    split.
    + rewrite Hev. unfold recipe_events.
      repeat (rewrite <- app_assoc || rewrite <- app_comm_cons).
      reflexivity.
    + destruct (deploy_token args) as [token |] eqn:Ht.
      * exact (credentials_some_inv args token cr s s Ht (Hcr s)).
      * specialize (Hcr s). unfold credentials in Hcr. rewrite Ht in Hcr.
        apply ret_ok_inv in Hcr. destruct Hcr as [Hc _]. exact Hc.
  - vm_compute. tauto.
  - vm_compute. tauto.
Qed.

Lemma recipe_access_block_witness :
  (deploy_token Demo.public_args = None
   /\ credentials Demo.public_args (Demo.start [])
      = (Ok "  restricted: false", Demo.start []))
  /\ (deploy_token Demo.restricted_args = Some ("alice" ++ ":" ++ "secret")
      /\ PyStr.has_char ":" "alice" = false
      /\ registry Demo.restricted_args = "reg.example.com" ++ "/" ++ "proj"
      /\ PyStr.has_char "/" "reg.example.com" = false
      /\ credentials Demo.restricted_args (Demo.start [])
         = (Ok (credentials_text "reg.example.com" "alice" "secret"),
            Demo.start []))
  /\ (fst (convert Demo.world Demo.restricted_args (Demo.start ["Win 3.1"; ""]))
      = Ok tt
      /\ exists b c before l,
          events_of (convert Demo.world Demo.restricted_args)
                    (Demo.start ["Win 3.1"; ""])
          = (before
               ++ [Print ("Creating Sinfonia recipe "
                          ++ Uuid.to_string (sinfonia_uuid b) ++ nl);
                   Mkdir RECIPES;
                   WriteText (recipe_path (sinfonia_uuid b))
                             (recipe_body Demo.restricted_args b ++ c);
                   Input done_prompt l])%list).
Proof.
  pose proof recipe_access_block as [T1 [T2 [_ [T4 _]]]].
  split; [| split].
  - split; [reflexivity |].
    exact (T1 Demo.public_args (Demo.start []) eq_refl).
  - split; [reflexivity |]. split; [reflexivity |].
    split; [reflexivity |]. split; [reflexivity |].
    exact (T2 Demo.restricted_args "reg.example.com" "proj" "alice" "secret"
              (Demo.start []) eq_refl eq_refl eq_refl eq_refl).
  - split; [vm_compute; reflexivity |].
    assert (E : exists s', convert Demo.world Demo.restricted_args
                             (Demo.start ["Win 3.1"; ""]) = (Ok tt, s'))
      by (eexists; vm_compute; reflexivity).
    destruct E as [s' E].
    destruct (T4 Demo.world Demo.restricted_args
                 (Demo.start ["Win 3.1"; ""]) s' E)
      as [b [c [before [l [H _]]]]].
    exists b, c, before, l. exact H.
Defined.

(* ===================================================================== *)
(** ** Malformed credentials *)
(* ===================================================================== *)

(** With a deploy token and a registry that has no slash the recipe stage
    prints its announcement and fails at the unpacking of the registry. *)
Lemma emit_recipe_bare_registry (args : Args) (token : string) (b : Built)
      (s : state) :
  deploy_token args = Some token -> PyStr.has_char "/" (registry args) = false ->
  emit_recipe args b s
  = (Raise unpack_error,
     mkState (trace s ++ [Print ("Creating Sinfonia recipe "
                                 ++ Uuid.to_string (sinfonia_uuid b) ++ nl)])
             (stdin s)).
Proof.
  intros H Hc. unfold emit_recipe, print. rewrite bind_emit.
  unfold credentials. rewrite H. unfold unpack_split.
  rewrite (partition_miss _ _ Hc).
  reflexivity.
Qed.

(** C7 as stated fails: the conversion with the token "alicesecret" ends
    with the [ValueError] of a failed unpacking, which is no error about
    credentials: the conversion with the token "alice:secret" and the
    registry "reg.example.com" ends with the very same exception.  The
    failure comes late, too: the image has been pushed by then. *)
Lemma malformed_credentials_error_is_generic :
  deploy_token Demo.malformed_args = Some "alicesecret"
  /\ fst (convert Demo.world Demo.malformed_args (Demo.start ["Win 3.1"]))
     = Raise (ValueError "not enough values to unpack (expected 2, got 1)")
  /\ deploy_token bare_registry_args = Some "alice:secret"
  /\ fst (convert Demo.world bare_registry_args (Demo.start ["Win 3.1"]))
     = Raise (ValueError "not enough values to unpack (expected 2, got 1)")
  /\ ~ spec_invalid_credentials
         (ValueError "not enough values to unpack (expected 2, got 1)")
  /\ In (Run ["docker"; "push"; "reg.example.com/proj/" ++ Demo.identity ++ ":latest"])
        (events_of (convert Demo.world Demo.malformed_args)
                   (Demo.start ["Win 3.1"])).
Proof.
  split; [reflexivity |].
  split; [vm_compute; reflexivity |].
  split; [reflexivity |].
  split; [vm_compute; reflexivity |].
  split.
  - intros H.
    apply (H Demo.world bare_registry_args "alice:secret"
             (Demo.start ["Win 3.1"]) eq_refl eq_refl).
    vm_compute. reflexivity.
  - vm_compute. tauto.
Qed.

(** C7 (as amended): with a deploy token that contains no colon, a
    conversion writes no recipe file, whatever else happens; it always
    ends with an exception (never normally, never with [SystemExit]); and
    when the [with] block completes, the exception is the [ValueError]
    "not enough values to unpack (expected 2, got 1)" of the unpacking
    of [args.registry.split("/", 1)] or of
    [args.deploy_token.split(":", 1)], raised after the announcement of
    the recipe and before the recipe directory is made or the file
    written; in a temporary working directory the image has been pushed
    and removed locally and the directory cleaned up just before.  The
    exception does not name the credentials: with any deploy token, a
    registry without a slash ends the recipe stage with the same one. *)
Theorem malformed_credentials_fail_before_recipe
        (w : World) (args : Args) (token : string) (s : state) :
  deploy_token args = Some token -> PyStr.has_char ":" token = false ->
  Forall (fun e => ~ writes_recipe e) (events_of (convert w args) s)
  /\ (exists e, fst (convert w args s) = Raise e)
  /\ (forall b s1,
         dry_run args = [] -> with_block w args s = (Ok b, s1) ->
         convert w args s
         = (Raise (ValueError "not enough values to unpack (expected 2, got 1)"),
            mkState (trace s1 ++ [Print ("Creating Sinfonia recipe "
                                         ++ Uuid.to_string (sinfonia_uuid b)
                                         ++ nl)])
                    (stdin s1))
         /\ (tmp_dir args = None ->
             exists before,
               trace s1
               = (before
                    ++ [Print ("Publishing containerDisk image" ++ nl);
                        Run ["docker"; "push";
                             docker_tag args (sinfonia_uuid b)];
                        Run ["docker"; "image"; "rm";
                             docker_tag args (sinfonia_uuid b)];
                        Rmtree (w_mkdtemp w)])%list))
  /\ (forall args' token' b s0,
         deploy_token args' = Some token' ->
         PyStr.has_char "/" (registry args') = false ->
         emit_recipe args' b s0
         = (Raise (ValueError "not enough values to unpack (expected 2, got 1)"),
            mkState (trace s0 ++ [Print ("Creating Sinfonia recipe "
                                         ++ Uuid.to_string (sinfonia_uuid b)
                                         ++ nl)])
                    (stdin s0))).
Proof.
  intros H Hc. split; [| split; [| split]].
  - apply emits_events_of. unfold convert.
    apply emits_bind; [destruct (dry_run args); [apply emits_ret | apply emits_raise] |].
    intros _. apply emits_bind; [apply with_block_writes_no_recipe |].
    intros b s0. eexists. rewrite (emit_recipe_malformed args token b s0 H Hc).
    split; [reflexivity |]. constructor; [not_a_write | constructor].
  - unfold convert. destruct (dry_run args); [| eexists; reflexivity].
    unfold bind at 1. unfold ret at 1. unfold bind.
    pose proof (with_block_no_exit w args token H s) as Hne.
    destruct (with_block w args s) as [[b | e | n] s1].
    + rewrite (emit_recipe_malformed args token b s1 H Hc). eexists. reflexivity.
    + eexists. reflexivity.
    + exfalso. apply (Hne n). reflexivity.
  - intros b s1 Hd Hb. split.
    + unfold convert. rewrite Hd.
      unfold bind at 1. unfold ret at 1.
      rewrite (bind_ok _ _ _ _ _ Hb).
      apply (emit_recipe_malformed args token b s1 H Hc).
    + intros Ht.
      destruct (with_block_ok_inv w args s s1 b Hb) as [sb [sp [_ [Hp Hs1]]]].
      destruct (publish_ok_inv _ _ _ _ _ _ Hp) as [consent [Htr [_ [Hno _]]]].
      assert (Hcons : consent = []) by (apply Hno; rewrite H; discriminate).
      subst consent.
      exists (trace sb ++ [Unlink (path_join (working_dir w args) ".dockerignore");
                           Unlink (path_join (working_dir w args) "Dockerfile");
                           Unlink (path_join (working_dir w args) "disk.qcow2");
                           Rmdir (working_dir w args)])%list.
      rewrite Hs1, Htr. unfold published_events, left_events. rewrite Ht.
      cbn [app]. repeat rewrite <- app_assoc. reflexivity.
  - intros args' token' b s0 H' Hr.
    apply (emit_recipe_bare_registry args' token' b s0 H' Hr).
Qed.

Lemma malformed_credentials_fail_before_recipe_witness :
  deploy_token Demo.malformed_args = Some "alicesecret"
  /\ PyStr.has_char ":" "alicesecret" = false
  /\ Forall (fun e => ~ writes_recipe e)
            (events_of (convert Demo.world Demo.malformed_args)
                       (Demo.start ["Win 3.1"]))
  /\ (exists e, fst (convert Demo.world Demo.malformed_args
                       (Demo.start ["Win 3.1"])) = Raise e)
  /\ written_paths (events_of (convert Demo.world Demo.malformed_args)
                              (Demo.start ["Win 3.1"]))
     = ["/var/tmp/tmpab12/.dockerignore"; "/var/tmp/tmpab12/Dockerfile"]
  /\ (exists b s1,
         dry_run Demo.malformed_args = []
         /\ tmp_dir Demo.malformed_args = None
         /\ with_block Demo.world Demo.malformed_args (Demo.start ["Win 3.1"])
            = (Ok b, s1)
         /\ convert Demo.world Demo.malformed_args (Demo.start ["Win 3.1"])
            = (Raise (ValueError "not enough values to unpack (expected 2, got 1)"),
               mkState (trace s1 ++ [Print ("Creating Sinfonia recipe "
                                            ++ Uuid.to_string (sinfonia_uuid b)
                                            ++ nl)])
                       (stdin s1))
         /\ exists before,
             trace s1
             = (before
                  ++ [Print ("Publishing containerDisk image" ++ nl);
                      Run ["docker"; "push";
                           docker_tag Demo.malformed_args (sinfonia_uuid b)];
                      Run ["docker"; "image"; "rm";
                           docker_tag Demo.malformed_args (sinfonia_uuid b)];
                      Rmtree (w_mkdtemp Demo.world)])%list)
  /\ (deploy_token bare_registry_args = Some "alice:secret"
      /\ PyStr.has_char "/" (registry bare_registry_args) = false
      /\ forall b s0,
          emit_recipe bare_registry_args b s0
          = (Raise (ValueError "not enough values to unpack (expected 2, got 1)"),
             mkState (trace s0 ++ [Print ("Creating Sinfonia recipe "
                                          ++ Uuid.to_string (sinfonia_uuid b)
                                          ++ nl)])
                     (stdin s0))).
Proof.
  pose proof (malformed_credentials_fail_before_recipe
                Demo.world Demo.malformed_args "alicesecret"
                (Demo.start ["Win 3.1"]) eq_refl eq_refl) as [H1 [H2 [H3 H4]]].
  split; [reflexivity | split; [reflexivity | split; [exact H1 |]]].
  split; [exact H2 |].
  split; [vm_compute; reflexivity |].
  split.
  - assert (Hb : exists b s1,
               with_block Demo.world Demo.malformed_args (Demo.start ["Win 3.1"])
               = (Ok b, s1))
      by (eexists; eexists; vm_compute; reflexivity).
    destruct Hb as [b [s1 Hb]].
    destruct (H3 b s1 eq_refl Hb) as [H5 H6].
    exists b, s1. split; [reflexivity |]. split; [reflexivity |].
    split; [exact Hb |]. split; [exact H5 | exact (H6 eq_refl)].
  - split; [reflexivity |]. split; [reflexivity |].
    intros b s0.
    exact (H4 bare_registry_args "alice:secret" b s0 eq_refl eq_refl).
Defined.

(* ===================================================================== *)
(** ** The identity derivation and malformed text *)
(* ===================================================================== *)

(** The messages of the bracket tests of [urlsplit]. *)
Lemma netloc_complaint_messages (netloc message : string) :
  UrlParse.netloc_complaint netloc = Some message ->
  message = "Invalid IPv6 URL"
  \/ message = "IPvFuture address is invalid"
  \/ message = "An IPv4 address cannot be in brackets"
  \/ exists hostname,
      message = PyStr.repr hostname
                ++ " does not appear to be an IPv4 or IPv6 address".
Proof.
  assert (Hhost : forall h,
             UrlParse.check_bracketed_host h = Some message ->
             message = "Invalid IPv6 URL"
             \/ message = "IPvFuture address is invalid"
             \/ message = "An IPv4 address cannot be in brackets"
             \/ exists hostname,
                 message = PyStr.repr hostname
                           ++ " does not appear to be an IPv4 or IPv6 address").
  { intros h. unfold UrlParse.check_bracketed_host.
    destruct (PyStr.startswith "v" h).
    - destruct (UrlParse.ipvfuture h); [discriminate |].
      intros H. injection H as <-. right. left. reflexivity.
    - destruct (IpAddress.valid4 h).
      + intros H. injection H as <-. right. right. left. reflexivity.
      + destruct (IpAddress.valid6 h); [discriminate |].
        intros H. injection H as <-. right. right. right.
        exists h. reflexivity. }
  unfold UrlParse.netloc_complaint.
  destruct (xorb _ _).
  - intros H. injection H as <-. left. reflexivity.
  - destruct (_ && _); [| discriminate].
    unfold UrlParse.check_bracketed_netloc.
    destruct (PyStr.partition "[" _) as [[before bracketed] |].
    + destruct (negb (UrlParse.is_empty before)).
      * intros H. injection H as <-. left. reflexivity.
      * destruct (PyStr.partition "]" bracketed) as [[h p] |].
        -- destruct (negb (UrlParse.is_empty p) && negb (PyStr.startswith ":" p)).
           ++ intros H. injection H as <-. left. reflexivity.
           ++ apply Hhost.
        -- destruct (negb (UrlParse.is_empty "") && negb (PyStr.startswith ":" "")).
           ++ intros H. injection H as <-. left. reflexivity.
           ++ apply Hhost.
    + apply Hhost.
Qed.

(** When [urlsplit] raises, the message is that of a bracket test. *)
Lemma urlsplit_none_inv (url : string) :
  UrlParse.urlsplit url = None ->
  exists netloc,
    UrlParse.netloc_complaint netloc = Some (UrlParse.complaint url).
Proof.
  unfold UrlParse.urlsplit, UrlParse.complaint, UrlParse.netloc_part.
  destruct (UrlParse.split_scheme _) as [sch u3].
  destruct (UrlParse.strip_2slash u3) as [rest |].
  - destruct (UrlParse.splitnetloc rest) as [n r]. cbn [fst].
    destruct (UrlParse.netloc_complaint n) as [m |] eqn:E.
    + intros _. exists n. exact E.
    + destruct (UrlParse.path_part r) as [[p q] f]. discriminate.
  - destruct (UrlParse.path_part u3) as [[p q] f]. discriminate.
Qed.

(** C9 as stated fails: the text "not a url" is no absolute URL, and the
    derivation returns an identity for it instead of failing. *)
Lemma derivation_of_malformed_text :
  option_map Uuid.to_string (vmnetx_url_to_uuid "not a url")
  = Some "276194d1-6226-545d-957a-59c57902fd9c".
Proof. vm_compute. reflexivity. Qed.

(** C9 (as amended): the identity derivation does not validate its
    argument.  For every text without a square bracket, an absolute URL or
    not, it returns a 128-bit identity; whenever [urlparse] returns, the
    derivation returns.  Its only failure is the [ValueError] of
    [urlparse], which a run passes on unchanged: the text then has a
    square bracket, and the message is one of the four of the bracket
    tests of [urlsplit].  The empty string, the relative reference "h/p",
    a text with a bracket in its path and a bracketed IPv6 host have
    identities; an unmatched bracket and the bracketed hosts "foo",
    "1.2.3.4" and "v1" have none.  Texts are sequences of code points
    below 256. *)
Theorem derivation_accepts_unvalidated_text :
  (forall url,
      PyStr.has_char "[" url = false -> PyStr.has_char "]" url = false ->
      exists u, vmnetx_url_to_uuid url = Some u /\ 0 <= u < 2 ^ 128)
  /\ (forall url r s,
         UrlParse.urlparse url = Some r ->
         exists u, derive url s = (Ok u, s) /\ 0 <= u < 2 ^ 128)
  /\ (forall url s,
         vmnetx_url_to_uuid url = None ->
         derive url s = (Raise (ValueError (UrlParse.complaint url)), s)
         /\ UrlParse.urlparse url = None
         /\ (PyStr.has_char "[" url = true \/ PyStr.has_char "]" url = true)
         /\ (UrlParse.complaint url = "Invalid IPv6 URL"
             \/ UrlParse.complaint url = "IPvFuture address is invalid"
             \/ UrlParse.complaint url = "An IPv4 address cannot be in brackets"
             \/ exists hostname,
                 UrlParse.complaint url
                 = PyStr.repr hostname
                   ++ " does not appear to be an IPv4 or IPv6 address"))
  /\ option_map Uuid.to_string (vmnetx_url_to_uuid "")
     = Some "d0893c24-e03d-5d82-b2fe-e1b0abb93720"
  /\ option_map Uuid.to_string (vmnetx_url_to_uuid "h/p")
     = Some "9bf1b4ab-d5a8-506c-bacf-e8bb970d6ae8"
  /\ option_map Uuid.to_string (vmnetx_url_to_uuid "vmnetx://h/p]")
     = Some "d14db85b-ebd1-5b1d-8684-2f873ff5fc24"
  /\ option_map Uuid.to_string (vmnetx_url_to_uuid "vmnetx://[::1]/p")
     = Some "24baf36a-994d-5509-852e-051c7fde62d8"
  /\ (vmnetx_url_to_uuid "http://[::1/p" = None
      /\ UrlParse.complaint "http://[::1/p" = "Invalid IPv6 URL")
  /\ (vmnetx_url_to_uuid "vmnetx://[foo]/p" = None
      /\ UrlParse.complaint "vmnetx://[foo]/p"
         = "'foo' does not appear to be an IPv4 or IPv6 address")
  /\ (vmnetx_url_to_uuid "vmnetx://[1.2.3.4]/p" = None
      /\ UrlParse.complaint "vmnetx://[1.2.3.4]/p"
         = "An IPv4 address cannot be in brackets")
  /\ (vmnetx_url_to_uuid "vmnetx://[v1]/p" = None
      /\ UrlParse.complaint "vmnetx://[v1]/p" = "IPvFuture address is invalid").
Proof.
  assert (P1 : forall url,
             PyStr.has_char "[" url = false -> PyStr.has_char "]" url = false ->
             exists u, vmnetx_url_to_uuid url = Some u /\ 0 <= u < 2 ^ 128).
  { intros url Ho Hc.
    destruct (urlparse_total_without_brackets url Ho Hc) as [r Hr].
    unfold vmnetx_url_to_uuid. rewrite Hr. eexists. split; [reflexivity |].
    apply uuid5_128. }
  split; [exact P1 |].
  split; [| split].
  - intros url r s Hr. unfold derive, vmnetx_url_to_uuid. rewrite Hr.
    eexists. split; [reflexivity | apply uuid5_128].
  - intros url s H. split; [| split; [| split]].
    + unfold derive. rewrite H. reflexivity.
    + unfold vmnetx_url_to_uuid in H.
      destruct (UrlParse.urlparse url); [discriminate | reflexivity].
    + destruct (PyStr.has_char "[" url) eqn:Ho; [left; reflexivity |].
      destruct (PyStr.has_char "]" url) eqn:Hc; [right; reflexivity |].
      destruct (P1 url Ho Hc) as [u [Hu _]]. rewrite Hu in H. discriminate.
    + assert (Hs : UrlParse.urlsplit url = None).
      { unfold vmnetx_url_to_uuid, UrlParse.urlparse in H.
        destruct (UrlParse.urlsplit url) as [r |]; [| reflexivity].
        exfalso. revert H.
        match goal with |- context [let (_, _) := ?x in _] => destruct x end.
        discriminate. }
      destruct (urlsplit_none_inv url Hs) as [n Hn].
      exact (netloc_complaint_messages n _ Hn).
  - repeat split; vm_compute; reflexivity.
Qed.

Lemma derivation_accepts_unvalidated_text_witness :
  PyStr.has_char "[" "not a url" = false
  /\ PyStr.has_char "]" "not a url" = false
  /\ (exists u, vmnetx_url_to_uuid "not a url" = Some u /\ 0 <= u < 2 ^ 128)
  /\ (exists r, UrlParse.urlparse "vmnetx://h/p]" = Some r)
  /\ (exists u, derive "vmnetx://h/p]" (Demo.start []) = (Ok u, Demo.start [])
                /\ 0 <= u < 2 ^ 128)
  /\ vmnetx_url_to_uuid "vmnetx://[foo]/p" = None
  /\ derive "vmnetx://[foo]/p" (Demo.start [])
     = (Raise (ValueError (UrlParse.complaint "vmnetx://[foo]/p")), Demo.start []).
Proof.
  pose proof derivation_accepts_unvalidated_text as [T1 [T2 [T3 _]]].
  split; [reflexivity | split; [reflexivity | split; [| split; [| split; [| split]]]]].
  - exact (T1 "not a url" eq_refl eq_refl).
  - eexists. vm_compute. reflexivity.
  - assert (Hr : exists r, UrlParse.urlparse "vmnetx://h/p]" = Some r)
      by (eexists; vm_compute; reflexivity).
    destruct Hr as [r Hr].
    exact (T2 "vmnetx://h/p]" r (Demo.start []) Hr).
  - vm_compute. reflexivity.
  - assert (Hn : vmnetx_url_to_uuid "vmnetx://[foo]/p" = None)
      by (vm_compute; reflexivity).
    exact (proj1 (T3 "vmnetx://[foo]/p" (Demo.start []) Hn)).
Defined.

(* ===================================================================== *)
(** ** The length header of the download *)
(* ===================================================================== *)

(** A read of a response that declares no byte returns nothing. *)
Lemma clip_nothing (bufs : list Z) : clip 0 bufs = [].
Proof. destruct bufs; reflexivity. Qed.

(** X12: the download trusts the [content-length] header.  Once the
    request has been made, a response without the header ends the
    conversion's download with the [TypeError] of [int(None)] and a header
    [int] does not accept with its [ValueError], both before a byte is
    written.  A header of 0 on a chunked response whose first buffer is not
    empty ends it with [ZeroDivisionError] at the first progress line,
    after that buffer has been written; on a response that is not chunked
    the reads are clipped to the declared length, so a header of 0 ends
    the download normally with nothing written. *)
Theorem download_trusts_length_header
        (w : World) (args : Args) (pkg : string) (s : state)
        (r : UrlParse.ParseResult) (src : Response) :
  UrlParse.urlparse (url args) = Some r ->
  w_urlopen w (https_url r) = Some src ->
  let requested :=
    mkState (trace s ++ request_events (https_url r)) (stdin s) in
  (content_length src = None ->
   fetch w args pkg s
   = (Raise (TypeError ("int() argument must be a string, a bytes-like "
                        ++ "object or a real number, not 'NoneType'")),
      requested))
  /\ (forall h,
         content_length src = Some h -> PyInt.int h = None ->
         fetch w args pkg s
         = (Raise (ValueError (PyInt.complaint h)), requested))
  /\ (forall h n rest,
         content_length src = Some h -> PyInt.int h = Some 0 ->
         chunked src = true ->
         chunks src = n :: rest -> 0 < n ->
         fetch w args pkg s
         = (Raise ZeroDivisionError,
            mkState (trace s ++ request_events (https_url r)
                       ++ [WriteChunk pkg n])
                    (stdin s)))
  /\ (forall h,
         content_length src = Some h -> PyInt.int h = Some 0 ->
         chunked src = false ->
         fetch w args pkg s
         = (Ok tt,
            mkState (trace s ++ request_events (https_url r) ++ [Print nl])
                    (stdin s))).
Proof.
  intros Hr Hs requested.
  assert (E : forall k : Response -> M unit,
             bind (lift (ValueError (UrlParse.complaint (url args)))
                        (UrlParse.urlparse (url args)))
                  (fun r0 =>
                     let u := https_url r0 in
                     bind (print ("Fetching " ++ u ++ nl))
                          (fun _ => bind (emit (Urlopen u))
                                         (fun _ => bind (lift URLError (w_urlopen w u)) k)))
                  s
             = k src requested).
  { intros k. rewrite Hr. unfold lift at 1. unfold bind at 1, ret at 1.
    cbv zeta. unfold print. rewrite !bind_emit. rewrite Hs.
    unfold lift, bind at 1, ret at 1. cbn [trace stdin].
    unfold requested, request_events. rewrite <- app_assoc. reflexivity. }
  unfold fetch. unfold https_url in E.
  split; [| split; [| split]].
  - intros Hc. rewrite E, Hc. reflexivity.
  - intros h Hc Hi. rewrite E, Hc. unfold lift at 1, bind at 1, ret at 1.
    unfold int. rewrite Hi. reflexivity.
  - intros h n rest Hc Hi Hk Hch Hn. rewrite E, Hc.
    unfold lift at 1, bind at 1, ret at 1. unfold int. rewrite Hi.
    unfold lift at 1, bind at 1, ret at 1.
    unfold reads, declared_length. rewrite Hk, Hch.
    cbn [copy_loop]. destruct (Z.leb_spec n 0) as [Hle | _]; [lia |].
    unfold bind at 1. rewrite bind_emit. unfold floordiv.
    cbn [Z.eqb]. unfold bind, raise. cbn [trace stdin].
    unfold requested. cbn [trace stdin]. rewrite <- app_assoc. reflexivity.
  - intros h Hc Hi Hk. rewrite E, Hc.
    unfold lift at 1, bind at 1, ret at 1. unfold int. rewrite Hi.
    unfold lift at 1, bind at 1, ret at 1.
    unfold reads, declared_length. rewrite Hk, Hc, Hi. cbn [Z.ltb Z.compare].
    rewrite clip_nothing. cbn [copy_loop].
    unfold bind at 1, ret at 1. unfold print, emit.
    unfold requested. cbn [trace stdin]. rewrite <- app_assoc. reflexivity.
Qed.

Lemma download_trusts_length_header_witness :
  fetch zero_length_world Demo.public_args "pkg.zip" (Demo.start [])
  = (Raise ZeroDivisionError,
     mkState ([] ++ request_events "https://h/p?q#f" ++ [WriteChunk "pkg.zip" 4])
             [])
  /\ fetch plain_zero_length_world Demo.public_args "pkg.zip" (Demo.start [])
     = (Ok tt,
        mkState ([] ++ request_events "https://h/p?q#f" ++ [Print nl]) [])
  /\ fetch silent_header_world Demo.public_args "pkg.zip" (Demo.start [])
     = (Raise (TypeError ("int() argument must be a string, a bytes-like "
                          ++ "object or a real number, not 'NoneType'")),
        mkState ([] ++ request_events "https://h/p?q#f") [])
  /\ fetch wrong_header_world Demo.public_args "pkg.zip" (Demo.start [])
     = (Raise (ValueError (PyInt.complaint "ten")),
        mkState ([] ++ request_events "https://h/p?q#f") []).
Proof.
  split; [| split; [| split]].
  - exact (proj1 (proj2 (proj2 (download_trusts_length_header
                         zero_length_world Demo.public_args "pkg.zip"
                         (Demo.start [])
                         (UrlParse.mkParse "vmnetx" "h" "/p" "" "q" "f")
                         (mkResponse (Some "0") true [4])
                         eq_refl eq_refl)))
               "0" 4 [] eq_refl eq_refl eq_refl eq_refl eq_refl).
  - exact (proj2 (proj2 (proj2 (download_trusts_length_header
                         plain_zero_length_world Demo.public_args "pkg.zip"
                         (Demo.start [])
                         (UrlParse.mkParse "vmnetx" "h" "/p" "" "q" "f")
                         (mkResponse (Some "0") false [4])
                         eq_refl eq_refl)))
               "0" eq_refl eq_refl eq_refl).
  - exact (proj1 (download_trusts_length_header
                         silent_header_world Demo.public_args "pkg.zip"
                         (Demo.start [])
                         (UrlParse.mkParse "vmnetx" "h" "/p" "" "q" "f")
                         (mkResponse None false [4])
                         eq_refl eq_refl)
               eq_refl).
  - exact (proj1 (proj2 (download_trusts_length_header
                         wrong_header_world Demo.public_args "pkg.zip"
                         (Demo.start [])
                         (UrlParse.mkParse "vmnetx" "h" "/p" "" "q" "f")
                         (mkResponse (Some "ten") false [4])
                         eq_refl eq_refl))
               "ten" eq_refl eq_refl).
Defined.
